(** * VSCodeDeviceManager: a shallow embedding of vscode-device-cleaner.js

    The class [VSCodeDeviceManager] rewrites the identity files of an editor
    installation: it resets the identifiers kept in [storage.json], deletes
    the telemetry database after taking a backup, and empties the
    workspace-storage directory.  Every method is embedded as a function in
    a state-and-exception monad over a small model of the Node.js runtime
    (file system, console, clock, random source).

    Layout: JavaScript values, the runtime model, the methods of the class
    in source order, then the lemmas and the theorems about them. *)

From Stdlib Require Import Floats.
From stdpp Require Import gmap strings list fin_maps pretty sorting.
From Stdlib Require Import ZArith NArith Ascii HexadecimalString.

Set Warnings "-register-all,-clear-no-such-hyp".

(** ** JavaScript values *)

(** Values as [JSON.parse] produces them, plus [undefined].  Objects are
    finite maps from property names to values.  Numbers are the doubles
    of the language. *)
Inductive value :=
| VUndefined
| VNull
| VBool (b : bool)
| VNum (x : float)
| VStr (s : string)
| VArr (l : list value)
| VObj (m : gmap string value).

(** ToBoolean. *)
Definition truthy (v : value) : bool :=
  match v with
  | VUndefined | VNull => false
  | VBool b => b
  | VNum x => negb (PrimFloat.is_zero x || PrimFloat.is_nan x)
  | VStr EmptyString => false
  | VStr _ => true
  | VArr _ | VObj _ => true
  end.

(** [haystack.includes(needle)]: case-sensitive substring test. *)
Fixpoint includes (needle haystack : string) : bool :=
  String.prefix needle haystack ||
  match haystack with
  | EmptyString => false
  | String _ rest => includes needle rest
  end.

(** [n.toString(16)] for a non-negative integer. *)
Definition toString16 (n : N) : string :=
  NilZero.string_of_uint (N.to_hex_uint n).

(** ** The runtime *)

(** Exceptions the methods can meet: [JSON.parse] on malformed text, a
    property access on [null], and a failing [fs] call with its code. *)
Inductive error :=
| SyntaxError
| TypeError
| SystemError (code : string).

(** A path is the list of its segments; [path.join] appends segments. *)
Definition path := list string.

Definition path_join (p : path) (segments : list string) : path :=
  app p segments.

(** [p + suffix] on the path string: the text lands on the last segment. *)
Fixpoint path_concat (p : path) (suffix : string) : path :=
  match p with
  | [] => [suffix]
  | [x] => [x +:+ suffix]
  | x :: rest => x :: path_concat rest suffix
  end.

Fixpoint path_str (p : path) : string :=
  match p with
  | [] => ""
  | x :: rest => "/" +:+ x +:+ path_str rest
  end.

(** How a JSON document is written down.  [JSON.stringify(v, null, 2)]
    prints one particular text; a document can be any other text with the
    same reading (other white space, another order of the keys, other
    spellings of a number), and such texts are told apart by a number. *)
Inductive layout :=
| Stringified
| Written (n : N).

(** What a file holds.  A file whose text is a JSON document is
    represented by its layout and the value [JSON.parse] reads from it;
    any other file is a sequence of bytes, on which [JSON.parse] throws. *)
Inductive content :=
| Json (text : layout) (v : value)
| Blob (bytes : list Byte.byte).

Inductive node :=
| File (c : content)
| Dir.

Definition isDirectory (n : node) : bool :=
  match n with Dir => true | File _ => false end.

(** The [fs] calls the class makes, used to name the ones that fail for
    reasons outside the tree (permissions, a full disk). *)
Inductive fsop :=
| OpRead (p : path)
| OpWrite (p : path)
| OpCopy (src dst : path)
| OpUnlink (p : path)
| OpReaddir (p : path)
| OpStat (p : path)
| OpRm (p : path).

Inductive level := Info | Error.

Inductive logArg :=
| LStr (s : string)
| LPath (p : path)
| LErr (e : error).

Definition logEntry : Type := level * list logArg.

(** What a run cannot change: home directory, environment, the failing
    [fs] calls, the reading of [Date.now()], and the random source.  The
    [n]-th call of [Math.random()] returns the double [random n mod 2^53 /
    2^53], which lies in [0, 1). *)
Record host := Host {
  homeDir : path;
  env : gmap string string;
  faults : fsop → bool;
  clock : N;
  random : nat → N
}.

(** What a run changes: the file tree (keyed by path), the console, and
    the number of random draws taken. *)
Record world := World {
  fs : gmap path node;
  console : list logEntry;
  draws : nat
}.

Inductive outcome (A : Type) :=
| Ok (a : A)
| Throw (e : error).
Arguments Ok {A} a.
Arguments Throw {A} e.

(** State and exceptions: effects made before a [throw] stay. *)
Definition M (A : Type) : Type := world → outcome A * world.

Definition ret {A} (a : A) : M A := λ w, (Ok a, w).

Definition bind {A B} (m : M A) (k : A → M B) : M B :=
  λ w, match m w with
       | (Ok a, w') => k a w'
       | (Throw e, w') => (Throw e, w')
       end.

Definition throw {A} (e : error) : M A := λ w, (Throw e, w).

(** [try { body } catch (error) { handler }] *)
Definition try_catch {A} (body : M A) (handler : error → M A) : M A :=
  λ w, match body w with
       | (Ok a, w') => (Ok a, w')
       | (Throw e, w') => handler e w'
       end.

#[export] Instance M_ret : MRet M := @ret.
#[export] Instance M_bind : MBind M := λ A B k m, bind m k.

(** [items.forEach(item => ...)] where the callback updates captured
    variables, here the accumulator. *)
Fixpoint forEach {A S} (items : list A) (body : A → S → M S) (s : S) : M S :=
  match items with
  | [] => mret s
  | item :: rest => s' ← body item s; forEach rest body s'
  end.

Definition set_fs (f : gmap path node) (w : world) : world :=
  World f (console w) (draws w).

Definition emit (e : logEntry) (w : world) : world :=
  World (fs w) (app (console w) [e]) (draws w).

Definition logger_info (args : list logArg) : M unit :=
  λ w, (Ok tt, emit (Info, args) w).

Definition logger_error (args : list logArg) : M unit :=
  λ w, (Ok tt, emit (Error, args) w).

(** [storage[key]] for a key that is neither an index nor a built-in
    property name. *)
Definition get_prop (o : value) (key : string) : M value :=
  match o with
  | VUndefined | VNull => throw TypeError
  | VObj m => mret (default VUndefined (m !! key))
  | _ => mret VUndefined
  end.

(** [storage[key] = v]; the class body is strict code. *)
Definition set_prop (o : value) (key : string) (v : value) : M value :=
  match o with
  | VObj m => mret (VObj (<[key := v]> m))
  | VArr l => mret (VArr l)
  | _ => throw TypeError
  end.

(** [delete storage[key]] *)
Definition delete_prop (o : value) (key : string) : M value :=
  match o with
  | VUndefined | VNull => throw TypeError
  | VObj m => mret (VObj (delete key m))
  | _ => mret o
  end.

Definition JSON_parse (text : content) : M value :=
  match text with
  | Json _ v => mret v
  | Blob _ => throw SyntaxError
  end.

(** The value read back from the text [JSON.stringify] prints for [v]: a
    number that is not finite is printed as [null] and the negative zero
    as [0]; a member holding [undefined] is left out of an object and
    printed as [null] in an array. *)
Fixpoint jsonify (v : value) : value :=
  match v with
  | VNum x =>
      if PrimFloat.is_finite x
      then if PrimFloat.is_zero x then VNum 0%float else VNum x
      else VNull
  | VArr l =>
      VArr (map (λ x, match x with VUndefined => VNull | _ => jsonify x end) l)
  | VObj m =>
      VObj (omap (λ x, match x with
                       | VUndefined => None
                       | _ => Some (jsonify x)
                       end) m)
  | _ => v
  end.

Definition JSON_stringify (v : value) : content :=
  Json Stringified (jsonify v).

(** [child_name dir p] is [Some name] when [p] is [dir/name]. *)
Fixpoint child_name (dir p : path) : option string :=
  match dir, p with
  | [], [name] => Some name
  | d :: dir', x :: p' => if decide (d = x) then child_name dir' p' else None
  | _, _ => None
  end.

(** The order of two names by their bytes. *)
Definition name_le (x y : string) : Prop := String.leb x y = true.

#[export] Instance name_le_dec (x y : string) : Decision (name_le x y) :=
  decide (String.leb x y = true).

(** Removal of a path with everything beneath it. *)
Definition remove_tree (p : path) (f : gmap path node) : gmap path node :=
  filter (λ kv, ¬ (p `prefix_of` kv.1)) f.

Section Runtime.

Variable h : host.

(** *** [fs] *)

(** A call named by [faults] throws and leaves the tree as it was. *)
Definition guarded {A} (op : fsop) (m : M A) : M A :=
  if faults h op then throw (SystemError "EACCES") else m.

Definition existsSync (p : path) : M bool :=
  λ w, (Ok (bool_decide (is_Some (fs w !! p))), w).

Definition readFileSync (p : path) : M content :=
  guarded (OpRead p) (λ w,
    match fs w !! p with
    | Some (File c) => (Ok c, w)
    | Some Dir => (Throw (SystemError "EISDIR"), w)
    | None => (Throw (SystemError "ENOENT"), w)
    end).

Definition writeFileSync (p : path) (c : content) : M unit :=
  guarded (OpWrite p) (λ w,
    match fs w !! p with
    | Some Dir => (Throw (SystemError "EISDIR"), w)
    | _ => (Ok tt, set_fs (<[p := File c]> (fs w)) w)
    end).

Definition copyFileSync (src dst : path) : M unit :=
  guarded (OpCopy src dst) (λ w,
    match fs w !! src with
    | Some (File c) =>
        match fs w !! dst with
        | Some Dir => (Throw (SystemError "EISDIR"), w)
        | _ => (Ok tt, set_fs (<[dst := File c]> (fs w)) w)
        end
    | Some Dir => (Throw (SystemError "EISDIR"), w)
    | None => (Throw (SystemError "ENOENT"), w)
    end).

Definition unlinkSync (p : path) : M unit :=
  guarded (OpUnlink p) (λ w,
    match fs w !! p with
    | Some (File _) => (Ok tt, set_fs (delete p (fs w)) w)
    | Some Dir => (Throw (SystemError "EISDIR"), w)
    | None => (Throw (SystemError "ENOENT"), w)
    end).

(** The names are listed in the ascending order of their bytes. *)
Definition readdirSync (p : path) : M (list string) :=
  guarded (OpReaddir p) (λ w,
    match fs w !! p with
    | Some Dir =>
        (Ok (merge_sort name_le
               (omap (child_name p) (map fst (map_to_list (fs w))))), w)
    | Some (File _) => (Throw (SystemError "ENOTDIR"), w)
    | None => (Throw (SystemError "ENOENT"), w)
    end).

Definition statSync (p : path) : M node :=
  guarded (OpStat p) (λ w,
    match fs w !! p with
    | Some n => (Ok n, w)
    | None => (Throw (SystemError "ENOENT"), w)
    end).

(** [fs.rmSync(p, { recursive: true, force: true })]: a missing path is
    not an error. *)
Definition rmSync (p : path) : M unit :=
  guarded (OpRm p) (λ w, (Ok tt, set_fs (remove_tree p (fs w)) w)).

(** *** [Date.now()], [Math.random()], [process.env] *)

Definition Date_now : M N := λ w, (Ok (clock h), w).

(** The numerator [k] of the double [k / 2^53]. *)
Definition Math_random : M N :=
  λ w, (Ok (random h (draws w) mod 2 ^ 53)%N,
        World (fs w) (console w) (S (draws w))).

Definition process_env (name : string) : value :=
  match env h !! name with
  | Some s => VStr s
  | None => VUndefined
  end.

(** ** The class *)

(** The own members of [this.supportedApps]. *)
Definition supportedApps : gmap string string :=
  {[ "Code" := ".vscode"; "Windsurf" := ".windsurf"; "Cursor" := ".cursor" ]}.

(** The table is a plain object: a lookup also finds the members every
    object inherits from [Object.prototype]. *)
Definition objectPrototype : list string :=
  [ "constructor"; "__defineGetter__"; "__defineSetter__"; "hasOwnProperty";
    "__lookupGetter__"; "__lookupSetter__"; "isPrototypeOf";
    "propertyIsEnumerable"; "toString"; "valueOf"; "__proto__";
    "toLocaleString" ].

(** [this.supportedApps[appName]]: an own member is a non-empty string, an
    inherited one a function ([__proto__]: the prototype object), and
    both are truthy. *)
Inductive member :=
| Own (configDir : string)
| Inherited
| Missing.

Definition supportedApps_get (appName : string) : member :=
  match supportedApps !! appName with
  | Some configDir => Own configDir
  | None =>
      if bool_decide (appName ∈ objectPrototype) then Inherited else Missing
  end.

Definition detectVSCodeVariant : M string :=
  let currentApp :=
    if truthy (process_env "VSCODE_PID") then "Code"
    else if truthy (process_env "WINDSURF_PID") then "Windsurf"
    else if truthy (process_env "CURSOR_PID") then "Cursor"
    else "Code" in
  logger_info [LStr "Detected VS Code variant:"; LStr currentApp];;
  mret currentApp.

(** [appName] is [None] for [null]. *)
Definition getUserDataPath (appName : option string) : M path :=
  appName ← match appName with
            | Some s => if truthy (VStr s) then mret s else detectVSCodeVariant
            | None => detectVSCodeVariant
            end;
  match supportedApps_get appName with
  | Inherited =>
      (* [path.join] takes strings only *)
      throw TypeError
  | found =>
      let configDir :=
        match found with Own configDir => configDir | _ => ".vscode" end in
      let userDataPath := path_join (homeDir h) [configDir] in
      logger_info [LStr "User data path:"; LPath userDataPath];;
      mret userDataPath
  end.

Definition getMachineIdPath (appName : option string) : M path :=
  userDataPath ← getUserDataPath appName;
  mret (path_join userDataPath ["User"; "globalStorage"; "storage.json"]).

Definition getTelemetryPath (appName : option string) : M path :=
  userDataPath ← getUserDataPath appName;
  mret (path_join userDataPath ["User"; "globalStorage"; "state.vscdb"]).

Definition getWorkspaceStatePath (appName : option string) : M path :=
  userDataPath ← getUserDataPath appName;
  mret (path_join userDataPath ["User"; "workspaceStorage"]).

(** [userId] is [None] for [undefined]. *)
Definition clearUserCache (userId : option string) : M value :=
  match userId with
  | None | Some EmptyString => mret VUndefined
  | Some userId =>
      let cacheKey := "scoreInfo_" +:+ userId in
      storagePath ← getMachineIdPath None;
      present ← existsSync storagePath;
      (if present : bool then
         try_catch
           (text ← readFileSync storagePath;
            storage ← JSON_parse text;
            cached ← get_prop storage cacheKey;
            if truthy cached then
              storage ← delete_prop storage cacheKey;
              writeFileSync storagePath (JSON_stringify storage);;
              logger_info
                [LStr ("Cleared user's scoreInfo cache for ID: " +:+ userId)]
            else mret tt)
           (λ error, logger_error [LStr "Error clearing cache:"; LErr error])
       else mret tt);;
      mret VUndefined
  end.

Definition uuidTemplate : string := "xxxxxxxx-xxxx-4xxx-yxxx-xxxxxxxxxxxx".

(** The callback of [replace]: one random draw per matched character. *)
Definition uuidDigit (c : Ascii.ascii) : M string :=
  k ← Math_random;
  let r := (k * 16 / 2 ^ 53)%N in
  let v := if Ascii.eqb c "x"%char then r else N.lor (N.land r 3) 8 in
  mret (toString16 v).

(** [template.replace(/[xy]/g, callback)], matches taken left to right. *)
Fixpoint replace_xy (callback : Ascii.ascii → M string) (template : string)
  : M string :=
  match template with
  | EmptyString => mret EmptyString
  | String c rest =>
      if Ascii.eqb c "x"%char || Ascii.eqb c "y"%char then
        piece ← callback c;
        tail ← replace_xy callback rest;
        mret (piece +:+ tail)
      else
        tail ← replace_xy callback rest;
        mret (String c tail)
  end.

Definition generateNewUUID : M string := replace_xy uuidDigit uuidTemplate.

Definition identifierKeys : list string :=
  [ "telemetry.machineId"; "telemetry.devDeviceId"; "telemetry.sessionId";
    "machineId"; "deviceId"; "sessionId" ].

(** The value a recognised key is reset to. *)
Definition replacement (newMachineId newDeviceId newSessionId key : string)
  : string :=
  if includes "machine" key then newMachineId
  else if includes "device" key then newDeviceId
  else newSessionId.

Definition resetKey (newMachineId newDeviceId newSessionId : string)
  (key : string) (storage : value) : M value :=
  current ← get_prop storage key;
  if truthy current then
    storage ← set_prop storage key
      (VStr (replacement newMachineId newDeviceId newSessionId key));
    logger_info [LStr ("Reset " +:+ key)];;
    mret storage
  else mret storage.

Definition identifiers (newMachineId newDeviceId newSessionId : string)
  : value :=
  VObj {[ "machineId" := VStr newMachineId;
          "deviceId" := VStr newDeviceId;
          "sessionId" := VStr newSessionId ]}.

Definition resetDeviceIdentifiers (appName : option string) : M value :=
  userDataPath ← getUserDataPath appName;
  storagePath ← getMachineIdPath appName;
  logger_info [LStr "Resetting device identifiers..."];;
  try_catch
    (newMachineId ← generateNewUUID;
     newDeviceId ← generateNewUUID;
     newSessionId ← generateNewUUID;
     present ← existsSync storagePath;
     (if present : bool then
        text ← readFileSync storagePath;
        storage ← JSON_parse text;
        storage ← forEach identifierKeys
                     (resetKey newMachineId newDeviceId newSessionId) storage;
        writeFileSync storagePath (JSON_stringify storage);;
        logger_info [LStr "Device identifiers reset successfully"]
      else mret tt);;
     mret (identifiers newMachineId newDeviceId newSessionId))
    (λ error,
       logger_error [LStr "Error resetting device identifiers:"; LErr error];;
       throw error).

Definition cleanTelemetryData (appName : option string) : M value :=
  telemetryPath ← getTelemetryPath appName;
  logger_info [LStr "Cleaning telemetry data..."];;
  try_catch
    (present ← existsSync telemetryPath;
     if present : bool then
       now ← Date_now;
       let backupPath :=
         path_concat telemetryPath (".backup." +:+ pretty now) in
       copyFileSync telemetryPath backupPath;;
       unlinkSync telemetryPath;;
       logger_info [LStr "Telemetry data cleared"];;
       logger_info [LStr "Backup created at:"; LPath backupPath]
     else mret tt)
    (λ error, logger_error [LStr "Error cleaning telemetry:"; LErr error]);;
  mret VUndefined.

Definition clearItem (workspaceStoragePath : path) (item : string)
  (clearedCount : nat) : M nat :=
  let itemPath := path_join workspaceStoragePath [item] in
  stats ← statSync itemPath;
  if isDirectory stats then
    rmSync itemPath;;
    mret (S clearedCount)
  else mret clearedCount.

Definition clearWorkspaceStorage (appName : option string) : M value :=
  workspaceStoragePath ← getWorkspaceStatePath appName;
  logger_info [LStr "Clearing workspace storage..."];;
  try_catch
    (present ← existsSync workspaceStoragePath;
     if present : bool then
       items ← readdirSync workspaceStoragePath;
       clearedCount ← forEach items (clearItem workspaceStoragePath) 0;
       logger_info
         [LStr ("Cleared " +:+ pretty clearedCount
                +:+ " workspace storage items")]
     else mret tt)
    (λ error,
       logger_error [LStr "Error clearing workspace storage:"; LErr error]);;
  mret VUndefined.

(** The [options] argument; [None] is a property left out. *)
Record options := Options {
  resetIdentifiers : option bool;
  cleanTelemetry : option bool;
  clearWorkspace : option bool;
  clearCache : option bool
}.

Definition refreshVSCodeDevice (appName : option string) (opts : options)
  : M value :=
  let resetIdentifiers := default true (resetIdentifiers opts) in
  let cleanTelemetry := default true (cleanTelemetry opts) in
  let clearWorkspace := default false (clearWorkspace opts) in
  let clearCache := default true (clearCache opts) in
  logger_info [LStr "Starting VS Code device refresh..."];;
  try_catch
    (results ← (if resetIdentifiers : bool then
                  ids ← resetDeviceIdentifiers appName;
                  mret (<["identifiers" := ids]> (∅ : gmap string value))
                else mret ∅);
     results ← (if cleanTelemetry : bool then
                  cleanTelemetryData appName;;
                  mret (<["telemetryCleared" := VBool true]> results)
                else mret results);
     results ← (if clearWorkspace : bool then
                  clearWorkspaceStorage appName;;
                  mret (<["workspaceCleared" := VBool true]> results)
                else mret results);
     results ← (if clearCache : bool then
                  mret (<["cacheCleared" := VBool true]> results)
                else mret results);
     logger_info [LStr "VS Code device refresh completed successfully"];;
     mret (VObj results))
    (λ error,
       logger_error [LStr "Error during device refresh:"; LErr error];;
       throw error).

(** [a || b] with [b] evaluated only when [a] is falsy. *)
Definition js_or (a : value) (b : M value) : M value :=
  if truthy a then mret a else b.

Definition getCurrentDeviceInfo (appName : option string) : M value :=
  storagePath ← getMachineIdPath appName;
  returned ← try_catch
    (present ← existsSync storagePath;
     if present : bool then
       text ← readFileSync storagePath;
       storage ← JSON_parse text;
       m1 ← get_prop storage "telemetry.machineId";
       machineId ← js_or m1 (get_prop storage "machineId");
       d1 ← get_prop storage "telemetry.devDeviceId";
       deviceId ← js_or d1 (get_prop storage "deviceId");
       s1 ← get_prop storage "telemetry.sessionId";
       sessionId ← js_or s1 (get_prop storage "sessionId");
       mret (Some (VObj {[ "machineId" := machineId;
                           "deviceId" := deviceId;
                           "sessionId" := sessionId;
                           "storagePath" := VStr (path_str storagePath) ]}))
     else mret None)
    (λ error,
       logger_error [LStr "Error reading device info:"; LErr error];;
       mret None);
  mret (default VNull returned).

End Runtime.

(** ** Definitions the statements use *)

(** Several console entries at once. *)
Definition emits (l : list logEntry) (w : world) : world :=
  World (fs w) (console w ++ l) (draws w).

(** The variant [detectVSCodeVariant] reports. *)
Definition variantOf (h : host) : string :=
  if truthy (process_env h "VSCODE_PID") then "Code"
  else if truthy (process_env h "WINDSURF_PID") then "Windsurf"
  else if truthy (process_env h "CURSOR_PID") then "Cursor"
  else "Code".

Definition detectLog (h : host) : logEntry :=
  (Info, [LStr "Detected VS Code variant:"; LStr (variantOf h)]).

(** [appName || this.detectVSCodeVariant()] *)
Definition appOf (h : host) (appName : option string) : string :=
  match appName with
  | Some s => if truthy (VStr s) then s else variantOf h
  | None => variantOf h
  end.

(** The name selects no inherited member of the table, so that
    [getUserDataPath] returns; the detected variant never does. *)
Definition locatable (h : host) (appName : option string) : Prop :=
  appOf h appName ∉ objectPrototype.

Definition userDataDir (h : host) (appName : option string) : path :=
  path_join (homeDir h) [default ".vscode" (supportedApps !! appOf h appName)].

(** What one call of [getUserDataPath] prints. *)
Definition locatorLog (h : host) (appName : option string) : list logEntry :=
  match appName with
  | Some s => if truthy (VStr s) then [] else [detectLog h]
  | None => [detectLog h]
  end ++ [(Info, [LStr "User data path:"; LPath (userDataDir h appName)])].

Definition storagePath (h : host) (appName : option string) : path :=
  path_join (userDataDir h appName) ["User"; "globalStorage"; "storage.json"].

Definition telemetryPath (h : host) (appName : option string) : path :=
  path_join (userDataDir h appName) ["User"; "globalStorage"; "state.vscdb"].

Definition workspacePath (h : host) (appName : option string) : path :=
  path_join (userDataDir h appName) ["User"; "workspaceStorage"].

Definition backupPath (h : host) (appName : option string) : path :=
  path_concat (telemetryPath h appName) (".backup." +:+ pretty (clock h)).

(** What [JSON.stringify] and [JSON.parse] make of the members of an
    object. *)
Definition jsonMember (v : value) : option value :=
  match v with
  | VUndefined => None
  | _ => Some (jsonify v)
  end.

Definition jsonRecord (m : gmap string value) : gmap string value :=
  omap jsonMember m.

(** [v] is read back as it is written. *)
Definition roundTrips (v : value) : Prop := jsonMember v = Some v.

(** The value the JSON document at [p] reads as. *)
Definition parsedAt (f : gmap path node) (p : path) : option value :=
  match f !! p with
  | Some (File (Json _ v)) => Some v
  | _ => None
  end.

(** The record kept in the file at [p], when that file is a JSON object. *)
Definition recordAt (f : gmap path node) (p : path)
  : option (gmap string value) :=
  match f !! p with
  | Some (File (Json _ (VObj m))) => Some m
  | _ => None
  end.

(** The digit the [n]-th random draw gives for template character [c]. *)
Definition digitAt (h : host) (c : Ascii.ascii) (n : nat) : string :=
  let k := (random h n mod 2 ^ 53)%N in
  let r := (k * 16 / 2 ^ 53)%N in
  toString16 (if Ascii.eqb c "x"%char then r else N.lor (N.land r 3) 8).

(** The template filled in from the draws numbered [n], [n + 1], ... *)
Fixpoint fill (h : host) (template : string) (n : nat) : string :=
  match template with
  | EmptyString => EmptyString
  | String c rest =>
      if Ascii.eqb c "x"%char || Ascii.eqb c "y"%char
      then digitAt h c n +:+ fill h rest (S n)
      else String c (fill h rest n)
  end.

Fixpoint count_xy (template : string) : nat :=
  match template with
  | EmptyString => 0
  | String c rest =>
      if Ascii.eqb c "x"%char || Ascii.eqb c "y"%char
      then S (count_xy rest) else count_xy rest
  end.

(** The identifier produced when [n] draws have been taken before. *)
Definition uuidFrom (h : host) (n : nat) : string := fill h uuidTemplate n.

Definition isHex (c : Ascii.ascii) : bool :=
  bool_decide (c ∈ String.list_ascii_of_string "0123456789abcdef").

Definition isVariantDigit (c : Ascii.ascii) : bool :=
  bool_decide (c ∈ String.list_ascii_of_string "89ab").

Fixpoint allHex (s : string) : bool :=
  match s with
  | EmptyString => true
  | String c rest => isHex c && allHex rest
  end.

(** The in-memory effect of the [forEach] over [identifierKeys]. *)
Definition resetField (newMachineId newDeviceId newSessionId : string)
  (m : gmap string value) (key : string) : gmap string value :=
  if truthy (default VUndefined (m !! key))
  then <[key := VStr (replacement newMachineId newDeviceId newSessionId key)]> m
  else m.

Definition resetRecord (newMachineId newDeviceId newSessionId : string)
  (m : gmap string value) : gmap string value :=
  foldl (resetField newMachineId newDeviceId newSessionId) m identifierKeys.

(** The names [readdirSync] lists under [dir], and those that are
    directories. *)
Definition entries (f : gmap path node) (dir : path) : list string :=
  merge_sort name_le (omap (child_name dir) (map fst (map_to_list f))).

Definition isSubdir (f : gmap path node) (dir : path) (name : string) : bool :=
  match f !! path_join dir [name] with
  | Some Dir => true
  | _ => false
  end.

Definition subdirs (f : gmap path node) (dir : path) : list string :=
  filter (λ name, isSubdir f dir name = true) (entries f dir).

(** What the loop over [identifierKeys] makes of the parsed document. *)
Definition resetValue (nm nd ns : string) (v : value) : outcome value :=
  match v with
  | VUndefined | VNull => Throw TypeError
  | VObj m => Ok (VObj (resetRecord nm nd ns m))
  | _ => Ok v
  end.

(** Outcome and file tree of [resetDeviceIdentifiers] on tree [f] when [n]
    draws have been taken. *)
Definition resetOutcome (h : host) (a : option string)
  (f : gmap path node) (n : nat) : outcome value * gmap path node :=
  let nm := uuidFrom h n in
  let nd := uuidFrom h (31 + n) in
  let ns := uuidFrom h (62 + n) in
  let sp := storagePath h a in
  match f !! sp with
  | None => (Ok (identifiers nm nd ns), f)
  | Some node =>
      if faults h (OpRead sp) then (Throw (SystemError "EACCES"), f)
      else match node with
           | Dir => (Throw (SystemError "EISDIR"), f)
           | File (Blob _) => (Throw SyntaxError, f)
           | File (Json _ v) =>
               match resetValue nm nd ns v with
               | Throw e => (Throw e, f)
               | Ok v' =>
                   if faults h (OpWrite sp)
                   then (Throw (SystemError "EACCES"), f)
                   else (Ok (identifiers nm nd ns),
                         <[sp := File (JSON_stringify v')]> f)
               end
           end
  end.

(** *** The [fs] calls as functions on the file tree *)

Definition copyTree (h : host) (src dst : path) (f : gmap path node)
  : outcome unit * gmap path node :=
  if faults h (OpCopy src dst) then (Throw (SystemError "EACCES"), f)
  else match f !! src with
       | Some (File c) =>
           match f !! dst with
           | Some Dir => (Throw (SystemError "EISDIR"), f)
           | _ => (Ok tt, <[dst := File c]> f)
           end
       | Some Dir => (Throw (SystemError "EISDIR"), f)
       | None => (Throw (SystemError "ENOENT"), f)
       end.

Definition unlinkTree (h : host) (p : path) (f : gmap path node)
  : outcome unit * gmap path node :=
  if faults h (OpUnlink p) then (Throw (SystemError "EACCES"), f)
  else match f !! p with
       | Some (File _) => (Ok tt, delete p f)
       | Some Dir => (Throw (SystemError "EISDIR"), f)
       | None => (Throw (SystemError "ENOENT"), f)
       end.

(** Outcome and tree of the [try] block of [cleanTelemetryData]. *)
Definition cleanBody (h : host) (a : option string) (f : gmap path node)
  : outcome unit * gmap path node :=
  match f !! telemetryPath h a with
  | None => (Ok tt, f)
  | Some _ =>
      match copyTree h (telemetryPath h a) (backupPath h a) f with
      | (Ok _, f1) => unlinkTree h (telemetryPath h a) f1
      | (Throw e, f1) => (Throw e, f1)
      end
  end.

(** What [cleanTelemetryData] prints after the locator. *)
Definition cleanLog (h : host) (a : option string) (f : gmap path node)
  : list logEntry :=
  (Info, [LStr "Cleaning telemetry data..."]) ::
  match f !! telemetryPath h a, (cleanBody h a f).1 with
  | None, _ => []
  | Some _, Ok _ =>
      [ (Info, [LStr "Telemetry data cleared"]);
        (Info, [LStr "Backup created at:"; LPath (backupPath h a)]) ]
  | Some _, Throw e => [(Error, [LStr "Error cleaning telemetry:"; LErr e])]
  end.

(** The loop of [clearWorkspaceStorage] on the tree. *)
Fixpoint clearItems (h : host) (dir : path) (items : list string)
  (f : gmap path node) (clearedCount : nat) : outcome nat * gmap path node :=
  match items with
  | [] => (Ok clearedCount, f)
  | item :: rest =>
      let itemPath := path_join dir [item] in
      if faults h (OpStat itemPath) then (Throw (SystemError "EACCES"), f)
      else match f !! itemPath with
           | None => (Throw (SystemError "ENOENT"), f)
           | Some Dir =>
               if faults h (OpRm itemPath)
               then (Throw (SystemError "EACCES"), f)
               else clearItems h dir rest (remove_tree itemPath f)
                      (S clearedCount)
           | Some (File _) => clearItems h dir rest f clearedCount
           end
  end.

(** Outcome and tree of the [try] block of [clearWorkspaceStorage]; the
    count is [None] when the directory does not exist. *)
Definition clearBody (h : host) (a : option string) (f : gmap path node)
  : outcome (option nat) * gmap path node :=
  let dir := workspacePath h a in
  match f !! dir with
  | None => (Ok None, f)
  | Some node =>
      if faults h (OpReaddir dir) then (Throw (SystemError "EACCES"), f)
      else match node with
           | File _ => (Throw (SystemError "ENOTDIR"), f)
           | Dir =>
               match clearItems h dir (entries f dir) f 0 with
               | (Ok n, f') => (Ok (Some n), f')
               | (Throw e, f') => (Throw e, f')
               end
           end
  end.

Definition clearedMessage (clearedCount : nat) : logEntry :=
  (Info, [LStr ("Cleared " +:+ pretty clearedCount
                +:+ " workspace storage items")]).

(** What [clearWorkspaceStorage] prints after the locator. *)
Definition clearLog (h : host) (a : option string) (f : gmap path node)
  : list logEntry :=
  (Info, [LStr "Clearing workspace storage..."]) ::
  match (clearBody h a f).1 with
  | Ok (Some n) => [clearedMessage n]
  | Ok None => []
  | Throw e => [(Error, [LStr "Error clearing workspace storage:"; LErr e])]
  end.

(** [storage[key]] when [storage] is neither [null] nor [undefined]. *)
Definition propOf (storage : value) (key : string) : value :=
  match storage with
  | VObj m => default VUndefined (m !! key)
  | _ => VUndefined
  end.

(** [storage[k1] || storage[k2]] *)
Definition pick (storage : value) (k1 k2 : string) : value :=
  if truthy (propOf storage k1) then propOf storage k1 else propOf storage k2.

(** The value [getCurrentDeviceInfo] returns on tree [f]. *)
Definition infoValue (h : host) (a : option string) (f : gmap path node)
  : value :=
  let sp := storagePath h a in
  match f !! sp with
  | Some (File (Json _ storage)) =>
      if faults h (OpRead sp) then VNull
      else match storage with
           | VUndefined | VNull => VNull
           | _ =>
               VObj {[ "machineId" :=
                         pick storage "telemetry.machineId" "machineId";
                       "deviceId" :=
                         pick storage "telemetry.devDeviceId" "deviceId";
                       "sessionId" :=
                         pick storage "telemetry.sessionId" "sessionId";
                       "storagePath" := VStr (path_str sp) ]}
           end
  | _ => VNull
  end.

(** The tree after [clearUserCache] for a non-empty [userId]. *)
Definition cacheTree (h : host) (userId : string) (f : gmap path node)
  : gmap path node :=
  let sp := storagePath h None in
  let cacheKey := "scoreInfo_" +:+ userId in
  match f !! sp with
  | Some (File (Json _ (VObj m))) =>
      if faults h (OpRead sp) then f
      else if truthy (default VUndefined (m !! cacheKey)) then
             if faults h (OpWrite sp) then f
             else <[sp := File (JSON_stringify (VObj (delete cacheKey m)))]> f
           else f
  | _ => f
  end.

(** [item] of directory [dir] can be inspected and removed. *)
Definition healthy (h : host) (dir : path) (item : string) : Prop :=
  faults h (OpStat (path_join dir [item])) = false
  ∧ faults h (OpRm (path_join dir [item])) = false.

(** ** A sample installation *)

Definition sampleHost : host :=
  Host ["home"; "user"] ∅ (λ _, false) 1700000000000
       (λ n, (N.of_nat n * 2 ^ 49 + 5)%N).

Definition sampleRecord : gmap string value :=
  list_to_map
    [ ("telemetry.machineId", VStr "old-m"); ("deviceId", VStr "old-d");
      ("telemetry.sessionId", VStr "old-s");
      ("scoreInfo_user42", VStr "cached") ].

Definition sampleTelemetry : content := Blob [Byte.x53; Byte.x51; Byte.x4c].

Definition sampleTree (store : content) : gmap path node :=
  list_to_map
    [ (storagePath sampleHost None, File store);
      (telemetryPath sampleHost None, File sampleTelemetry);
      (workspacePath sampleHost None, Dir);
      (workspacePath sampleHost None ++ ["a"], Dir);
      (workspacePath sampleHost None ++ ["a"; "state.json"],
       File (Json Stringified (VObj ∅)));
      (workspacePath sampleHost None ++ ["b"], Dir);
      (workspacePath sampleHost None ++ ["notes.txt"], File (Blob [])) ].

Definition sampleWorld : world :=
  World (sampleTree (Json (Written 1) (VObj sampleRecord))) [] 0.

(** The same installation with a [storage.json] that is not JSON. *)
Definition brokenWorld : world := World (sampleTree (Blob [Byte.x7b])) [] 0.

(** An installation without any file. *)
Definition emptyWorld : world := World ∅ [] 0.

(** A store that keeps the device identifier under both of its names. *)
Definition deviceWorld : world :=
  World (sampleTree (Json (Written 1) (VObj (list_to_map
    [ ("telemetry.devDeviceId", VStr "old-dd"); ("deviceId", VStr "old-d") ]))))
    [] 0.

(** A host on which one workspace entry cannot be inspected. *)
Definition stuckHost (item : string) : host :=
  Host ["home"; "user"] ∅
       (λ op, match op with
              | OpStat p =>
                  bool_decide (p = workspacePath sampleHost None ++ [item])
              | _ => false
              end)
       1700000000000 (λ n, (N.of_nat n * 2 ^ 49 + 5)%N).

Definition defaults : options := Options None None None None.

(** The error [getCurrentDeviceInfo] prints, if any. *)
Definition infoLog (h : host) (a : option string) (f : gmap path node)
  : list logEntry :=
  let sp := storagePath h a in
  let failed e := [(Error, [LStr "Error reading device info:"; LErr e])] in
  match f !! sp with
  | None => []
  | Some node =>
      if faults h (OpRead sp) then failed (SystemError "EACCES")
      else match node with
           | Dir => failed (SystemError "EISDIR")
           | File (Blob _) => failed SyntaxError
           | File (Json _ (VUndefined | VNull)) => failed TypeError
           | File (Json _ _) => []
           end
  end.

(** The file tree [refreshVSCodeDevice] leaves behind, from tree [f] with
    [n] draws taken. *)
Definition refreshTree (h : host) (a : option string) (opts : options)
  (f : gmap path node) (n : nat) : gmap path node :=
  let r := if default true (resetIdentifiers opts)
           then resetOutcome h a f n else (Ok VUndefined, f) in
  match r.1 with
  | Throw _ => r.2
  | Ok _ =>
      let f2 := if default true (cleanTelemetry opts)
                then (cleanBody h a r.2).2 else r.2 in
      if default false (clearWorkspace opts)
      then (clearBody h a f2).2 else f2
  end.

(** The environment variable [name] is set to a non-empty string. *)
Definition envSet (h : host) (name : string) : Prop :=
  ∃ s, env h !! name = Some s ∧ s ≠ EmptyString.

(** ** The callers *)

(** What the extension shows to the user: the messages posted to the
    webview and the notifications of [vscode.window]. *)
Inductive severity := Information | Warning | Failure.

Record panel := Panel {
  posted : list value;
  notices : list (severity * string)
}.

(** The device manager's monad with the panel added. *)
Definition P (A : Type) : Type := world * panel → outcome A * (world * panel).

Definition liftM {A} (m : M A) : P A :=
  λ s, match m s.1 with (r, w') => (r, (w', s.2)) end.

Definition P_try_catch {A} (body : P A) (handler : error → P A) : P A :=
  λ s, match body s with
       | (Ok a, s') => (Ok a, s')
       | (Throw e, s') => handler e s'
       end.

#[export] Instance P_ret : MRet P := λ A a s, (Ok a, s).
#[export] Instance P_bind : MBind P := λ A B k m s,
  match m s with
  | (Ok a, s') => k a s'
  | (Throw e, s') => (Throw e, s')
  end.

Definition postMessage (message : value) : P unit :=
  λ s, (Ok tt, (s.1, Panel (posted s.2 ++ [message]) (notices s.2))).

Definition showMessage (kind : severity) (text : string) : P unit :=
  λ s, (Ok tt, (s.1, Panel (posted s.2) (notices s.2 ++ [(kind, text)]))).

(** [array.includes(x)] *)
Definition array_includes (x : string) (array : list string) : bool :=
  bool_decide (x ∈ array).

Definition newline : string := String "010" EmptyString.

Section Callers.

Variable h : host.

(** Text the runtime produces: [util.inspect] as [console.log] applies it
    to an object, [error.message], [Date.prototype.toISOString], and
    [JSON.stringify(v, null, 2)]. *)
Variable inspect : value → string.
Variable errorMessage : error → string.
Variable toISOString : N → string.
Variable stringify : value → string.

(** [console.log] writes where [console.info] writes. *)
Definition console_log (args : list logArg) : M unit := logger_info args.

Definition console_error (args : list logArg) : M unit := logger_error args.

(** [main] of vscode-device-cleaner.js, with [args] for
    [process.argv.slice(2)]. *)
Definition main (args : list string) : M value :=
  console_log [LStr "=== VS Code Device Manager ==="];;
  console_log [LStr (newline +:+ "Current device info:")];;
  currentInfo ← getCurrentDeviceInfo h None;
  console_log [LStr (inspect currentInfo)];;
  (if array_includes "--reset" args || array_includes "-r" args then
     console_log [LStr (newline +:+ "Resetting device identifiers...")];;
     results ← refreshVSCodeDevice h None
                  (Options (Some true)
                     (Some (array_includes "--telemetry" args))
                     (Some (array_includes "--workspace" args))
                     (Some true));
     console_log [LStr "Results:"; LStr (inspect results)]
   else if array_includes "--info" args || array_includes "-i" args then
     console_log [LStr (newline +:+ "Device information displayed above.")]
   else
     console_log [LStr (newline +:+ "Usage:")];;
     console_log [LStr "  node vscode-device-cleaner.js --reset          # Reset device IDs"];;
     console_log [LStr "  node vscode-device-cleaner.js --reset --telemetry  # Also clean telemetry"];;
     console_log [LStr "  node vscode-device-cleaner.js --info           # Show current info"];;
     console_log [LStr (newline +:+ "Options:")];;
     console_log [LStr "  --reset, -r       Reset device identifiers"];;
     console_log [LStr "  --telemetry       Clean telemetry data"];;
     console_log [LStr "  --workspace       Clear workspace storage"];;
     console_log [LStr "  --info, -i        Show current device info"]);;
  mret VUndefined.

(** [main().catch(console.error)] *)
Definition runMain (args : list string) : M value :=
  try_catch (main args)
    (λ error, console_error [LErr error];; mret VUndefined).

(** The callback of the command [vscode-learning-extension.deviceManager]
    in src/extension.js. *)
Definition deviceManagerCommand : P value :=
  P_try_catch
    (currentInfo ← liftM (getCurrentDeviceInfo h None);
     showMessage Information
       ("Current Device Info: " +:+ stringify currentInfo))
    (λ error,
       showMessage Failure
         ("Error getting device info: " +:+ errorMessage error));;
  mret VUndefined.

(** The case ['getCurrentDeviceInfo'] of [_handleMessage]. *)
Definition handleGetCurrentDeviceInfo : P unit :=
  P_try_catch
    (liftM (console_log [LStr "Extension: Getting device info..."]);;
     deviceInfo ← liftM (getCurrentDeviceInfo h None);
     liftM (console_log [LStr "Extension: Device info result:";
                         LStr (inspect deviceInfo)]);;
     if truthy deviceInfo then
       postMessage (VObj {[ "command" := VStr "deviceInfo";
                            "data" := deviceInfo ]})
     else
       storagePath ← liftM (getMachineIdPath h None);
       variant ← liftM (detectVSCodeVariant h);
       userDataPath ← liftM (getUserDataPath h None);
       let fallbackInfo :=
         VObj {[ "message" :=
                   VStr "No device information found in VS Code storage";
                 "storagePath" := VStr (path_str storagePath);
                 "variant" := VStr variant;
                 "userDataPath" := VStr (path_str userDataPath) ]} in
       postMessage (VObj {[ "command" := VStr "deviceInfo";
                            "data" := fallbackInfo ]}))
    (λ error,
       liftM (console_error [LStr "Extension: Error getting device info:";
                             LErr error]);;
       postMessage
         (VObj {[ "command" := VStr "error";
                  "data" := VObj {[ "message" := VStr (errorMessage error) ]} ]})).

(** The case ['resetDeviceIds'] of [_handleMessage]. *)
Definition handleResetDeviceIds : P unit :=
  P_try_catch
    (liftM (console_log [LStr "Extension: Resetting device identifiers..."]);;
     result ← liftM (resetDeviceIdentifiers h None);
     liftM (console_log [LStr "Extension: Reset result:";
                         LStr (inspect result)]);;
     if truthy result then
       postMessage (VObj {[ "command" := VStr "deviceReset";
                            "data" := result ]});;
       showMessage Information "Device identifiers reset successfully!"
     else
       let message :=
         "Device reset completed, but no storage file was found to update" in
       postMessage
         (VObj {[ "command" := VStr "deviceReset";
                  "data" := VObj {[ "message" := VStr message;
                                    "timestamp" :=
                                      VStr (toISOString (clock h)) ]} ]});;
       showMessage Warning message)
    (λ error,
       liftM (console_error [LStr "Extension: Error resetting device IDs:";
                             LErr error]);;
       postMessage
         (VObj {[ "command" := VStr "error";
                  "data" := VObj {[ "message" := VStr (errorMessage error) ]} ]});;
       showMessage Failure
         ("Error resetting device IDs: " +:+ errorMessage error)).

End Callers.

(** ** The monad *)

Lemma run_bind {A B} (m : M A) (k : A → M B) (w : world) :
  (m ≫= k) w =
  match m w with
  | (Ok a, w') => k a w'
  | (Throw e, w') => (Throw e, w')
  end.
Proof. reflexivity. Qed.

Lemma run_ret {A} (a : A) (w : world) : (mret a : M A) w = (Ok a, w).
Proof. reflexivity. Qed.

Lemma emits_nil w : emits [] w = w.
Proof. destruct w; unfold emits; simpl. by rewrite app_nil_r. Qed.

Lemma emit_emits e l w : emit e (emits l w) = emits (l ++ [e]) w.
Proof. unfold emit, emits; simpl. by rewrite app_assoc. Qed.

Lemma emits_emits l1 l2 w : emits l2 (emits l1 w) = emits (l1 ++ l2) w.
Proof. unfold emits; simpl. by rewrite app_assoc. Qed.

Lemma emit_one e w : emit e w = emits [e] w.
Proof. reflexivity. Qed.

(** ** The locator *)

Lemma detectVSCodeVariant_run h w :
  detectVSCodeVariant h w = (Ok (variantOf h), emits [detectLog h] w).
Proof. reflexivity. Qed.

Lemma variantOf_supported h : variantOf h ∈ ["Code"; "Windsurf"; "Cursor"].
Proof.
  unfold variantOf.
  repeat match goal with |- context [truthy ?v] => destruct (truthy v) end;
    set_solver.
Qed.

Lemma locatable_None h : locatable h None.
Proof.
  unfold locatable, appOf, variantOf.
  repeat match goal with |- context [truthy ?v] => destruct (truthy v) end;
    apply (bool_decide_unpack _); vm_compute; exact I.
Qed.

Lemma locatable_empty h : locatable h (Some EmptyString).
Proof. apply (locatable_None h). Qed.

(** A name that is not locatable is a non-empty inherited member. *)
Lemma not_locatable_inv h a :
  ¬ locatable h a →
  ∃ s, a = Some s ∧ truthy (VStr s) = true ∧ s ∈ objectPrototype
       ∧ appOf h a = s.
Proof.
  intros Hno. destruct a as [s|]; [|destruct Hno; apply locatable_None].
  destruct (truthy (VStr s)) eqn:Hs.
  - exists s. split; [done|]. split; [done|].
    split; [|by unfold appOf; rewrite Hs].
    apply dec_stable. intros Hout. apply Hno.
    unfold locatable, appOf. by rewrite Hs.
  - destruct Hno. unfold locatable, appOf. rewrite Hs.
    apply (locatable_None h).
Qed.

Lemma supportedApps_get_inherited s :
  s ∈ objectPrototype → supportedApps_get s = Inherited.
Proof.
  intros Hin. unfold objectPrototype in Hin.
  repeat (apply elem_of_cons in Hin as [->|Hin]; [reflexivity|]).
  by apply elem_of_nil in Hin.
Qed.

Lemma supportedApps_get_own s :
  s ∉ objectPrototype →
  supportedApps_get s
  = match supportedApps !! s with Some d => Own d | None => Missing end.
Proof.
  intros Hout. unfold supportedApps_get.
  destruct (supportedApps !! s); [done|]. by rewrite bool_decide_false.
Qed.

Lemma getUserDataPath_run h a w :
  locatable h a →
  getUserDataPath h a w = (Ok (userDataDir h a), emits (locatorLog h a) w).
Proof.
  intros Ha. apply supportedApps_get_own in Ha. revert Ha.
  unfold getUserDataPath, locatorLog, userDataDir, appOf.
  rewrite run_bind.
  destruct a as [s|]; [destruct (truthy (VStr s))|];
    rewrite ?detectVSCodeVariant_run, ?run_ret; cbv beta iota;
    intros ->;
    match goal with |- context [supportedApps !! ?k] =>
      destruct (supportedApps !! k) end;
    rewrite run_bind; unfold logger_info; rewrite run_ret;
    rewrite ?emit_emits, ?emit_one; reflexivity.
Qed.

(** For an inherited member [path.join] throws before anything is
    printed. *)
Lemma getUserDataPath_inherited h a w :
  ¬ locatable h a → getUserDataPath h a w = (Throw TypeError, w).
Proof.
  intros (s & -> & Hs & Hin & _)%not_locatable_inv.
  unfold getUserDataPath. rewrite Hs, run_bind, run_ret. cbv beta iota.
  by rewrite (supportedApps_get_inherited s Hin).
Qed.

Lemma getMachineIdPath_run h a w :
  locatable h a →
  getMachineIdPath h a w = (Ok (storagePath h a), emits (locatorLog h a) w).
Proof.
  intros Ha. unfold getMachineIdPath.
  by rewrite run_bind, getUserDataPath_run.
Qed.

Lemma getTelemetryPath_run h a w :
  locatable h a →
  getTelemetryPath h a w = (Ok (telemetryPath h a), emits (locatorLog h a) w).
Proof.
  intros Ha. unfold getTelemetryPath.
  by rewrite run_bind, getUserDataPath_run.
Qed.

Lemma getWorkspaceStatePath_run h a w :
  locatable h a →
  getWorkspaceStatePath h a w
  = (Ok (workspacePath h a), emits (locatorLog h a) w).
Proof.
  intros Ha. unfold getWorkspaceStatePath.
  by rewrite run_bind, getUserDataPath_run.
Qed.

Lemma getMachineIdPath_inherited h a w :
  ¬ locatable h a → getMachineIdPath h a w = (Throw TypeError, w).
Proof.
  intros Ha. unfold getMachineIdPath.
  by rewrite run_bind, getUserDataPath_inherited.
Qed.

Lemma getTelemetryPath_inherited h a w :
  ¬ locatable h a → getTelemetryPath h a w = (Throw TypeError, w).
Proof.
  intros Ha. unfold getTelemetryPath.
  by rewrite run_bind, getUserDataPath_inherited.
Qed.

Lemma getWorkspaceStatePath_inherited h a w :
  ¬ locatable h a → getWorkspaceStatePath h a w = (Throw TypeError, w).
Proof.
  intros Ha. unfold getWorkspaceStatePath.
  by rewrite run_bind, getUserDataPath_inherited.
Qed.

(** ** The identifier generator *)

Lemma uuidDigit_run h c w :
  uuidDigit h c w
  = (Ok (digitAt h c (draws w)), World (fs w) (console w) (S (draws w))).
Proof. reflexivity. Qed.

Lemma replace_xy_run h template : ∀ w,
  replace_xy (uuidDigit h) template w
  = (Ok (fill h template (draws w)),
     World (fs w) (console w) (count_xy template + draws w)).
Proof.
  induction template as [|c rest IH]; intros w.
  - by destruct w.
  - cbn [replace_xy fill count_xy].
    destruct (Ascii.eqb c "x" || Ascii.eqb c "y").
    + rewrite run_bind, uuidDigit_run, run_bind, IH. cbn [fs console draws].
      by rewrite Nat.add_succ_r.
    + by rewrite run_bind, IH.
Qed.

Lemma generateNewUUID_run h w :
  generateNewUUID h w
  = (Ok (uuidFrom h (draws w)), World (fs w) (console w) (31 + draws w)).
Proof.
  unfold generateNewUUID, uuidFrom. rewrite replace_xy_run.
  change (count_xy uuidTemplate) with 31. reflexivity.
Qed.

Lemma draw_below_16 (k : N) : (k mod 2 ^ 53 * 16 / 2 ^ 53 < 16)%N.
Proof.
  apply N.Div0.div_lt_upper_bound.
  pose proof (N.mod_upper_bound k (2 ^ 53)) as Hk. lia.
Qed.

Lemma below_16_cases (P : N → Prop) :
  Forall P (N.of_nat <$> seq 0 16) → ∀ r, (r < 16)%N → P r.
Proof.
  intros HP r Hr. rewrite Forall_forall in HP. apply HP.
  apply list_elem_of_fmap. exists (N.to_nat r). split; [lia|].
  apply elem_of_seq. lia.
Qed.

Lemma toString16_hex r :
  (r < 16)%N → ∃ c, toString16 r = String c EmptyString ∧ isHex c = true.
Proof.
  revert r. apply below_16_cases.
  repeat (constructor; [eexists; split; reflexivity|]). constructor.
Qed.

Lemma toString16_variant r :
  (r < 16)%N →
  ∃ c, toString16 (N.lor (N.land r 3) 8) = String c EmptyString
       ∧ isHex c = true ∧ isVariantDigit c = true.
Proof.
  revert r. apply below_16_cases.
  repeat (constructor; [eexists; repeat split; reflexivity|]). constructor.
Qed.

Lemma digitAt_shape h c n :
  ∃ d, digitAt h c n = String d EmptyString ∧ isHex d = true
       ∧ (Ascii.eqb c "x" = false → isVariantDigit d = true).
Proof.
  unfold digitAt. cbv zeta.
  pose proof (draw_below_16 (random h n)) as Hr.
  destruct (Ascii.eqb c "x").
  - destruct (toString16_hex _ Hr) as (d & -> & Hd). exists d. by repeat split.
  - destruct (toString16_variant _ Hr) as (d & -> & Hd & Hv).
    exists d. by repeat split.
Qed.

(** C8.  Whatever the random draws are, [generateNewUUID] returns a string
    of 36 characters made of five groups of 8, 4, 4, 4 and 12 lowercase
    hexadecimal digits separated by hyphens; the third group starts with
    [4] and the fourth group starts with one of [8], [9], [a], [b]. *)
Theorem generateNewUUID_shape (h : host) (w : world) :
  ∃ s w' g1 g2 g3 g4 g5 v,
    generateNewUUID h w = (Ok s, w')
    ∧ String.length s = 36
    ∧ s = g1 +:+ "-" +:+ g2 +:+ "-" +:+ String "4" g3 +:+ "-"
          +:+ String v g4 +:+ "-" +:+ g5
    ∧ String.length g1 = 8 ∧ String.length g2 = 4
    ∧ String.length (String "4" g3) = 4 ∧ String.length (String v g4) = 4
    ∧ String.length g5 = 12
    ∧ allHex g1 = true ∧ allHex g2 = true ∧ allHex g3 = true
    ∧ allHex g4 = true ∧ allHex g5 = true
    ∧ isVariantDigit v = true.
Proof.
  rewrite generateNewUUID_run. unfold uuidFrom, uuidTemplate.
  cbn [fill Ascii.eqb Bool.eqb orb].
  repeat match goal with
  | |- context [digitAt h ?c ?n] =>
      let d := fresh "d" in let Hd := fresh "Hd" in
      let Hx := fresh "Hx" in let Hv := fresh "Hv" in
      destruct (digitAt_shape h c n) as (d & Hd & Hx & Hv);
      rewrite Hd; clear Hd;
      try (specialize (Hv eq_refl))
  end.
  cbv [String.append].
  match goal with
  | |- ∃ s w' g1 g2 g3 g4 g5 v, (Ok ?u, ?w1) = _ ∧ _ =>
      exists u, w1
  end.
  match goal with
  | |- ∃ g1 g2 g3 g4 g5 v, (Ok (String ?a1 (String ?a2 (String ?a3 (String ?a4
         (String ?a5 (String ?a6 (String ?a7 (String ?a8 (String _
         (String ?b1 (String ?b2 (String ?b3 (String ?b4 (String _
         (String _ (String ?c2 (String ?c3 (String ?c4 (String _
         (String ?vd (String ?e2 (String ?e3 (String ?e4 (String _ ?g))))))))))
         )))))))))))))), _) = _ ∧ _ =>
      exists (String a1 (String a2 (String a3 (String a4
                (String a5 (String a6 (String a7 (String a8 "")))))))),
             (String b1 (String b2 (String b3 (String b4 "")))),
             (String c2 (String c3 (String c4 ""))),
             (String e2 (String e3 (String e4 ""))), g, vd
  end.
  cbn [allHex String.length].
  repeat match goal with H : isHex _ = true |- _ => rewrite H; clear H end.
  repeat split; try reflexivity; assumption.
Qed.

(** ** Resetting the identifiers *)

Ltac locate := first [ assumption | apply locatable_None ].

Ltac mstep :=
  repeat first
    [ rewrite run_bind
    | rewrite run_ret
    | rewrite getUserDataPath_run by locate
    | rewrite getMachineIdPath_run by locate
    | rewrite getTelemetryPath_run by locate
    | rewrite getWorkspaceStatePath_run by locate
    | rewrite generateNewUUID_run
    | progress cbv beta iota ].

Lemma logger_info_run args w :
  logger_info args w = (Ok tt, emits [(Info, args)] w).
Proof. reflexivity. Qed.

Lemma logger_error_run args w :
  logger_error args w = (Ok tt, emits [(Error, args)] w).
Proof. reflexivity. Qed.

Lemma resetKey_object nm nd ns key m w :
  ∃ l, resetKey nm nd ns key (VObj m) w
       = (Ok (VObj (resetField nm nd ns m key)), emits l w).
Proof.
  unfold resetKey, resetField. rewrite run_bind. cbn [get_prop]. rewrite run_ret.
  destruct (truthy (default VUndefined (m !! key))).
  - eexists. rewrite run_bind. cbn [set_prop]. rewrite run_ret, run_bind.
    rewrite logger_info_run, run_ret. reflexivity.
  - exists []. by rewrite run_ret, emits_nil.
Qed.

Lemma forEach_resetKey_object nm nd ns keys : ∀ m w,
  ∃ l, forEach keys (resetKey nm nd ns) (VObj m) w
       = (Ok (VObj (foldl (resetField nm nd ns) m keys)), emits l w).
Proof.
  induction keys as [|key keys IH]; intros m w.
  - exists []. cbn [forEach foldl]. by rewrite run_ret, emits_nil.
  - cbn [forEach foldl]. rewrite run_bind.
    destruct (resetKey_object nm nd ns key m w) as [l1 ->].
    destruct (IH (resetField nm nd ns m key) (emits l1 w)) as [l2 ->].
    exists (l1 ++ l2). by rewrite emits_emits.
Qed.

Lemma forEach_resetKey_run nm nd ns v w :
  ∃ l, forEach identifierKeys (resetKey nm nd ns) v w
       = (resetValue nm nd ns v, emits l w).
Proof.
  destruct v; try (exists []; rewrite emits_nil; reflexivity).
  apply forEach_resetKey_object.
Qed.

Ltac close_log :=
  unfold emits, set_fs, JSON_stringify; cbn [fs console draws fst snd];
  rewrite <- ?app_assoc; eexists; reflexivity.

Lemma resetDeviceIdentifiers_run h a w :
  locatable h a →
  ∃ l, resetDeviceIdentifiers h a w
       = ((resetOutcome h a (fs w) (draws w)).1,
          World (resetOutcome h a (fs w) (draws w)).2 (console w ++ l)
                (93 + draws w)).
Proof.
  intros Ha. unfold resetDeviceIdentifiers. mstep. rewrite logger_info_run. mstep.
  unfold try_catch. mstep. unfold existsSync. mstep.
  cbn [fs console draws emits].
  change (31 + (31 + (31 + draws w))) with (93 + draws w).
  change (31 + (31 + draws w)) with (62 + draws w).
  unfold resetOutcome. cbv zeta.
  destruct (fs w !! storagePath h a) as [node|] eqn:Hsp.
  - rewrite bool_decide_true by eauto.
    unfold readFileSync, writeFileSync, guarded. mstep.
    destruct (faults h (OpRead (storagePath h a))).
    { unfold throw. mstep. rewrite logger_error_run. mstep. close_log. }
    cbn [fs]. rewrite Hsp.
    destruct node as [[t v|bytes]|].
    + cbn [JSON_parse]. mstep.
      destruct (forEach_resetKey_run (uuidFrom h (draws w))
        (uuidFrom h (31 + draws w)) (uuidFrom h (62 + draws w)) v
        (World (fs w) (((console w ++ locatorLog h a) ++ locatorLog h a)
           ++ [(Info, [LStr "Resetting device identifiers..."])])
           (93 + draws w))) as [l ->].
      destruct (resetValue _ _ _ v) as [v'|e].
      * mstep. destruct (faults h (OpWrite (storagePath h a))).
        { unfold throw. mstep. rewrite logger_error_run. mstep. close_log. }
        cbn [fs emits]. rewrite Hsp. mstep. rewrite logger_info_run. mstep.
        close_log.
      * mstep. rewrite logger_error_run. mstep. unfold throw. close_log.
    + cbn [JSON_parse]. unfold throw. mstep. rewrite logger_error_run. mstep.
      close_log.
    + mstep. rewrite logger_error_run. mstep. unfold throw. close_log.
  - rewrite bool_decide_false by (intros [? ?]; congruence).
    mstep. close_log.
Qed.

(** With an inherited member for a name the locator throws before the
    [try] block is entered: nothing is printed and nothing is drawn. *)
Lemma resetDeviceIdentifiers_inherited h a w :
  ¬ locatable h a → resetDeviceIdentifiers h a w = (Throw TypeError, w).
Proof.
  intros Ha. unfold resetDeviceIdentifiers.
  by rewrite run_bind, getUserDataPath_inherited.
Qed.

(** ** The [fs] calls *)

Lemma set_fs_id w : set_fs (fs w) w = w.
Proof. by destruct w. Qed.

Lemma copyFileSync_run h src dst w :
  copyFileSync h src dst w
  = ((copyTree h src dst (fs w)).1, set_fs (copyTree h src dst (fs w)).2 w).
Proof.
  unfold copyFileSync, copyTree, guarded, throw.
  destruct (faults h (OpCopy src dst));
    [cbn [fst snd]; by rewrite set_fs_id|].
  destruct (fs w !! src) as [[c|]|]; cbn [fst snd]; rewrite ?set_fs_id; try done.
  destruct (fs w !! dst) as [[?|]|]; cbn [fst snd]; by rewrite ?set_fs_id.
Qed.

Lemma unlinkSync_run h p w :
  unlinkSync h p w
  = ((unlinkTree h p (fs w)).1, set_fs (unlinkTree h p (fs w)).2 w).
Proof.
  unfold unlinkSync, unlinkTree, guarded, throw.
  destruct (faults h (OpUnlink p));
    [cbn [fst snd]; by rewrite set_fs_id|].
  destruct (fs w !! p) as [[c|]|]; cbn [fst snd]; by rewrite ?set_fs_id.
Qed.

(** ** Cleaning the telemetry *)

Ltac wsimpl := unfold emits, set_fs; cbn [fs console draws fst snd].

Lemma cleanTelemetryData_run h a w :
  locatable h a →
  cleanTelemetryData h a w
  = (Ok VUndefined,
     World (cleanBody h a (fs w)).2
           (console w ++ locatorLog h a ++ cleanLog h a (fs w)) (draws w)).
Proof.
  intros Ha. unfold cleanTelemetryData. mstep. rewrite logger_info_run. mstep.
  unfold try_catch, existsSync, Date_now. mstep.
  unfold cleanLog, cleanBody, backupPath. wsimpl.
  destruct (fs w !! telemetryPath h a) as [node|] eqn:Htp.
  - rewrite bool_decide_true by eauto. mstep.
    rewrite copyFileSync_run. wsimpl.
    destruct (copyTree h (telemetryPath h a) _ (fs w))
      as [[[]|e] f1]; wsimpl.
    + mstep. rewrite unlinkSync_run. wsimpl.
      destruct (unlinkTree h (telemetryPath h a) f1) as [[[]|e] f2];
        wsimpl; mstep; rewrite ?logger_info_run, ?logger_error_run;
        mstep; rewrite ?logger_info_run; mstep; wsimpl;
        by rewrite <- !app_assoc.
    + mstep. rewrite logger_error_run. mstep. wsimpl.
      by rewrite <- !app_assoc.
  - rewrite bool_decide_false by (intros [? ?]; congruence).
    mstep. wsimpl. by rewrite <- !app_assoc.
Qed.

Lemma cleanTelemetryData_inherited h a w :
  ¬ locatable h a → cleanTelemetryData h a w = (Throw TypeError, w).
Proof.
  intros Ha. unfold cleanTelemetryData.
  by rewrite run_bind, getTelemetryPath_inherited.
Qed.

Lemma cleanTelemetryData_fs h a w :
  fs (cleanTelemetryData h a w).2
  = if decide (locatable h a) then (cleanBody h a (fs w)).2 else fs w.
Proof.
  destruct (decide (locatable h a)) as [Ha|Ha].
  - by rewrite cleanTelemetryData_run.
  - by rewrite cleanTelemetryData_inherited.
Qed.

(** ** Clearing the workspace storage *)

Lemma forEach_clearItem_run h dir items : ∀ cnt w,
  forEach items (clearItem h dir) cnt w
  = ((clearItems h dir items (fs w) cnt).1,
     set_fs (clearItems h dir items (fs w) cnt).2 w).
Proof.
  induction items as [|item rest IH]; intros cnt w.
  - cbn [forEach clearItems fst snd]. by rewrite run_ret, set_fs_id.
  - cbn [forEach clearItems]. rewrite run_bind.
    unfold clearItem, statSync, rmSync, guarded, throw. cbv zeta.
    rewrite run_bind.
    destruct (faults h (OpStat (path_join dir [item]))).
    { cbn [fst snd]. by rewrite set_fs_id. }
    destruct (fs w !! path_join dir [item]) as [[c|]|].
    + cbn [isDirectory]. rewrite run_ret, IH. reflexivity.
    + cbn [isDirectory]. rewrite run_bind.
      destruct (faults h (OpRm (path_join dir [item]))).
      { cbn [fst snd]. by rewrite set_fs_id. }
      rewrite run_ret, IH. wsimpl. reflexivity.
    + cbn [fst snd]. by rewrite set_fs_id.
Qed.


Lemma clearWorkspaceStorage_run h a w :
  locatable h a →
  clearWorkspaceStorage h a w
  = (Ok VUndefined,
     World (clearBody h a (fs w)).2
           (console w ++ locatorLog h a ++ clearLog h a (fs w)) (draws w)).
Proof.
  intros Ha. unfold clearWorkspaceStorage. mstep. rewrite logger_info_run. mstep.
  unfold try_catch, existsSync. mstep.
  unfold clearLog, clearBody. cbv zeta. wsimpl.
  destruct (fs w !! workspacePath h a) as [node|] eqn:Hwp.
  - rewrite bool_decide_true by eauto. mstep.
    unfold readdirSync, guarded, throw.
    destruct (faults h (OpReaddir (workspacePath h a))).
    { mstep. rewrite logger_error_run. mstep. wsimpl.
      by rewrite <- !app_assoc. }
    wsimpl. rewrite Hwp. destruct node as [c|].
    + mstep. rewrite logger_error_run. mstep. wsimpl.
      by rewrite <- !app_assoc.
    + mstep. rewrite forEach_clearItem_run. wsimpl.
      destruct (clearItems h (workspacePath h a) _ (fs w) 0) as [[n|e] f'];
        wsimpl; mstep; rewrite ?logger_info_run, ?logger_error_run; mstep;
        wsimpl; by rewrite <- !app_assoc.
  - rewrite bool_decide_false by (intros [? ?]; congruence).
    mstep. wsimpl. by rewrite <- !app_assoc.
Qed.

Lemma clearWorkspaceStorage_inherited h a w :
  ¬ locatable h a → clearWorkspaceStorage h a w = (Throw TypeError, w).
Proof.
  intros Ha. unfold clearWorkspaceStorage.
  by rewrite run_bind, getWorkspaceStatePath_inherited.
Qed.

Lemma clearWorkspaceStorage_fs h a w :
  fs (clearWorkspaceStorage h a w).2
  = if decide (locatable h a) then (clearBody h a (fs w)).2 else fs w.
Proof.
  destruct (decide (locatable h a)) as [Ha|Ha].
  - by rewrite clearWorkspaceStorage_run.
  - by rewrite clearWorkspaceStorage_inherited.
Qed.

(** ** Reading the identifiers *)

Lemma get_prop_run storage key w :
  storage ≠ VUndefined → storage ≠ VNull →
  get_prop storage key w = (Ok (propOf storage key), w).
Proof. by destruct storage. Qed.

Lemma js_or_pick storage k1 k2 w :
  storage ≠ VUndefined → storage ≠ VNull →
  js_or (propOf storage k1) (get_prop storage k2) w
  = (Ok (pick storage k1 k2), w).
Proof.
  intros H1 H2. unfold js_or, pick.
  destruct (truthy (propOf storage k1)); [done|]. by apply get_prop_run.
Qed.

Lemma getCurrentDeviceInfo_run h a w :
  locatable h a →
  getCurrentDeviceInfo h a w
  = (Ok (infoValue h a (fs w)),
     emits (locatorLog h a ++ infoLog h a (fs w)) w).
Proof.
  intros Ha. unfold getCurrentDeviceInfo. mstep.
  unfold try_catch, existsSync. mstep.
  unfold infoValue, infoLog. cbv zeta. wsimpl.
  destruct (fs w !! storagePath h a) as [node|] eqn:Hsp.
  - rewrite bool_decide_true by eauto. mstep.
    unfold readFileSync, guarded, throw.
    destruct (faults h (OpRead (storagePath h a))) eqn:Hf.
    { mstep. rewrite logger_error_run. mstep. wsimpl.
      destruct node as [[? ?|?]|]; by rewrite <- ?app_assoc. }
    wsimpl. rewrite Hsp. destruct node as [[t storage|bytes]|].
    + mstep. cbn [JSON_parse]. mstep.
      assert (Hcase : storage = VUndefined ∨ storage = VNull
                      ∨ (storage ≠ VUndefined ∧ storage ≠ VNull)).
      { destruct storage; auto. }
      destruct Hcase as [->|[->|[H1 H2]]].
      * cbn [get_prop]. unfold throw. mstep. rewrite logger_error_run.
        mstep. wsimpl. by rewrite <- ?app_assoc.
      * cbn [get_prop]. unfold throw. mstep. rewrite logger_error_run.
        mstep. wsimpl. by rewrite <- ?app_assoc.
      * rewrite !get_prop_run by done. mstep.
        rewrite !js_or_pick by done. mstep.
        rewrite !get_prop_run by done. mstep.
        rewrite !js_or_pick by done. mstep.
        rewrite !get_prop_run by done. mstep.
        rewrite !js_or_pick by done. mstep.
        wsimpl. destruct storage; try done; by rewrite app_nil_r.
    + cbn [JSON_parse]. unfold throw. mstep. rewrite logger_error_run. mstep.
      wsimpl. by rewrite <- ?app_assoc.
    + mstep. rewrite logger_error_run. mstep.
      wsimpl. by rewrite <- ?app_assoc.
  - rewrite bool_decide_false by (intros [? ?]; congruence).
    mstep. wsimpl. by rewrite app_nil_r.
Qed.


(** ** Clearing a cache entry *)

Lemma clearUserCache_none h w : clearUserCache h None w = (Ok VUndefined, w).
Proof. reflexivity. Qed.

Lemma clearUserCache_empty h w :
  clearUserCache h (Some EmptyString) w = (Ok VUndefined, w).
Proof. reflexivity. Qed.

Lemma clearUserCache_run h userId w :
  userId ≠ EmptyString →
  ∃ l, clearUserCache h (Some userId) w
       = (Ok VUndefined,
          World (cacheTree h userId (fs w)) (console w ++ l) (draws w)).
Proof.
  intros Hne. destruct userId as [|c s]; [done|].
  unfold clearUserCache. mstep. unfold existsSync, try_catch. mstep.
  unfold cacheTree. cbv zeta. wsimpl.
  set (uid := String c s). set (key := "scoreInfo_" +:+ uid).
  destruct (fs w !! storagePath h None) as [node|] eqn:Hsp.
  - rewrite bool_decide_true by eauto. mstep.
    unfold readFileSync, writeFileSync, guarded, throw.
    destruct (faults h (OpRead (storagePath h None))).
    { mstep. rewrite logger_error_run. mstep. wsimpl.
      destruct node as [[? []|?]|]; rewrite <- ?app_assoc; eexists; reflexivity. }
    wsimpl. rewrite Hsp. destruct node as [[t storage|bytes]|].
    + mstep. cbn [JSON_parse]. mstep.
      destruct storage as [| |b|z|s'|l|m];
        try (cbn [get_prop truthy]; unfold throw; mstep;
             rewrite ?logger_error_run; mstep; wsimpl; rewrite <- ?app_assoc; eexists; reflexivity).
      cbn [get_prop]. mstep.
      destruct (truthy (default VUndefined (m !! key))).
      * cbn [delete_prop]. mstep.
        destruct (faults h (OpWrite (storagePath h None))).
        { mstep. rewrite logger_error_run. mstep. wsimpl.
          rewrite <- ?app_assoc; eexists; reflexivity. }
        wsimpl. rewrite Hsp. mstep. rewrite logger_info_run. mstep. wsimpl.
        unfold JSON_stringify. rewrite <- ?app_assoc; eexists; reflexivity.
      * mstep. wsimpl. rewrite <- ?app_assoc; eexists; reflexivity.
    + cbn [JSON_parse]. unfold throw. mstep. rewrite logger_error_run. mstep.
      wsimpl. rewrite <- ?app_assoc; eexists; reflexivity.
    + mstep. rewrite logger_error_run. mstep. wsimpl. rewrite <- ?app_assoc; eexists; reflexivity.
  - rewrite bool_decide_false by (intros [? ?]; congruence).
    mstep. wsimpl. rewrite <- ?app_assoc; eexists; reflexivity.
Qed.

(** ** Paths *)

Lemma path_concat_snoc p x s : path_concat (p ++ [x]) s = p ++ [x +:+ s].
Proof.
  induction p as [|y p IH]; [done|].
  cbn [app]. destruct p as [|z p]; [done|].
  cbn [app path_concat] in *. by rewrite IH.
Qed.

Lemma telemetryPath_eq h a :
  telemetryPath h a = userDataDir h a ++ ["User"; "globalStorage"; "state.vscdb"].
Proof. reflexivity. Qed.

Lemma backupPath_eq h a :
  backupPath h a
  = userDataDir h a
    ++ ["User"; "globalStorage";
        "state.vscdb" +:+ ".backup." +:+ pretty (clock h)].
Proof.
  unfold backupPath, telemetryPath, path_join.
  change ["User"; "globalStorage"; "state.vscdb"]
    with (["User"; "globalStorage"] ++ ["state.vscdb"]).
  by rewrite app_assoc, path_concat_snoc, <- app_assoc.
Qed.

Lemma backup_ne_telemetry h a : backupPath h a ≠ telemetryPath h a.
Proof.
  rewrite backupPath_eq, telemetryPath_eq. intros H%app_inv_head.
  cbv [String.append] in H. discriminate H.
Qed.

Lemma storage_ne_telemetry h a : storagePath h a ≠ telemetryPath h a.
Proof.
  unfold storagePath, telemetryPath, path_join. intros H%app_inv_head.
  discriminate H.
Qed.

Lemma storage_ne_backup h a : storagePath h a ≠ backupPath h a.
Proof.
  rewrite backupPath_eq. unfold storagePath, path_join. intros H%app_inv_head.
  cbv [String.append] in H. discriminate H.
Qed.

Lemma workspace_not_prefix_storage h a :
  ¬ workspacePath h a `prefix_of` storagePath h a.
Proof.
  unfold workspacePath, storagePath, path_join. intros H%prefix_app_inv.
  destruct H as [k H]. discriminate H.
Qed.

Lemma workspace_not_prefix_telemetry h a :
  ¬ workspacePath h a `prefix_of` telemetryPath h a.
Proof.
  unfold workspacePath, telemetryPath, path_join. intros H%prefix_app_inv.
  destruct H as [k H]. discriminate H.
Qed.

Lemma workspace_not_prefix_backup h a :
  ¬ workspacePath h a `prefix_of` backupPath h a.
Proof.
  rewrite backupPath_eq. unfold workspacePath, path_join.
  intros H%prefix_app_inv. destruct H as [k H]. discriminate H.
Qed.

Lemma child_prefix_inv (dir : path) (x y : string) :
  (dir ++ [x]) `prefix_of` (dir ++ [y]) → x = y.
Proof.
  intros H%prefix_app_inv. destruct H as [k H]. by injection H.
Qed.

Lemma child_prefix_dir (dir : path) (x : string) (q : path) :
  (dir ++ [x]) `prefix_of` q → dir `prefix_of` q.
Proof. intros [k ->]. exists (x :: k). by rewrite <- app_assoc. Qed.

Lemma child_name_spec (dir p : path) (name : string) :
  child_name dir p = Some name ↔ p = dir ++ [name].
Proof.
  revert p. induction dir as [|d dir IH]; intros p.
  - destruct p as [|x [|y p]]; cbn; split; intros H; by simplify_eq.
  - destruct p as [|x p]; cbn; [split; intros H; by simplify_eq|].
    destruct (decide (d = x)) as [->|Hne].
    + rewrite IH. split; intros H; by simplify_eq.
    + split; intros H; by simplify_eq.
Qed.

(** ** Directory listings *)

Lemma elem_of_entries (f : gmap path node) (dir : path) (name : string) :
  name ∈ entries f dir ↔ is_Some (f !! (dir ++ [name])).
Proof.
  unfold entries. rewrite merge_sort_Permutation, list_elem_of_omap. split.
  - intros (p & Hp & Hc). apply child_name_spec in Hc as ->.
    apply list_elem_of_fmap in Hp as ([p n] & -> & Hp).
    apply elem_of_map_to_list in Hp. eauto.
  - intros [n Hn]. exists (dir ++ [name]). split.
    + apply list_elem_of_fmap. exists (dir ++ [name], n). split; [done|].
      by apply elem_of_map_to_list.
    + by apply child_name_spec.
Qed.

Lemma NoDup_omap_inj {A B} (g : A → option B) (l : list A) :
  (∀ x y b, g x = Some b → g y = Some b → x = y) →
  NoDup l → NoDup (omap g l).
Proof.
  intros Hinj. induction 1 as [|x l Hx Hl IH]; cbn; [constructor|].
  destruct (g x) as [b|] eqn:Hg; [|done].
  constructor; [|done].
  rewrite list_elem_of_omap. intros (y & Hy & Hgy).
  by rewrite (Hinj x y b Hg Hgy) in Hx.
Qed.

Lemma NoDup_entries (f : gmap path node) (dir : path) : NoDup (entries f dir).
Proof.
  unfold entries. rewrite merge_sort_Permutation. apply NoDup_omap_inj.
  - intros x y b Hx%child_name_spec Hy%child_name_spec. congruence.
  - apply NoDup_fst_map_to_list.
Qed.

Lemma lookup_remove_tree (p q : path) (f : gmap path node) :
  remove_tree p f !! q = if decide (p `prefix_of` q) then None else f !! q.
Proof.
  unfold remove_tree. destruct (decide (p `prefix_of` q)) as [Hp|Hp].
  - apply map_lookup_filter_None. right. intros x _. cbn. tauto.
  - destruct (f !! q) as [n|] eqn:Hq.
    + apply map_lookup_filter_Some. by split.
    + apply map_lookup_filter_None. by left.
Qed.

(** ** The removal loop *)

Section ClearItems.

Variable h : host.
Variable dir : path.


(** Whatever fails, the loop touches nothing outside the subdirectories
    it was given. *)
Lemma clearItems_frame items : ∀ f cnt (q : path),
  (∀ item, item ∈ items → isSubdir f dir item = true →
           ¬ path_join dir [item] `prefix_of` q) →
  (clearItems h dir items f cnt).2 !! q = f !! q.
Proof.
  induction items as [|item rest IH]; intros f cnt q Hq; [done|].
  cbn [clearItems]. cbv zeta.
  destruct (faults h (OpStat (path_join dir [item]))); [done|].
  destruct (f !! path_join dir [item]) as [[c|]|] eqn:Hi; [| |done].
  - apply IH. intros i Hin. apply Hq. by right.
  - destruct (faults h (OpRm (path_join dir [item]))); [done|].
    rewrite IH.
    + rewrite lookup_remove_tree. rewrite decide_False; [done|].
      apply Hq; [by left|]. unfold isSubdir. by rewrite Hi.
    + intros i Hin Hsub. apply Hq; [by right|].
      unfold isSubdir in *. rewrite lookup_remove_tree in Hsub.
      by destruct (decide _).
Qed.

(** The loop creates nothing. *)
Lemma clearItems_none items : ∀ f cnt (q : path),
  f !! q = None → (clearItems h dir items f cnt).2 !! q = None.
Proof.
  induction items as [|item rest IH]; intros f cnt q Hq; [done|].
  cbn [clearItems]. cbv zeta.
  destruct (faults h (OpStat (path_join dir [item]))); [done|].
  destruct (f !! path_join dir [item]) as [[c|]|]; [by apply IH| |done].
  destruct (faults h (OpRm (path_join dir [item]))); [done|].
  apply IH. rewrite lookup_remove_tree. by destruct (decide _).
Qed.

Lemma isSubdir_remove_other (f : gmap path node) (x y : string) :
  x ≠ y →
  isSubdir (remove_tree (path_join dir [x]) f) dir y = isSubdir f dir y.
Proof.
  intros Hne. unfold isSubdir. rewrite lookup_remove_tree.
  rewrite decide_False; [done|]. intros H%child_prefix_inv. done.
Qed.

Lemma filter_isSubdir_remove (f : gmap path node) (x : string)
  (items : list string) :
  x ∉ items →
  filter (λ y, isSubdir (remove_tree (path_join dir [x]) f) dir y = true) items
  = filter (λ y, isSubdir f dir y = true) items.
Proof.
  induction items as [|y items IH]; intros Hx; [done|].
  apply not_elem_of_cons in Hx as [Hxy Hx].
  rewrite !filter_cons, isSubdir_remove_other, IH by done. done.
Qed.

(** When every item exists and can be inspected and removed, the loop
    succeeds, counts the subdirectories and removes each with all it
    holds. *)
Lemma clearItems_ok items : ∀ f cnt,
  NoDup items →
  (∀ item, item ∈ items → is_Some (f !! path_join dir [item])) →
  (∀ item, item ∈ items → healthy h dir item) →
  (clearItems h dir items f cnt).1
  = Ok (cnt + length (filter (λ y, isSubdir f dir y = true) items))
  ∧ ∀ item (q : path), item ∈ items → isSubdir f dir item = true →
      path_join dir [item] `prefix_of` q →
      (clearItems h dir items f cnt).2 !! q = None.
Proof.
  induction items as [|item rest IH]; intros f cnt Hnd Hex Hok.
  { split; [cbn; f_equal; lia|]. intros ? ? H. by apply elem_of_nil in H. }
  apply NoDup_cons in Hnd as [Hitem Hnd].
  destruct (Hok item) as [Hstat Hrm]; [by left|].
  destruct (Hex item) as [n Hn]; [by left|].
  cbn [clearItems]. cbv zeta. rewrite Hstat, Hn.
  assert (Hrest : ∀ i, i ∈ rest → healthy h dir i) by (intros; apply Hok; by right).
  destruct n as [c|].
  - destruct (IH f cnt Hnd) as [Hcount Hgone]; [|done|].
    { intros; apply Hex; by right. }
    split.
    + assert (Hfile : isSubdir f dir item = false)
        by (unfold isSubdir; by rewrite Hn).
      rewrite Hcount, filter_cons, decide_False by (by rewrite Hfile). done.
    + intros i q Hin Hsub Hpre. apply elem_of_cons in Hin as [->|Hin].
      * unfold isSubdir in Hsub. by rewrite Hn in Hsub.
      * by apply (Hgone i q).
  - rewrite Hrm.
    destruct (IH (remove_tree (path_join dir [item]) f) (S cnt) Hnd)
      as [Hcount Hgone]; [|done|].
    { intros i Hin. rewrite lookup_remove_tree.
      rewrite decide_False; [apply Hex; by right|].
      intros H%child_prefix_inv. by subst. }
    split.
    + assert (Hsub : isSubdir f dir item = true)
        by (unfold isSubdir; by rewrite Hn).
      rewrite Hcount, filter_isSubdir_remove by done.
      rewrite filter_cons, decide_True by done. cbn [length]. f_equal. lia.
    + intros i q Hin Hsub Hpre. apply elem_of_cons in Hin as [->|Hin].
      * apply clearItems_none. rewrite lookup_remove_tree.
        by rewrite decide_True.
      * apply (Hgone i q); [done| |done].
        rewrite isSubdir_remove_other; [done|]. intros ->. done.
Qed.

End ClearItems.

(** ** Identity records *)

Lemma recordAt_Some f p m :
  recordAt f p = Some m ↔ ∃ t, f !! p = Some (File (Json t (VObj m))).
Proof.
  unfold recordAt. split.
  - destruct (f !! p) as [[[t []|]|]|]; intros; simplify_eq. by exists t.
  - by intros [t ->].
Qed.

(** *** Writing a document and reading it back *)

Lemma jsonify_object m : jsonify (VObj m) = VObj (jsonRecord m).
Proof. reflexivity. Qed.

Lemma lookup_jsonRecord m k : jsonRecord m !! k = m !! k ≫= jsonMember.
Proof. apply lookup_omap. Qed.

Lemma roundTrips_string s : roundTrips (VStr s).
Proof. reflexivity. Qed.

Lemma lookup_jsonRecord_roundTrips m k v :
  m !! k = Some v → roundTrips v → jsonRecord m !! k = Some v.
Proof. intros Hk Hv. by rewrite lookup_jsonRecord, Hk. Qed.

Lemma jsonRecord_roundTrips m :
  (∀ k v, m !! k = Some v → roundTrips v) → jsonRecord m = m.
Proof.
  intros Hm. apply map_eq. intros k. rewrite lookup_jsonRecord.
  destruct (m !! k) as [v|] eqn:Hk; [|done]. by apply (Hm k).
Qed.

Lemma recordAt_written f p m :
  recordAt (<[p := File (JSON_stringify (VObj m))]> f) p
  = Some (jsonRecord m).
Proof. unfold recordAt. by rewrite lookup_insert_eq. Qed.

Lemma resetField_other nm nd ns m key k :
  k ≠ key → resetField nm nd ns m key !! k = m !! k.
Proof.
  intros Hne. unfold resetField.
  destruct (truthy _); [|done]. by rewrite lookup_insert_ne.
Qed.

Lemma foldl_resetField_other nm nd ns keys : ∀ m k,
  k ∉ keys → foldl (resetField nm nd ns) m keys !! k = m !! k.
Proof.
  induction keys as [|key keys IH]; intros m k Hk; [done|].
  apply not_elem_of_cons in Hk as [Hne Hk]. cbn [foldl].
  by rewrite IH, resetField_other.
Qed.

Lemma resetRecord_other nm nd ns m k :
  k ∉ identifierKeys → resetRecord nm nd ns m !! k = m !! k.
Proof. apply foldl_resetField_other. Qed.

(** The tree after [resetDeviceIdentifiers] on a store that holds a
    record: the old tree when a call fails, the rewritten record
    otherwise. *)
Lemma resetOutcome_object h a f n m :
  recordAt f (storagePath h a) = Some m →
  (resetOutcome h a f n).2
  = if faults h (OpRead (storagePath h a))
       || faults h (OpWrite (storagePath h a))
    then f
    else <[storagePath h a :=
             File (JSON_stringify
                     (VObj (resetRecord (uuidFrom h n) (uuidFrom h (31 + n))
                              (uuidFrom h (62 + n)) m)))]> f.
Proof.
  intros [t Hf]%recordAt_Some.
  unfold resetOutcome. cbv zeta. rewrite Hf.
  destruct (faults h (OpRead _)); [done|].
  cbn [resetValue orb]. by destruct (faults h (OpWrite _)).
Qed.

(** Whatever [resetDeviceIdentifiers] does, a store that held a record
    still holds one, and outside [identifierKeys] every value that is
    read back as it is written is the old one. *)
Lemma resetOutcome_record h a f n m :
  recordAt f (storagePath h a) = Some m →
  ∃ m', recordAt (resetOutcome h a f n).2 (storagePath h a) = Some m'
        ∧ ∀ k v, k ∉ identifierKeys → m !! k = Some v → roundTrips v →
                 m' !! k = Some v.
Proof.
  intros Hm. rewrite (resetOutcome_object h a f n m Hm).
  destruct (_ || _); [by exists m|].
  eexists. split; [apply recordAt_written|].
  intros k v Hk Hv Hrt. apply lookup_jsonRecord_roundTrips; [|done].
  by rewrite resetRecord_other.
Qed.

Lemma resetOutcome_frame h a f n q :
  q ≠ storagePath h a → (resetOutcome h a f n).2 !! q = f !! q.
Proof.
  intros Hq. unfold resetOutcome. cbv zeta.
  destruct (f !! storagePath h a) as [[[t v|]|]|]; [| | |done];
    destruct (faults h (OpRead _)); try done.
  destruct (resetValue _ _ _ v); [|done].
  destruct (faults h (OpWrite _)); [done|].
  cbn [snd]. by rewrite lookup_insert_ne.
Qed.

Lemma cacheTree_record h userId f m :
  recordAt f (storagePath h None) = Some m →
  ∃ m', recordAt (cacheTree h userId f) (storagePath h None) = Some m'
        ∧ ∀ k v, k ≠ "scoreInfo_" +:+ userId → m !! k = Some v →
                 roundTrips v → m' !! k = Some v.
Proof.
  intros Hm. pose proof Hm as [t Hf]%recordAt_Some.
  unfold cacheTree. cbv zeta. rewrite Hf.
  destruct (faults h (OpRead _)); [by exists m|].
  destruct (truthy _); [|by exists m].
  destruct (faults h (OpWrite _)); [by exists m|].
  eexists. split; [apply recordAt_written|].
  intros k v Hk Hv Hrt. apply lookup_jsonRecord_roundTrips; [|done].
  by rewrite lookup_delete_ne.
Qed.

(** The tree [resetDeviceIdentifiers] leaves behind, also when the locator
    throws. *)
Lemma resetDeviceIdentifiers_fs h a w :
  fs (resetDeviceIdentifiers h a w).2
  = if decide (locatable h a)
    then (resetOutcome h a (fs w) (draws w)).2 else fs w.
Proof.
  destruct (decide (locatable h a)) as [Ha|Ha].
  - by destruct (resetDeviceIdentifiers_run h a w Ha) as [l ->].
  - by rewrite resetDeviceIdentifiers_inherited.
Qed.

(** C4.  Whatever else the store holds and whether or not the calls
    succeed, [resetDeviceIdentifiers] keeps every key outside the six
    identifier keys, and [clearUserCache] keeps every key other than
    [scoreInfo_<userId>]: the key is still in the stored record afterwards,
    with the same value.  This is stated for the values that are read back
    as they are written, which every string is; the record is written with
    [JSON.stringify], which prints a number that is not finite as
    [null]. *)
Theorem unknown_keys_survive (h : host) (w : world) (key : string) (v : value) :
  roundTrips v →
  (∀ s, roundTrips (VStr s))
  ∧ (∀ a m,
       recordAt (fs w) (storagePath h a) = Some m →
       key ∉ identifierKeys → m !! key = Some v →
       ∃ m', recordAt (fs (resetDeviceIdentifiers h a w).2) (storagePath h a)
             = Some m'
             ∧ m' !! key = Some v)
  ∧ (∀ userId m,
       recordAt (fs w) (storagePath h None) = Some m →
       (∀ u, userId = Some u → key ≠ "scoreInfo_" +:+ u) →
       m !! key = Some v →
       ∃ m', recordAt (fs (clearUserCache h userId w).2) (storagePath h None)
             = Some m'
             ∧ m' !! key = Some v).
Proof.
  intros Hrt. split; [exact roundTrips_string|]. split.
  - intros a m Hm Hkey Hv. rewrite resetDeviceIdentifiers_fs.
    destruct (decide (locatable h a)); [|by exists m].
    destruct (resetOutcome_record h a (fs w) (draws w) m Hm) as (m' & Hm' & Hk).
    exists m'. split; [done|]. by apply Hk.
  - intros userId m Hm Hkey Hv.
    destruct userId as [[|c s]|]; [by exists m|..|by exists m].
    destruct (clearUserCache_run h (String c s) w) as [l ->]; [done|].
    cbn [snd fs].
    destruct (cacheTree_record h (String c s) (fs w) m Hm) as (m' & Hm' & Hk).
    exists m'. split; [done|]. apply Hk; [|done..]. by apply Hkey.
Qed.

Lemma unknown_keys_survive_witness :
  (∃ m', recordAt (fs (resetDeviceIdentifiers sampleHost None sampleWorld).2)
                  (storagePath sampleHost None) = Some m'
         ∧ m' !! "scoreInfo_user42" = Some (VStr "cached"))
  ∧ (∃ m', recordAt (fs (clearUserCache sampleHost (Some "user42")
                           sampleWorld).2)
                    (storagePath sampleHost None) = Some m'
           ∧ m' !! "deviceId" = Some (VStr "old-d")).
Proof.
  split.
  - apply (proj1 (proj2 (unknown_keys_survive sampleHost sampleWorld
                    "scoreInfo_user42" (VStr "cached") eq_refl))
             None sampleRecord).
    + vm_compute; reflexivity.
    + apply (bool_decide_unpack _). vm_compute. exact I.
    + vm_compute; reflexivity.
  - apply (proj2 (proj2 (unknown_keys_survive sampleHost sampleWorld
                    "deviceId" (VStr "old-d") eq_refl))
             (Some "user42") sampleRecord).
    + vm_compute; reflexivity.
    + intros u [= <-]. discriminate.
    + vm_compute; reflexivity.
Defined.

(** C2.  The code departs from the claim here.  When [storage.json] does
    not exist, [resetDeviceIdentifiers] writes nothing, and it returns the
    triple of fresh identifiers, the very value it returns after rewriting
    an existing store: no separate result marks the missing file. *)
Theorem resetDeviceIdentifiers_no_storage (h : host) (a : option string)
  (w : world) :
  locatable h a →
  fs w !! storagePath h a = None →
  (∃ w', resetDeviceIdentifiers h a w
         = (Ok (identifiers (uuidFrom h (draws w)) (uuidFrom h (31 + draws w))
                  (uuidFrom h (62 + draws w))), w')
         ∧ fs w' = fs w)
  ∧ ∀ w2 m,
      draws w2 = draws w →
      recordAt (fs w2) (storagePath h a) = Some m →
      faults h (OpRead (storagePath h a)) = false →
      faults h (OpWrite (storagePath h a)) = false →
      (resetDeviceIdentifiers h a w2).1 = (resetDeviceIdentifiers h a w).1.
Proof.
  intros Ha Hnone.
  destruct (resetDeviceIdentifiers_run h a w Ha) as [l Hrun].
  assert (Hout : resetOutcome h a (fs w) (draws w)
                 = (Ok (identifiers (uuidFrom h (draws w))
                          (uuidFrom h (31 + draws w))
                          (uuidFrom h (62 + draws w))), fs w)).
  { unfold resetOutcome. cbv zeta. by rewrite Hnone. }
  rewrite Hout in Hrun. cbn [fst snd] in Hrun. split.
  - eexists. split; [exact Hrun|reflexivity].
  - intros w2 m Hd Hm Hr Hw. rewrite Hrun.
    destruct (resetDeviceIdentifiers_run h a w2 Ha) as [l2 ->]. cbn [fst].
    apply recordAt_Some in Hm as [t Hm]. unfold resetOutcome. cbv zeta.
    rewrite Hm, Hr. cbn [resetValue]. rewrite Hw, Hd. reflexivity.
Qed.

Lemma resetDeviceIdentifiers_no_storage_witness :
  (resetDeviceIdentifiers sampleHost None sampleWorld).1
  = (resetDeviceIdentifiers sampleHost None emptyWorld).1.
Proof.
  apply (proj2 (resetDeviceIdentifiers_no_storage sampleHost None emptyWorld
                  (locatable_None sampleHost) eq_refl)
           sampleWorld sampleRecord);
    vm_compute; reflexivity.
Defined.

(** C3.  The code departs from the claim here.  The test
    [key.includes('device')] is case-sensitive and [telemetry.devDeviceId]
    spells the word with a capital, so that key is reset to the new session
    identifier, not to the new device identifier: on a store that holds both
    [telemetry.devDeviceId] and [deviceId], the first receives the returned
    [sessionId] and only the second the returned [deviceId]. *)
Theorem reset_devDeviceId_gets_session_id :
  (∀ nm nd ns, replacement nm nd ns "telemetry.devDeviceId" = ns)
  ∧ ∃ stored,
      (resetDeviceIdentifiers sampleHost None deviceWorld).1
      = Ok (identifiers "01234567-89ab-4cde-b012-3456789abcde"
              "f0123456-789a-4bcd-af01-23456789abcd"
              "ef012345-6789-4abc-9ef0-123456789abc")
      ∧ recordAt (fs (resetDeviceIdentifiers sampleHost None deviceWorld).2)
                 (storagePath sampleHost None) = Some stored
      ∧ stored !! "telemetry.devDeviceId"
        = Some (VStr "ef012345-6789-4abc-9ef0-123456789abc")
      ∧ stored !! "deviceId"
        = Some (VStr "f0123456-789a-4bcd-af01-23456789abcd").
Proof.
  split; [reflexivity|].
  exists (list_to_map
            [ ("telemetry.devDeviceId",
               VStr "ef012345-6789-4abc-9ef0-123456789abc");
              ("deviceId", VStr "f0123456-789a-4bcd-af01-23456789abcd") ]).
  repeat split; vm_compute; reflexivity.
Qed.

(** ** The backup before the deletion *)

Lemma telemetry_ne_backup h a : telemetryPath h a ≠ backupPath h a.
Proof. intros H. by apply (backup_ne_telemetry h a). Qed.

Lemma copyTree_throw h src dst f e :
  (copyTree h src dst f).1 = Throw e → (copyTree h src dst f).2 = f.
Proof.
  unfold copyTree. destruct (faults h _); [done|].
  destruct (f !! src) as [[c|]|]; [|done|done].
  destruct (f !! dst) as [[?|]|]; done.
Qed.

Lemma copyTree_ok h src dst f :
  (copyTree h src dst f).1 = Ok tt →
  ∃ c, f !! src = Some (File c) ∧ (copyTree h src dst f).2 = <[dst := File c]> f.
Proof.
  unfold copyTree. destruct (faults h _); [done|].
  destruct (f !! src) as [[c|]|]; [|done|done].
  destruct (f !! dst) as [[?|]|]; [| |]; try done; by exists c.
Qed.

Lemma unlinkTree_cases h p f :
  (unlinkTree h p f).2 = f ∨ (unlinkTree h p f).2 = delete p f.
Proof.
  unfold unlinkTree. destruct (faults h _); [by left|].
  destruct (f !! p) as [[c|]|]; auto.
Qed.

Lemma cleanBody_absent h a f :
  f !! telemetryPath h a = None → cleanBody h a f = (Ok tt, f).
Proof. intros H. unfold cleanBody. by rewrite H. Qed.

Lemma cleanBody_copy_fails h a f e :
  (copyTree h (telemetryPath h a) (backupPath h a) f).1 = Throw e →
  (cleanBody h a f).2 = f.
Proof.
  intros H. unfold cleanBody. destruct (f !! telemetryPath h a); [|done].
  pose proof (copyTree_throw _ _ _ _ _ H) as H2.
  destruct (copyTree _ _ _ _) as [[[]|e'] f1]; cbn in *; by simplify_eq.
Qed.

(** The tree after the [try] block: untouched, or with the backup added,
    or with the backup added and the original deleted. *)
Lemma cleanBody_cases h a f :
  (cleanBody h a f).2 = f
  ∨ ∃ c, f !! telemetryPath h a = Some (File c)
         ∧ ((cleanBody h a f).2 = <[backupPath h a := File c]> f
            ∨ (cleanBody h a f).2
              = delete (telemetryPath h a) (<[backupPath h a := File c]> f)).
Proof.
  unfold cleanBody. destruct (f !! telemetryPath h a) as [n|] eqn:Htp; [|by left].
  destruct (copyTree h (telemetryPath h a) (backupPath h a) f)
    as [[[]|e] f1] eqn:Hcopy.
  - assert (Hok : (copyTree h (telemetryPath h a) (backupPath h a) f).1 = Ok tt)
      by (by rewrite Hcopy).
    apply copyTree_ok in Hok as (c & Hc & Hf1). rewrite Hcopy in Hf1.
    cbn [snd] in Hf1. subst f1. right. exists c. split; [congruence|].
    destruct (unlinkTree_cases h (telemetryPath h a)
                (<[backupPath h a := File c]> f)); auto.
  - left. assert (Hth : (copyTree h (telemetryPath h a) (backupPath h a) f).1
                        = Throw e) by (by rewrite Hcopy).
    apply copyTree_throw in Hth. by rewrite Hcopy in Hth.
Qed.

Lemma cleanBody_frame h a f q :
  q ≠ telemetryPath h a → q ≠ backupPath h a →
  (cleanBody h a f).2 !! q = f !! q.
Proof.
  intros H1 H2.
  destruct (cleanBody_cases h a f) as [->|(c & _ & [-> | ->])]; [done|..].
  - by rewrite lookup_insert_ne.
  - by rewrite lookup_delete_ne, lookup_insert_ne.
Qed.

Lemma cleanBody_success h a f c :
  f !! telemetryPath h a = Some (File c) →
  f !! backupPath h a ≠ Some Dir →
  faults h (OpCopy (telemetryPath h a) (backupPath h a)) = false →
  faults h (OpUnlink (telemetryPath h a)) = false →
  cleanBody h a f
  = (Ok tt, delete (telemetryPath h a) (<[backupPath h a := File c]> f)).
Proof.
  intros Htp Hbp Hcopy Hunlink. unfold cleanBody, copyTree, unlinkTree.
  rewrite Htp, Hcopy, Hunlink.
  assert (Hlook : <[backupPath h a := File c]> f !! telemetryPath h a
                  = Some (File c)).
  { rewrite lookup_insert_ne; [done|]. apply backup_ne_telemetry. }
  destruct (f !! backupPath h a) as [[?|]|]; [| done |]; by rewrite Hlook.
Qed.

(** C6.  [cleanTelemetryData] deletes the telemetry file only after the
    copy to [<path>.backup.<Date.now()>] has been made: without the file it
    changes nothing; when the copy fails it changes nothing; whenever the
    file is gone afterwards the backup path holds what the file held; and
    when copy and deletion are possible the backup holds the original
    content and the original path is gone. *)
Theorem cleanTelemetryData_backup_first (h : host) (a : option string)
  (w : world) :
  let tp := telemetryPath h a in
  let bp := backupPath h a in
  let w' := (cleanTelemetryData h a w).2 in
  bp = userDataDir h a
       ++ ["User"; "globalStorage";
           "state.vscdb" +:+ ".backup." +:+ pretty (clock h)]
  ∧ (fs w !! tp = None → fs w' = fs w)
  ∧ (∀ e, (copyFileSync h tp bp w).1 = Throw e → fs w' = fs w)
  ∧ (∀ n, fs w !! tp = Some n → fs w' !! tp = None → fs w' !! bp = Some n)
  ∧ (∀ c, locatable h a →
          fs w !! tp = Some (File c) → fs w !! bp ≠ Some Dir →
          faults h (OpCopy tp bp) = false → faults h (OpUnlink tp) = false →
          fs w' !! bp = Some (File c) ∧ fs w' !! tp = None).
Proof.
  cbv zeta. rewrite cleanTelemetryData_fs.
  split; [apply backupPath_eq|]. split; [|split; [|split]].
  - intros Habs. destruct (decide _); [|done]. by rewrite cleanBody_absent.
  - intros e He. destruct (decide _); [|done].
    rewrite copyFileSync_run in He. cbn [fst] in He.
    by apply cleanBody_copy_fails with e.
  - intros n Hn Hgone. destruct (decide _); [|congruence].
    destruct (cleanBody_cases h a (fs w)) as [Heq|(c & Hc & [Heq|Heq])];
      rewrite Heq in *.
    + congruence.
    + rewrite lookup_insert_ne in Hgone by apply backup_ne_telemetry.
      congruence.
    + rewrite lookup_delete_ne by apply telemetry_ne_backup.
      rewrite lookup_insert_eq. congruence.
  - intros c Ha Hc Hbp Hcopy Hunlink. rewrite decide_True by done.
    rewrite (cleanBody_success h a (fs w) c) by done. cbn [snd]. split.
    + rewrite lookup_delete_ne by apply telemetry_ne_backup.
      apply lookup_insert_eq.
    + apply lookup_delete_eq.
Qed.

Lemma cleanTelemetryData_backup_first_witness :
  fs (cleanTelemetryData sampleHost None sampleWorld).2
    !! backupPath sampleHost None = Some (File sampleTelemetry)
  ∧ fs (cleanTelemetryData sampleHost None sampleWorld).2
      !! telemetryPath sampleHost None = None.
Proof.
  apply (proj2 (proj2 (proj2 (proj2
           (cleanTelemetryData_backup_first sampleHost None sampleWorld))))).
  - apply locatable_None.
  - vm_compute; reflexivity.
  - vm_compute; discriminate.
  - reflexivity.
  - reflexivity.
Defined.

(** ** What the workspace clearing removes *)


Lemma clearBody_dir h a f :
  f !! workspacePath h a = Some Dir →
  faults h (OpReaddir (workspacePath h a)) = false →
  clearBody h a f
  = match clearItems h (workspacePath h a) (entries f (workspacePath h a)) f 0
    with
    | (Ok n, f') => (Ok (Some n), f')
    | (Throw e, f') => (Throw e, f')
    end.
Proof. intros Hd Hf. unfold clearBody. cbv zeta. by rewrite Hd, Hf. Qed.

Lemma last_console w l e : last (console w ++ l ++ [e]) = Some e.
Proof. by rewrite app_assoc, last_snoc. Qed.

(** C5 (as amended).  On an existing workspace-storage directory whose
    entries can all be inspected and removed, [clearWorkspaceStorage]
    removes every immediate subdirectory with all it holds and leaves every
    immediate plain file as it was.  It returns [undefined]: the number of
    removed entries is only printed, in the last console line. *)
Theorem clearWorkspaceStorage_removes_subdirectories (h : host)
  (a : option string) (w : world) :
  let dir := workspacePath h a in
  let w' := (clearWorkspaceStorage h a w).2 in
  locatable h a →
  fs w !! dir = Some Dir →
  faults h (OpReaddir dir) = false →
  (∀ name, is_Some (fs w !! path_join dir [name]) → healthy h dir name) →
  (clearWorkspaceStorage h a w).1 = Ok VUndefined
  ∧ (∀ name (q : path), fs w !! path_join dir [name] = Some Dir →
               path_join dir [name] `prefix_of` q → fs w' !! q = None)
  ∧ (∀ name c, fs w !! path_join dir [name] = Some (File c) →
               fs w' !! path_join dir [name] = Some (File c))
  ∧ last (console w') = Some (clearedMessage (length (subdirs (fs w) dir))).
Proof.
  cbv zeta. intros Ha Hdir Hread Hok.
  rewrite clearWorkspaceStorage_run by done. cbn [fst snd fs console].
  unfold clearLog. rewrite clearBody_dir by done.
  destruct (clearItems_ok h (workspacePath h a)
              (entries (fs w) (workspacePath h a)) (fs w) 0)
    as [Hcount Hgone].
  { apply NoDup_entries. }
  { intros item Hin. by apply elem_of_entries in Hin. }
  { intros item Hin. apply Hok. by apply elem_of_entries in Hin. }
  pose proof (clearItems_frame h (workspacePath h a)
                (entries (fs w) (workspacePath h a)) (fs w) 0) as Hframe.
  destruct (clearItems h (workspacePath h a) _ (fs w) 0) as [[n|e] f'];
    cbn [fst snd] in *; [|done].
  injection Hcount as ->. split; [done|]. split; [|split].
  - intros name q Hname Hq. apply (Hgone name q); [| |done].
    + apply elem_of_entries. eexists. exact Hname.
    + unfold isSubdir. by rewrite Hname.
  - intros name c Hname. rewrite Hframe; [done|].
    intros item _ Hsub Hpre. apply child_prefix_inv in Hpre as ->.
    unfold isSubdir in Hsub. by rewrite Hname in Hsub.
  - change (locatorLog h a ++ [?x; ?y]) with (locatorLog h a ++ [x] ++ [y]).
    by rewrite (app_assoc (locatorLog h a)), last_console.
Qed.

Lemma clearWorkspaceStorage_removes_subdirectories_witness :
  (clearWorkspaceStorage sampleHost None sampleWorld).1 = Ok VUndefined
  ∧ fs (clearWorkspaceStorage sampleHost None sampleWorld).2
      !! (workspacePath sampleHost None ++ ["a"; "state.json"]) = None
  ∧ fs (clearWorkspaceStorage sampleHost None sampleWorld).2
      !! (workspacePath sampleHost None ++ ["notes.txt"])
    = Some (File (Blob []))
  ∧ last (console (clearWorkspaceStorage sampleHost None sampleWorld).2)
    = Some (Info, [LStr "Cleared 2 workspace storage items"]).
Proof.
  destruct (clearWorkspaceStorage_removes_subdirectories
              sampleHost None sampleWorld) as (Hret & Hgone & Hkept & Hlog).
  - apply locatable_None.
  - vm_compute; reflexivity.
  - reflexivity.
  - intros name _. split; reflexivity.
  - split; [exact Hret|]. split; [|split].
    + apply (Hgone "a"); [vm_compute; reflexivity|].
      exists ["state.json"]. reflexivity.
    + apply (Hkept "notes.txt"). vm_compute; reflexivity.
    + rewrite Hlog. vm_compute. reflexivity.
Defined.

(** C5, the claim as stated fails: on a directory with two subdirectories
    and one plain file the call returns [undefined], not the count 2. *)
Lemma clearWorkspaceStorage_returns_no_count :
  (clearWorkspaceStorage sampleHost None sampleWorld).1 = Ok VUndefined
  ∧ length (subdirs (fs sampleWorld) (workspacePath sampleHost None)) = 2.
Proof. split; vm_compute; reflexivity. Qed.






(** ** What the information accessor reports *)




(** ** The orchestrator *)

Lemma cleanTelemetryData_returns h a w :
  locatable h a → (cleanTelemetryData h a w).1 = Ok VUndefined.
Proof. intros Ha. by rewrite cleanTelemetryData_run. Qed.

Lemma clearWorkspaceStorage_returns h a w :
  locatable h a → (clearWorkspaceStorage h a w).1 = Ok VUndefined.
Proof. intros Ha. by rewrite clearWorkspaceStorage_run. Qed.

Ltac run_total :=
  match goal with
  | |- context [cleanTelemetryData ?h ?a ?w] =>
      let H := fresh in
      pose proof (cleanTelemetryData_returns h a w ltac:(locate)) as H;
      destruct (cleanTelemetryData h a w) as [? ?];
      cbn [fst snd] in H |- *; rewrite H; clear H
  | |- context [clearWorkspaceStorage ?h ?a ?w] =>
      let H := fresh in
      pose proof (clearWorkspaceStorage_returns h a w ltac:(locate)) as H;
      destruct (clearWorkspaceStorage h a w) as [? ?];
      cbn [fst snd] in H |- *; rewrite H; clear H
  end.

(** Either outcome of the next cleaning call. *)
Ltac run_cases :=
  match goal with
  | |- context [cleanTelemetryData ?h ?a ?w] =>
      destruct (cleanTelemetryData h a w) as [[?|?] ?]
  | |- context [clearWorkspaceStorage ?h ?a ?w] =>
      destruct (clearWorkspaceStorage h a w) as [[?|?] ?]
  end.

(** C1 (as amended).  The orchestrator runs the enabled sub-operations in
    the order reset, telemetry, workspace, cache.  An error raised by
    [resetDeviceIdentifiers] is printed and thrown again: the refresh ends
    there, returns no result, and runs none of the later sub-operations.
    For a name the locator accepts, the default included,
    [cleanTelemetryData] and [clearWorkspaceStorage] catch their own
    errors, so once the reset is over every later enabled sub-operation
    runs and its flag is set; the result holds no list of errors.  For a
    name that selects an inherited member of the table, the first enabled
    one of these three sub-operations throws [TypeError] while computing
    its path, and the refresh prints it and throws it again. *)
Theorem refreshVSCodeDevice_failure_policy (h : host) (a : option string)
  (opts : options) (w : world) :
  let start := emits [(Info, [LStr "Starting VS Code device refresh..."])] w in
  let reset := default true (resetIdentifiers opts) in
  let clean := default true (cleanTelemetry opts) in
  let clear := default false (clearWorkspace opts) in
  let cache := default true (clearCache opts) in
  (∀ e w1,
     reset = true → resetDeviceIdentifiers h a start = (Throw e, w1) →
     refreshVSCodeDevice h a opts w
     = (Throw e,
        emits [(Error, [LStr "Error during device refresh:"; LErr e])] w1))
  ∧ (locatable h a →
     ∀ w1,
       (reset = false ∧ w1 = start)
       ∨ (reset = true ∧ ∃ ids, resetDeviceIdentifiers h a start = (Ok ids, w1)) →
       let w2 := if clean then (cleanTelemetryData h a w1).2 else w1 in
       let w3 := if clear then (clearWorkspaceStorage h a w2).2 else w2 in
       ∃ results,
         refreshVSCodeDevice h a opts w
         = (Ok (VObj results),
            emits [(Info, [LStr "VS Code device refresh completed successfully"])]
                  w3)
         ∧ dom results ⊆ ({[ "identifiers"; "telemetryCleared";
                             "workspaceCleared"; "cacheCleared" ]} : gset string)
         ∧ results !! "telemetryCleared"
           = (if clean then Some (VBool true) else None)
         ∧ results !! "workspaceCleared"
           = (if clear then Some (VBool true) else None)
         ∧ results !! "cacheCleared"
           = (if cache then Some (VBool true) else None))
  ∧ (¬ locatable h a →
     reset || clean || clear = true →
     refreshVSCodeDevice h a opts w
     = (Throw TypeError,
        emits [(Error, [LStr "Error during device refresh:"; LErr TypeError])]
              start)).
Proof.
  cbv zeta. unfold refreshVSCodeDevice. cbv zeta.
  rewrite run_bind, logger_info_run. cbv beta iota. unfold try_catch.
  set (start := emits _ w).
  destruct (default true (resetIdentifiers opts));
  destruct (default true (cleanTelemetry opts));
  destruct (default false (clearWorkspace opts));
  destruct (default true (clearCache opts)).
  all: split; [|split].
  all: try (intros e w1 ? Hrun; try done; mstep; rewrite Hrun; mstep;
            rewrite logger_error_run; mstep; reflexivity).
  all: try (intros Ha Hany; try done; mstep;
            rewrite ?resetDeviceIdentifiers_inherited,
              ?cleanTelemetryData_inherited,
              ?clearWorkspaceStorage_inherited by done;
            mstep; rewrite logger_error_run; mstep; reflexivity).
  all: intros Ha w1 [[? ->]|[? [ids Hrun]]]; try done.
  all: eexists; split;
    [ mstep; rewrite ?Hrun; mstep; repeat (run_total; mstep);
      rewrite logger_info_run; mstep; reflexivity
    | split; [rewrite ?dom_insert, ?dom_empty; set_solver|];
      repeat split; by simplify_map_eq ].
Qed.

Lemma refreshVSCodeDevice_failure_policy_witness :
  (refreshVSCodeDevice sampleHost None defaults brokenWorld).1
  = Throw SyntaxError
  ∧ (∃ results,
       (refreshVSCodeDevice sampleHost None defaults sampleWorld).1
       = Ok (VObj results)
       ∧ results !! "telemetryCleared" = Some (VBool true)
       ∧ results !! "workspaceCleared" = None
       ∧ results !! "cacheCleared" = Some (VBool true))
  ∧ (refreshVSCodeDevice sampleHost (Some "constructor") defaults
       sampleWorld).1
    = Throw TypeError.
Proof.
  split; [|split].
  - pose proof (proj1 (refreshVSCodeDevice_failure_policy sampleHost None
                         defaults brokenWorld) SyntaxError) as H.
    cbv zeta in H.
    assert (Hout : (resetDeviceIdentifiers sampleHost None
                      (emits [(Info,
                               [LStr "Starting VS Code device refresh..."])]
                         brokenWorld)).1 = Throw SyntaxError)
      by (vm_compute; reflexivity).
    destruct (resetDeviceIdentifiers sampleHost None _) as [o w1].
    cbn [fst] in Hout. subst o.
    rewrite (H w1 eq_refl eq_refl). reflexivity.
  - pose proof (proj1 (proj2 (refreshVSCodeDevice_failure_policy sampleHost
                                None defaults sampleWorld))
                  (locatable_None sampleHost)) as H.
    cbv zeta in H.
    assert (Hout : ∃ ids,
              (resetDeviceIdentifiers sampleHost None
                 (emits [(Info, [LStr "Starting VS Code device refresh..."])]
                    sampleWorld)).1 = Ok ids)
      by (eexists; vm_compute; reflexivity).
    destruct Hout as [ids Hout].
    destruct (resetDeviceIdentifiers sampleHost None _) as [o w1].
    cbn [fst] in Hout. subst o.
    destruct (H w1) as (results & Hrun & _ & Ht & Hw & Hc).
    { right. split; [reflexivity|]. by exists ids. }
    exists results. rewrite Hrun. by repeat split.
  - rewrite (proj2 (proj2 (refreshVSCodeDevice_failure_policy sampleHost
                             (Some "constructor") defaults sampleWorld)));
      [reflexivity| |reflexivity].
    intros Hout. apply Hout. apply (bool_decide_unpack _). vm_compute. exact I.
Defined.

(** C1, the claim as stated fails: with every default option, a store
    that is not JSON makes the refresh throw the parse error; the
    telemetry file, whose cleaning is enabled, is still in place and no
    backup of it was made. *)
Lemma refreshVSCodeDevice_aborts_on_reset_failure :
  (refreshVSCodeDevice sampleHost None defaults brokenWorld).1
  = Throw SyntaxError
  ∧ fs (refreshVSCodeDevice sampleHost None defaults brokenWorld).2
      !! telemetryPath sampleHost None = Some (File sampleTelemetry)
  ∧ fs (refreshVSCodeDevice sampleHost None defaults brokenWorld).2
      !! backupPath sampleHost None = None.
Proof. repeat split; vm_compute; reflexivity. Qed.

Lemma clearBody_frame h a f (q : path) :
  ¬ workspacePath h a `prefix_of` q → (clearBody h a f).2 !! q = f !! q.
Proof.
  intros Hq. unfold clearBody. cbv zeta.
  destruct (f !! workspacePath h a) as [[c|]|]; [| |done];
    destruct (faults h _); try done.
  pose proof (clearItems_frame h (workspacePath h a)
                (entries f (workspacePath h a)) f 0 q) as Hframe.
  destruct (clearItems h _ _ f 0) as [[n|e] f']; cbn [snd] in *;
    apply Hframe; intros item _ _ Hpre; by apply child_prefix_dir in Hpre.
Qed.

Lemma refreshVSCodeDevice_tree h a opts w :
  locatable h a →
  fs (refreshVSCodeDevice h a opts w).2
  = refreshTree h a opts (fs w) (draws w).
Proof.
  intros Ha. unfold refreshVSCodeDevice, refreshTree. cbv zeta.
  rewrite run_bind, logger_info_run. cbv beta iota. unfold try_catch.
  destruct (default true (resetIdentifiers opts)).
  - mstep.
    destruct (resetDeviceIdentifiers_run h a
                (emits [(Info, [LStr "Starting VS Code device refresh..."])] w)
                Ha)
      as [l ->].
    cbn [fs draws emits].
    destruct (resetOutcome h a (fs w) (draws w)) as [[ids|e] f1];
      cbn [fst snd]; [|mstep; by rewrite logger_error_run].
    mstep.
    destruct (default true (cleanTelemetry opts)); mstep;
      rewrite ?cleanTelemetryData_run by done; mstep;
      destruct (default false (clearWorkspace opts)); mstep;
      rewrite ?clearWorkspaceStorage_run by done; mstep;
      destruct (default true (clearCache opts)); mstep;
      by rewrite logger_info_run.
  - mstep.
    destruct (default true (cleanTelemetry opts)); mstep;
      rewrite ?cleanTelemetryData_run by done; mstep;
      destruct (default false (clearWorkspace opts)); mstep;
      rewrite ?clearWorkspaceStorage_run by done; mstep;
      destruct (default true (clearCache opts)); mstep;
      by rewrite logger_info_run.
Qed.

(** For a name that selects an inherited member the refresh changes no
    file: when it computes a path at all, it throws there. *)
Lemma refreshVSCodeDevice_inherited_fs h a opts w :
  ¬ locatable h a → fs (refreshVSCodeDevice h a opts w).2 = fs w.
Proof.
  intros Ha. unfold refreshVSCodeDevice. cbv zeta.
  rewrite run_bind, logger_info_run. cbv beta iota. unfold try_catch.
  destruct (default true (resetIdentifiers opts));
    destruct (default true (cleanTelemetry opts));
    destruct (default false (clearWorkspace opts));
    destruct (default true (clearCache opts));
    mstep;
    rewrite ?resetDeviceIdentifiers_inherited,
      ?cleanTelemetryData_inherited,
      ?clearWorkspaceStorage_inherited by done;
    mstep; rewrite ?logger_error_run, ?logger_info_run; mstep; reflexivity.
Qed.

(** The refresh keeps the record of the store, up to the identifier
    keys and to the values that writing changes. *)
Lemma refreshTree_record h a opts f n m :
  recordAt f (storagePath h a) = Some m →
  ∃ m', recordAt (refreshTree h a opts f n) (storagePath h a) = Some m'
        ∧ ∀ k v, k ∉ identifierKeys → m !! k = Some v → roundTrips v →
                 m' !! k = Some v.
Proof.
  intros Hm. unfold refreshTree. cbv zeta.
  assert (Hstep : ∀ f1 m1,
    recordAt f1 (storagePath h a) = Some m1 →
    recordAt (if default false (clearWorkspace opts)
              then (clearBody h a
                      (if default true (cleanTelemetry opts)
                       then (cleanBody h a f1).2 else f1)).2
              else (if default true (cleanTelemetry opts)
                    then (cleanBody h a f1).2 else f1))
             (storagePath h a) = Some m1).
  { intros f1 m1 H1. unfold recordAt in *.
    destruct (default false (clearWorkspace opts));
      rewrite ?clearBody_frame by apply workspace_not_prefix_storage;
      destruct (default true (cleanTelemetry opts));
      rewrite ?cleanBody_frame
        by (apply storage_ne_telemetry || apply storage_ne_backup);
      done. }
  destruct (default true (resetIdentifiers opts)).
  - destruct (resetOutcome_record h a f n m Hm) as (m' & Hm' & Hk).
    exists m'. split; [|done].
    destruct (resetOutcome h a f n) as [[ids|e] f1]; cbn [fst snd] in *;
      [by apply Hstep|done].
  - exists m. split; [|done]. cbn [fst snd]. by apply Hstep.
Qed.

Lemma scoreInfo_not_identifier userId :
  "scoreInfo_" +:+ userId ∉ identifierKeys.
Proof.
  unfold identifierKeys. intros H.
  repeat (apply elem_of_cons in H as [H|H];
          [cbv [String.append] in H; discriminate H|]).
  by apply elem_of_nil in H.
Qed.

(** C10.  With [clearCache] enabled the refresh clears no cache: every
    effect of the run (file tree, console, random draws) is what it is with
    [clearCache] disabled, and every [scoreInfo_<userId>] entry of the store
    keeps its value (a string, or any other value that is read back as it
    is written).  And yet the result reports [cacheCleared: true]: a result
    is returned whenever the name is one the locator accepts and the reset
    is switched off or returns, and every returned result carries the
    flag. *)
Theorem refreshVSCodeDevice_cache_flag_only (h : host) (a : option string)
  (opts : options) (w : world) :
  default true (clearCache opts) = true →
  let off := Options (resetIdentifiers opts) (cleanTelemetry opts)
                     (clearWorkspace opts) (Some false) in
  let start := emits [(Info, [LStr "Starting VS Code device refresh..."])] w in
  (refreshVSCodeDevice h a opts w).2 = (refreshVSCodeDevice h a off w).2
  ∧ (∀ v, (refreshVSCodeDevice h a opts w).1 = Ok v →
          ∃ results, v = VObj results
                     ∧ results !! "cacheCleared" = Some (VBool true)
                     ∧ (refreshVSCodeDevice h a off w).1
                       = Ok (VObj (delete "cacheCleared" results)))
  ∧ (locatable h a →
     default true (resetIdentifiers opts) = false
     ∨ (∃ ids, (resetDeviceIdentifiers h a start).1 = Ok ids) →
     ∃ results,
       (refreshVSCodeDevice h a opts w).1 = Ok (VObj results)
       ∧ results !! "cacheCleared" = Some (VBool true))
  ∧ (∀ m userId v,
       recordAt (fs w) (storagePath h a) = Some m →
       m !! ("scoreInfo_" +:+ userId) = Some v →
       roundTrips v →
       ∃ m', recordAt (fs (refreshVSCodeDevice h a opts w).2) (storagePath h a)
             = Some m'
             ∧ m' !! ("scoreInfo_" +:+ userId) = Some v).
Proof.
  intros Hcache. cbv zeta.
  assert (Hrun : (refreshVSCodeDevice h a opts w).2
                 = (refreshVSCodeDevice h a
                      (Options (resetIdentifiers opts) (cleanTelemetry opts)
                         (clearWorkspace opts) (Some false)) w).2
            ∧ ∀ v, (refreshVSCodeDevice h a opts w).1 = Ok v →
                ∃ results, v = VObj results
                  ∧ results !! "cacheCleared" = Some (VBool true)
                  ∧ (refreshVSCodeDevice h a
                       (Options (resetIdentifiers opts) (cleanTelemetry opts)
                          (clearWorkspace opts) (Some false)) w).1
                    = Ok (VObj (delete "cacheCleared" results))).
  { unfold refreshVSCodeDevice. cbv zeta.
    cbn [resetIdentifiers cleanTelemetry clearWorkspace clearCache default].
    rewrite Hcache.
    rewrite !run_bind, logger_info_run. cbv beta iota. unfold try_catch.
    assert (Hdel : ∀ results : gmap string value,
              results !! "cacheCleared" = None →
              delete "cacheCleared" (<["cacheCleared" := VBool true]> results)
              = results).
    { intros results Hnone. by rewrite delete_insert_eq, delete_id. }
    assert (Hflag : ∀ (results : gmap string value) (v : value),
              results !! "cacheCleared" = None →
              Ok (VObj (<["cacheCleared" := VBool true]> results))
              = (Ok v : outcome value) →
              ∃ results', v = VObj results'
                ∧ results' !! "cacheCleared" = Some (VBool true)
                ∧ (Ok (VObj results) : outcome value)
                  = Ok (VObj (delete "cacheCleared" results'))).
    { intros results v Hnone [= <-]. eexists. split; [reflexivity|].
      split; [apply lookup_insert_eq|]. by rewrite Hdel. }
    destruct (default true (resetIdentifiers opts)).
    - mstep.
      destruct (resetDeviceIdentifiers h a _) as [[ids|e] w1];
        [|mstep; rewrite logger_error_run; mstep; unfold throw; done].
      mstep.
      destruct (default true (cleanTelemetry opts));
        destruct (default false (clearWorkspace opts)); mstep;
        repeat (run_cases; mstep);
        rewrite ?logger_info_run, ?logger_error_run; mstep; unfold throw;
        cbn [fst snd]; (split; [reflexivity|]);
        first [ by intros v [=] | intros v; apply Hflag; by simplify_map_eq ].
    - mstep.
      destruct (default true (cleanTelemetry opts));
        destruct (default false (clearWorkspace opts)); mstep;
        repeat (run_cases; mstep);
        rewrite ?logger_info_run, ?logger_error_run; mstep; unfold throw;
        cbn [fst snd]; (split; [reflexivity|]);
        first [ by intros v [=] | intros v; apply Hflag; by simplify_map_eq ]. }
  destruct Hrun as [Hworld Hflag]. split; [exact Hworld|]. split; [exact Hflag|].
  split.
  - intros Ha Hreset. unfold refreshVSCodeDevice. cbv zeta. rewrite Hcache.
    rewrite !run_bind, logger_info_run. cbv beta iota. unfold try_catch.
    destruct (default true (resetIdentifiers opts)).
    + destruct Hreset as [?|[ids Hids]]; [done|]. mstep.
      destruct (resetDeviceIdentifiers h a _) as [o w1].
      cbn [fst] in Hids. subst o. mstep.
      destruct (default true (cleanTelemetry opts));
        destruct (default false (clearWorkspace opts)); mstep;
        repeat (run_total; mstep);
        rewrite logger_info_run; mstep;
        eexists; (split; [reflexivity|]); apply lookup_insert_eq.
    + mstep.
      destruct (default true (cleanTelemetry opts));
        destruct (default false (clearWorkspace opts)); mstep;
        repeat (run_total; mstep);
        rewrite logger_info_run; mstep;
        eexists; (split; [reflexivity|]); apply lookup_insert_eq.
  - intros m userId v Hm Hv Hrt.
    destruct (decide (locatable h a)) as [Ha|Ha].
    + rewrite refreshVSCodeDevice_tree by done.
      destruct (refreshTree_record h a opts (fs w) (draws w) m Hm)
        as (m' & Hm' & Hk).
      exists m'. split; [done|].
      apply Hk; [|done..]. apply scoreInfo_not_identifier.
    + rewrite refreshVSCodeDevice_inherited_fs by done. by exists m.
Qed.

Lemma refreshVSCodeDevice_cache_flag_only_witness :
  (refreshVSCodeDevice sampleHost None defaults sampleWorld).2
  = (refreshVSCodeDevice sampleHost None
       (Options (resetIdentifiers defaults) (cleanTelemetry defaults)
          (clearWorkspace defaults) (Some false)) sampleWorld).2
  ∧ (∃ results,
       (refreshVSCodeDevice sampleHost None defaults sampleWorld).1
       = Ok (VObj results)
       ∧ results !! "cacheCleared" = Some (VBool true))
  ∧ ∃ m', recordAt (fs (refreshVSCodeDevice sampleHost None defaults
                          sampleWorld).2)
                   (storagePath sampleHost None) = Some m'
          ∧ m' !! ("scoreInfo_" +:+ "user42") = Some (VStr "cached").
Proof.
  destruct (refreshVSCodeDevice_cache_flag_only sampleHost None defaults
              sampleWorld eq_refl) as (Hworld & _ & Hflag & Hkeep).
  split; [exact Hworld|]. split.
  - apply Hflag; [apply locatable_None|]. right.
    eexists. vm_compute. reflexivity.
  - apply (Hkeep sampleRecord); vm_compute; reflexivity.
Defined.

(** ** More on the locator *)

Lemma truthy_process_env h name :
  truthy (process_env h name) = true ↔ envSet h name.
Proof.
  unfold process_env, envSet. destruct (env h !! name) as [s|].
  - destruct s as [|c s]; cbn; split; try done.
    + by intros (s' & [= <-] & H).
    + intros _. by eexists.
  - cbn. split; [done|]. by intros (s' & H & _).
Qed.

(** X1.  [detectVSCodeVariant] always reports one of the three supported
    applications and prints it.  A variable set to the empty string counts
    as unset; [VSCODE_PID] wins over [WINDSURF_PID], which wins over
    [CURSOR_PID]; with none of them set the answer is [Code]. *)
Theorem detectVSCodeVariant_priority (h : host) (w : world) :
  ∃ app,
    detectVSCodeVariant h w
    = (Ok app,
       emits [(Info, [LStr "Detected VS Code variant:"; LStr app])] w)
    ∧ app ∈ ["Code"; "Windsurf"; "Cursor"]
    ∧ is_Some (supportedApps !! app)
    ∧ (envSet h "VSCODE_PID" → app = "Code")
    ∧ (¬ envSet h "VSCODE_PID" → envSet h "WINDSURF_PID" → app = "Windsurf")
    ∧ (¬ envSet h "VSCODE_PID" → ¬ envSet h "WINDSURF_PID" →
       envSet h "CURSOR_PID" → app = "Cursor")
    ∧ (¬ envSet h "VSCODE_PID" → ¬ envSet h "WINDSURF_PID" →
       ¬ envSet h "CURSOR_PID" → app = "Code").
Proof.
  exists (variantOf h). split; [apply detectVSCodeVariant_run|].
  unfold variantOf.
  pose proof (truthy_process_env h "VSCODE_PID") as Hv.
  pose proof (truthy_process_env h "WINDSURF_PID") as Hw.
  pose proof (truthy_process_env h "CURSOR_PID") as Hc.
  destruct (truthy (process_env h "VSCODE_PID"));
    destruct (truthy (process_env h "WINDSURF_PID"));
    destruct (truthy (process_env h "CURSOR_PID")).
  all: split; [set_solver|]; split; [by eexists|]; naive_solver.
Qed.

Lemma locatable_name h a :
  (∀ s, a = Some s → s ∉ objectPrototype) → locatable h a.
Proof.
  intros Hs. destruct a as [s|]; [|apply locatable_None].
  unfold locatable, appOf. destruct (truthy (VStr s)); [by apply Hs|].
  apply (locatable_None h).
Qed.

(** X2.  For a name that is no inherited member of the table, the three
    configuration paths extend one user data directory, [<home>/<dir>]
    with [dir] among [.vscode], [.windsurf], [.cursor]: a name outside the
    table falls back to [.vscode], and an empty or missing name to the
    detected variant.  Computing a path reads and writes no file and takes
    no random draw.  For a name that is an inherited member ([constructor],
    [toString], [__proto__], ...) every path computation throws
    [TypeError] and prints nothing. *)
Theorem config_paths_layout (h : host) (a : option string) (w : world) :
  ((∀ s, a = Some s → s ∉ objectPrototype) →
   ∃ dir,
     dir ∈ [".vscode"; ".windsurf"; ".cursor"]
     ∧ (getUserDataPath h a w).1 = Ok (homeDir h ++ [dir])
     ∧ (getMachineIdPath h a w).1
       = Ok (homeDir h ++ [dir; "User"; "globalStorage"; "storage.json"])
     ∧ (getTelemetryPath h a w).1
       = Ok (homeDir h ++ [dir; "User"; "globalStorage"; "state.vscdb"])
     ∧ (getWorkspaceStatePath h a w).1
       = Ok (homeDir h ++ [dir; "User"; "workspaceStorage"])
     ∧ fs (getMachineIdPath h a w).2 = fs w
     ∧ draws (getMachineIdPath h a w).2 = draws w
     ∧ (∀ s, a = Some s → s ≠ EmptyString → supportedApps !! s = None →
             dir = ".vscode")
     ∧ (a = Some "Cursor" → dir = ".cursor")
     ∧ (a = None ∨ a = Some EmptyString →
        supportedApps !! variantOf h = Some dir))
  ∧ (∀ s, a = Some s → s ∈ objectPrototype →
          getUserDataPath h a w = (Throw TypeError, w)
          ∧ getMachineIdPath h a w = (Throw TypeError, w)
          ∧ getTelemetryPath h a w = (Throw TypeError, w)
          ∧ getWorkspaceStatePath h a w = (Throw TypeError, w)).
Proof.
  split; cycle 1.
  { intros s -> Hs.
    assert (Ha : ¬ locatable h (Some s)).
    { intros Hout. apply Hout. unfold appOf.
      destruct s as [|c s]; [|done].
      unfold objectPrototype in Hs.
      repeat (apply elem_of_cons in Hs as [Hs|Hs]; [discriminate Hs|]).
      by apply elem_of_nil in Hs. }
    by rewrite getUserDataPath_inherited, getMachineIdPath_inherited,
         getTelemetryPath_inherited, getWorkspaceStatePath_inherited. }
  intros Ha%(locatable_name h).
  exists (default ".vscode" (supportedApps !! appOf h a)).
  rewrite getUserDataPath_run, getMachineIdPath_run, getTelemetryPath_run,
    getWorkspaceStatePath_run by done. cbn [fst snd fs draws emits].
  unfold storagePath, telemetryPath, workspacePath, userDataDir, path_join.
  rewrite <- ?app_assoc. cbn [app].
  assert (Hv : variantOf h ∈ ["Code"; "Windsurf"; "Cursor"])
    by apply variantOf_supported.
  assert (Hdet : ∃ d, supportedApps !! variantOf h = Some d
                      ∧ d ∈ [".vscode"; ".windsurf"; ".cursor"]).
  { repeat (apply elem_of_cons in Hv as [->|Hv]);
      [| | |by apply elem_of_nil in Hv]; eexists; (split; [reflexivity|]);
      set_solver. }
  split.
  { unfold appOf. destruct a as [[|c s]|]; cbn [truthy].
    - destruct Hdet as (d & -> & Hd). exact Hd.
    - destruct (supportedApps !! String c s) as [d|] eqn:Hs; [|set_solver].
      cbn [default].
      unfold supportedApps in Hs.
      repeat (apply lookup_insert_Some in Hs as [[_ <-]|[_ Hs]];
              [set_solver|]).
      apply lookup_singleton_Some in Hs as [_ <-]. set_solver.
    - destruct Hdet as (d & -> & Hd). exact Hd. }
  repeat split.
  - intros s -> Hs Hnone. unfold appOf.
    destruct s as [|c s]; [done|]. cbn [truthy]. by rewrite Hnone.
  - by intros ->.
  - intros [->| ->]; unfold appOf; cbn [truthy];
      destruct Hdet as (d & Hd & _); by rewrite Hd.
Qed.

Lemma config_paths_layout_witness :
  (∃ dir, (getMachineIdPath sampleHost (Some "Atom") sampleWorld).1
          = Ok (homeDir sampleHost
                  ++ [dir; "User"; "globalStorage"; "storage.json"])
          ∧ dir = ".vscode")
  ∧ getMachineIdPath sampleHost (Some "toString") sampleWorld
    = (Throw TypeError, sampleWorld).
Proof.
  split.
  - destruct (proj1 (config_paths_layout sampleHost (Some "Atom")
                       sampleWorld))
      as (dir & _ & _ & Hpath & _ & _ & _ & _ & Hdir & _).
    { intros s [= <-]. apply (bool_decide_unpack _). vm_compute. exact I. }
    exists dir. split; [exact Hpath|].
    by apply (Hdir "Atom").
  - apply (proj2 (config_paths_layout sampleHost (Some "toString")
                    sampleWorld) "toString" eq_refl).
    apply (bool_decide_unpack _). vm_compute. exact I.
Defined.

(** ** More on the reset *)

Lemma resetField_lookup nm nd ns m key :
  resetField nm nd ns m key !! key
  = if truthy (default VUndefined (m !! key))
    then Some (VStr (replacement nm nd ns key)) else m !! key.
Proof.
  unfold resetField. destruct (truthy _); [|done]. apply lookup_insert_eq.
Qed.

Lemma foldl_resetField_lookup nm nd ns keys : ∀ m key,
  NoDup keys → key ∈ keys →
  foldl (resetField nm nd ns) m keys !! key
  = if truthy (default VUndefined (m !! key))
    then Some (VStr (replacement nm nd ns key)) else m !! key.
Proof.
  induction keys as [|k keys IH]; intros m key Hnd Hin.
  { by apply elem_of_nil in Hin. }
  apply NoDup_cons in Hnd as [Hk Hnd]. cbn [foldl].
  apply elem_of_cons in Hin as [->|Hin].
  - by rewrite foldl_resetField_other, resetField_lookup.
  - assert (key ≠ k) by (intros ->; done).
    by rewrite IH, resetField_other.
Qed.

Lemma resetField_dom nm nd ns m key : dom (resetField nm nd ns m key) = dom m.
Proof.
  unfold resetField.
  destruct (truthy (default VUndefined (m !! key))) eqn:Htruthy; [|done].
  destruct (m !! key) as [v|] eqn:Hkey; [|discriminate Htruthy].
  rewrite dom_insert_L. apply elem_of_dom_2 in Hkey. set_solver.
Qed.

Lemma foldl_resetField_dom nm nd ns keys : ∀ m,
  dom (foldl (resetField nm nd ns) m keys) = dom m.
Proof.
  induction keys as [|k keys IH]; intros m; [done|].
  cbn [foldl]. by rewrite IH, resetField_dom.
Qed.

Lemma NoDup_identifierKeys : NoDup identifierKeys.
Proof. apply (bool_decide_unpack _). vm_compute. exact I. Qed.

Lemma resetOutcome_success h a f n m :
  recordAt f (storagePath h a) = Some m →
  faults h (OpRead (storagePath h a)) = false →
  faults h (OpWrite (storagePath h a)) = false →
  resetOutcome h a f n
  = (Ok (identifiers (uuidFrom h n) (uuidFrom h (31 + n)) (uuidFrom h (62 + n))),
     <[storagePath h a :=
         File (JSON_stringify
                 (VObj (resetRecord (uuidFrom h n) (uuidFrom h (31 + n))
                          (uuidFrom h (62 + n)) m)))]> f).
Proof.
  intros [t Hm]%recordAt_Some Hr Hw. unfold resetOutcome. cbv zeta.
  rewrite Hm, Hr. cbn [resetValue]. by rewrite Hw.
Qed.

Lemma jsonMember_is_Some v : v ≠ VUndefined → is_Some (jsonMember v).
Proof. destruct v; by eauto. Qed.

Lemma jsonMember_None v : jsonMember v = None → v = VUndefined.
Proof. by destruct v. Qed.

Lemma dom_jsonRecord m : dom (jsonRecord m) ⊆ dom m.
Proof.
  intros k [v Hk]%elem_of_dom. rewrite lookup_jsonRecord in Hk.
  apply elem_of_dom. destruct (m !! k); [by eauto|done].
Qed.

Lemma sampleWorld_record :
  recordAt (fs sampleWorld) (storagePath sampleHost None) = Some sampleRecord.
Proof. vm_compute; reflexivity. Qed.

(** X3.  On a store that holds a JSON object and can be read and written,
    [resetDeviceIdentifiers] returns the three new identifiers and prints
    the record anew.  [machineId] and [telemetry.machineId] receive the
    returned machine identifier, [deviceId] the returned device identifier,
    [sessionId], [telemetry.sessionId] and [telemetry.devDeviceId] the
    returned session identifier, each only when its old value was truthy.
    A key that is missing or holds a falsy value, and every other key,
    holds what [JSON.stringify] prints for its old value: the same value
    whenever that is read back as it is written, as every string is.  No
    key is created, and no key is dropped unless it held [undefined]. *)
Theorem resetDeviceIdentifiers_success (h : host) (a : option string)
  (w : world) (m : gmap string value) :
  locatable h a →
  recordAt (fs w) (storagePath h a) = Some m →
  faults h (OpRead (storagePath h a)) = false →
  faults h (OpWrite (storagePath h a)) = false →
  ∃ newMachineId newDeviceId newSessionId w' m',
    resetDeviceIdentifiers h a w
    = (Ok (identifiers newMachineId newDeviceId newSessionId), w')
    ∧ fs w' !! storagePath h a = Some (File (Json Stringified (VObj m')))
    ∧ dom m' ⊆ dom m
    ∧ (∀ key v, m !! key = Some v → v ≠ VUndefined → key ∈ dom m')
    ∧ (∀ key, truthy (default VUndefined (m !! key)) = true →
         (key ∈ ["machineId"; "telemetry.machineId"] →
          m' !! key = Some (VStr newMachineId))
         ∧ (key = "deviceId" → m' !! key = Some (VStr newDeviceId))
         ∧ (key ∈ ["sessionId"; "telemetry.sessionId"; "telemetry.devDeviceId"] →
            m' !! key = Some (VStr newSessionId)))
    ∧ (∀ key, truthy (default VUndefined (m !! key)) = false
              ∨ key ∉ identifierKeys →
              m' !! key = m !! key ≫= jsonMember)
    ∧ (∀ key v, truthy (default VUndefined (m !! key)) = false
                ∨ key ∉ identifierKeys →
                m !! key = Some v → roundTrips v → m' !! key = Some v).
Proof.
  intros Ha Hm Hr Hw.
  destruct (resetDeviceIdentifiers_run h a w Ha) as [l Hrun].
  rewrite (resetOutcome_success h a (fs w) (draws w) m) in Hrun by done.
  cbn [fst snd] in Hrun.
  set (nm := uuidFrom h (draws w)) in *.
  set (nd := uuidFrom h (31 + draws w)) in *.
  set (ns := uuidFrom h (62 + draws w)) in *.
  exists nm, nd, ns. eexists _, (jsonRecord (resetRecord nm nd ns m)).
  split; [exact Hrun|]. cbn [fs].
  split; [apply lookup_insert_eq|].
  assert (Hset : ∀ key, key ∈ identifierKeys →
            truthy (default VUndefined (m !! key)) = true →
            jsonRecord (resetRecord nm nd ns m) !! key
            = Some (VStr (replacement nm nd ns key))).
  { intros key Hk Htruthy. rewrite lookup_jsonRecord. unfold resetRecord.
    rewrite foldl_resetField_lookup, Htruthy;
      [done|apply NoDup_identifierKeys|done]. }
  assert (Hkeep : ∀ key, truthy (default VUndefined (m !! key)) = false
                         ∨ key ∉ identifierKeys →
            jsonRecord (resetRecord nm nd ns m) !! key
            = m !! key ≫= jsonMember).
  { intros key Hkey. rewrite lookup_jsonRecord. f_equal.
    destruct (decide (key ∈ identifierKeys)) as [Hin|Hout].
    - destruct Hkey as [Hfalsy|?]; [|done]. unfold resetRecord.
      rewrite foldl_resetField_lookup, Hfalsy;
        [done|apply NoDup_identifierKeys|done].
    - by apply resetRecord_other. }
  split; [|split; [|split; [|split]]].
  - etrans; [apply dom_jsonRecord|].
    unfold resetRecord. by rewrite foldl_resetField_dom.
  - intros key v Hv Hdef. apply elem_of_dom.
    destruct (decide (key ∈ identifierKeys
                      ∧ truthy (default VUndefined (m !! key)) = true))
      as [[Hin Htruthy]|Hno].
    + rewrite Hset by done. by eexists.
    + rewrite Hkeep, Hv; [by apply jsonMember_is_Some|].
      destruct (truthy (default VUndefined (m !! key))); [|by left].
      right. intros Hin. by apply Hno.
  - intros key Htruthy.
    split; [|split].
    + intros Hin. repeat (apply elem_of_cons in Hin as [->|Hin]);
        [| |by apply elem_of_nil in Hin];
        (rewrite Hset; [reflexivity| |done]);
        apply (bool_decide_unpack _); vm_compute; exact I.
    + intros ->. rewrite Hset; [reflexivity| |done].
      apply (bool_decide_unpack _); vm_compute; exact I.
    + intros Hin. repeat (apply elem_of_cons in Hin as [->|Hin]);
        [| | |by apply elem_of_nil in Hin];
        (rewrite Hset; [reflexivity| |done]);
        apply (bool_decide_unpack _); vm_compute; exact I.
  - exact Hkeep.
  - intros key v Hkey Hv Hrt. by rewrite Hkeep, Hv.
Qed.

Lemma resetDeviceIdentifiers_success_witness :
  ∃ newMachineId newDeviceId newSessionId w' (m' : gmap string value),
    resetDeviceIdentifiers sampleHost None sampleWorld
    = (Ok (identifiers newMachineId newDeviceId newSessionId), w')
    ∧ m' !! "telemetry.machineId" = Some (VStr newMachineId)
    ∧ m' !! "deviceId" = Some (VStr newDeviceId)
    ∧ m' !! "telemetry.sessionId" = Some (VStr newSessionId)
    ∧ m' !! "telemetry.devDeviceId" = None
    ∧ m' !! "scoreInfo_user42" = Some (VStr "cached").
Proof.
  destruct (resetDeviceIdentifiers_success sampleHost None sampleWorld
              sampleRecord)
    as (nm & nd & ns & w' & m' & Hrun & _ & _ & _ & Hset & Hkeep & Hsame);
    [apply locatable_None|apply sampleWorld_record|reflexivity|reflexivity|].
  exists nm, nd, ns, w', m'. split; [exact Hrun|].
  assert (Hm : truthy (default VUndefined
                         (sampleRecord !! "telemetry.machineId")) = true)
    by (vm_compute; reflexivity).
  assert (Hd : truthy (default VUndefined (sampleRecord !! "deviceId")) = true)
    by (vm_compute; reflexivity).
  assert (Hs : truthy (default VUndefined
                         (sampleRecord !! "telemetry.sessionId")) = true)
    by (vm_compute; reflexivity).
  assert (Hdd : truthy (default VUndefined
                          (sampleRecord !! "telemetry.devDeviceId")) = false)
    by (vm_compute; reflexivity).
  split; [|split; [|split; [|split]]].
  - apply (proj1 (Hset _ Hm)). apply (bool_decide_unpack _). vm_compute. exact I.
  - apply (proj1 (proj2 (Hset _ Hd))). reflexivity.
  - apply (proj2 (proj2 (Hset _ Hs))).
    apply (bool_decide_unpack _). vm_compute. exact I.
  - rewrite (Hkeep _ (or_introl Hdd)). vm_compute. reflexivity.
  - apply Hsame; [right|vm_compute; reflexivity|reflexivity].
    apply (bool_decide_unpack _). vm_compute. exact I.
Defined.

Lemma last_emits l e w : last (console (emits (l ++ [e]) w)) = Some e.
Proof. unfold emits. cbn [console]. by rewrite app_assoc, last_snoc. Qed.





(** X5.  A store that is valid JSON but not an object (an array, a
    number, a string, a boolean) is printed anew with nothing replaced in
    it: the call returns the three new identifiers, nothing else in the
    file tree changes, and the file reads as what [JSON.stringify] prints
    for the old value, which is the old value whenever that is read back
    as it is written. *)
Theorem resetDeviceIdentifiers_not_an_object (h : host) (a : option string)
  (w : world) (t : layout) (v : value) :
  locatable h a →
  fs w !! storagePath h a = Some (File (Json t v)) →
  (∀ m, v ≠ VObj m) → v ≠ VNull → v ≠ VUndefined →
  faults h (OpRead (storagePath h a)) = false →
  faults h (OpWrite (storagePath h a)) = false →
  ∃ newMachineId newDeviceId newSessionId w',
    resetDeviceIdentifiers h a w
    = (Ok (identifiers newMachineId newDeviceId newSessionId), w')
    ∧ fs w' = <[storagePath h a := File (Json Stringified (jsonify v))]> (fs w)
    ∧ parsedAt (fs w') (storagePath h a) = Some (jsonify v)
    ∧ (jsonify v = v →
       parsedAt (fs w') (storagePath h a) = parsedAt (fs w) (storagePath h a)).
Proof.
  intros Ha Hsp Hobj Hnull Hundef Hr Hw.
  destruct (resetDeviceIdentifiers_run h a w Ha) as [l ->].
  assert (Hout : resetOutcome h a (fs w) (draws w)
                 = (Ok (identifiers (uuidFrom h (draws w))
                          (uuidFrom h (31 + draws w))
                          (uuidFrom h (62 + draws w))),
                    <[storagePath h a := File (JSON_stringify v)]> (fs w))).
  { unfold resetOutcome. cbv zeta. rewrite Hsp, Hr.
    destruct v as [| |b|x|s|vs|m]; try done; try (by destruct (Hobj m));
      cbn [resetValue]; by rewrite Hw. }
  rewrite Hout. cbn [fst snd]. eexists _, _, _, _.
  split; [reflexivity|]. cbn [fs]. split; [reflexivity|].
  assert (Hparsed : parsedAt (<[storagePath h a := File (JSON_stringify v)]>
                                (fs w)) (storagePath h a)
                    = Some (jsonify v)).
  { unfold parsedAt. by rewrite lookup_insert_eq. }
  split; [exact Hparsed|].
  intros Hsame. rewrite Hparsed, Hsame. unfold parsedAt. by rewrite Hsp.
Qed.

Lemma resetDeviceIdentifiers_not_an_object_witness :
  ∃ newMachineId newDeviceId newSessionId w',
    resetDeviceIdentifiers sampleHost None
      (World (sampleTree (Json (Written 2) (VArr [VNum 1%float; VStr "two"]))) [] 0)
    = (Ok (identifiers newMachineId newDeviceId newSessionId), w')
    ∧ parsedAt (fs w') (storagePath sampleHost None)
      = Some (VArr [VNum 1%float; VStr "two"]).
Proof.
  destruct (resetDeviceIdentifiers_not_an_object sampleHost None
              (World (sampleTree (Json (Written 2) (VArr [VNum 1%float; VStr "two"])))
                 [] 0)
              (Written 2) (VArr [VNum 1%float; VStr "two"]))
    as (nm & nd & ns & w' & Hrun & _ & Hparsed & _).
  - apply locatable_None.
  - vm_compute; reflexivity.
  - intros m. discriminate.
  - discriminate.
  - discriminate.
  - reflexivity.
  - reflexivity.
  - exists nm, nd, ns, w'. split; [exact Hrun|].
    rewrite Hparsed. vm_compute. reflexivity.
Defined.

(** ** More on the cache entry *)

Lemma cacheTree_frame h userId f (q : path) :
  q ≠ storagePath h None → cacheTree h userId f !! q = f !! q.
Proof.
  intros Hq. unfold cacheTree. cbv zeta.
  destruct (f !! storagePath h None) as [[[t v|]|]|]; try done.
  destruct v; try done.
  destruct (faults h (OpRead _)); [done|].
  destruct (truthy _); [|done].
  destruct (faults h (OpWrite _)); [done|].
  by rewrite lookup_insert_ne.
Qed.

(** X6.  [clearUserCache] never throws and changes at most
    [storage.json].  Without a user id (undefined or the empty string) it
    does nothing at all.  On a store that holds a JSON object and can be
    read and written, it deletes the key [scoreInfo_<userId>] when that key
    holds a truthy value and prints the rest of the record anew; when the
    key is missing or holds a falsy value (0, false, null, the empty
    string) the file is left as it is, so a falsy cache entry is never
    removed. *)
Theorem clearUserCache_spec (h : host) (userId : option string) (w : world) :
  ∃ w',
    clearUserCache h userId w = (Ok VUndefined, w')
    ∧ draws w' = draws w
    ∧ (∀ q : path, q ≠ storagePath h None → fs w' !! q = fs w !! q)
    ∧ (userId = None ∨ userId = Some EmptyString → w' = w)
    ∧ (∀ u m,
         userId = Some u → u ≠ EmptyString →
         recordAt (fs w) (storagePath h None) = Some m →
         faults h (OpRead (storagePath h None)) = false →
         faults h (OpWrite (storagePath h None)) = false →
         (truthy (default VUndefined (m !! ("scoreInfo_" +:+ u))) = true →
          fs w' !! storagePath h None
          = Some (File (Json Stringified
                          (VObj (jsonRecord (delete ("scoreInfo_" +:+ u) m)))))
          ∧ jsonRecord (delete ("scoreInfo_" +:+ u) m) !! ("scoreInfo_" +:+ u)
            = None
          ∧ ((∀ k v, m !! k = Some v → roundTrips v) →
             recordAt (fs w') (storagePath h None)
             = Some (delete ("scoreInfo_" +:+ u) m)))
         ∧ (truthy (default VUndefined (m !! ("scoreInfo_" +:+ u))) = false →
            fs w' = fs w)).
Proof.
  destruct userId as [[|c s]|].
  - exists w. repeat split; try done; intros; by simplify_eq.
  - destruct (clearUserCache_run h (String c s) w) as [l ->]; [done|].
    eexists. split; [reflexivity|]. cbn [fs draws].
    split; [done|]. split; [|split].
    + intros q Hq. by apply cacheTree_frame.
    + intros [?|?]; done.
    + intros u m Hu _ [t Hm]%recordAt_Some Hr Hw. simplify_eq.
      unfold cacheTree. cbv zeta. rewrite Hm, Hr.
      destruct (truthy _); rewrite ?Hw; split; try done.
      intros _. split; [apply lookup_insert_eq|]. split.
      * by rewrite lookup_jsonRecord, lookup_delete_eq.
      * intros Hm'. unfold recordAt. rewrite lookup_insert_eq.
        unfold JSON_stringify. rewrite jsonify_object.
        rewrite jsonRecord_roundTrips; [done|].
        intros k v [_ Hk]%lookup_delete_Some. by apply (Hm' k).
  - exists w. repeat split; try done.
Qed.

Lemma clearUserCache_spec_witness :
  ∃ w', clearUserCache sampleHost (Some "user42") sampleWorld
        = (Ok VUndefined, w')
        ∧ recordAt (fs w') (storagePath sampleHost None)
          = Some (delete ("scoreInfo_" +:+ "user42") sampleRecord).
Proof.
  destruct (clearUserCache_spec sampleHost (Some "user42") sampleWorld)
    as (w' & Hrun & _ & _ & _ & Hdel).
  exists w'. split; [exact Hrun|].
  destruct (Hdel "user42" sampleRecord) as [[Hfile _] _].
  - reflexivity.
  - discriminate.
  - apply sampleWorld_record.
  - reflexivity.
  - reflexivity.
  - vm_compute; reflexivity.
  - unfold recordAt. rewrite Hfile. vm_compute. reflexivity.
Defined.

(** ** More on the telemetry cleaning *)

(** X7.  [cleanTelemetryData] and [clearWorkspaceStorage] catch every
    error of their [fs] calls: for a name the locator accepts, the default
    included, they return [undefined] whatever the file tree holds and
    whichever call fails.  The path is computed before the [try] block:
    for a name that selects an inherited member of the table both throw
    [TypeError], change nothing and print nothing.  Neither takes a
    random draw. *)
Theorem cleaners_catch_fs_errors (h : host) (a : option string) (w : world) :
  (locatable h a →
   (cleanTelemetryData h a w).1 = Ok VUndefined
   ∧ (clearWorkspaceStorage h a w).1 = Ok VUndefined)
  ∧ (¬ locatable h a →
     cleanTelemetryData h a w = (Throw TypeError, w)
     ∧ clearWorkspaceStorage h a w = (Throw TypeError, w))
  ∧ draws (cleanTelemetryData h a w).2 = draws w
  ∧ draws (clearWorkspaceStorage h a w).2 = draws w.
Proof.
  split; [|split].
  - intros Ha. by rewrite cleanTelemetryData_run, clearWorkspaceStorage_run.
  - intros Ha.
    by rewrite cleanTelemetryData_inherited, clearWorkspaceStorage_inherited.
  - destruct (decide (locatable h a)) as [Ha|Ha].
    + by rewrite cleanTelemetryData_run, clearWorkspaceStorage_run.
    + by rewrite cleanTelemetryData_inherited,
           clearWorkspaceStorage_inherited.
Qed.

Lemma cleaners_catch_fs_errors_witness :
  (cleanTelemetryData sampleHost None brokenWorld).1 = Ok VUndefined
  ∧ (clearWorkspaceStorage (stuckHost "a") None sampleWorld).1 = Ok VUndefined
  ∧ cleanTelemetryData sampleHost (Some "toString") sampleWorld
    = (Throw TypeError, sampleWorld)
  ∧ clearWorkspaceStorage sampleHost (Some "__proto__") sampleWorld
    = (Throw TypeError, sampleWorld).
Proof.
  split; [|split; [|split]].
  - apply (proj1 (cleaners_catch_fs_errors sampleHost None brokenWorld)).
    apply locatable_None.
  - apply (proj1 (cleaners_catch_fs_errors (stuckHost "a") None sampleWorld)).
    apply locatable_None.
  - apply (proj1 (proj2 (cleaners_catch_fs_errors sampleHost
                           (Some "toString") sampleWorld))).
    intros Hout. apply Hout. apply (bool_decide_unpack _). vm_compute. exact I.
  - apply (proj1 (proj2 (cleaners_catch_fs_errors sampleHost
                           (Some "__proto__") sampleWorld))).
    intros Hout. apply Hout. apply (bool_decide_unpack _). vm_compute. exact I.
Defined.

(** X8.  [cleanTelemetryData] changes nothing but the telemetry file and
    its backup path: every other path, [storage.json] and everything under
    the workspace storage included, holds afterwards what it held
    before. *)
Theorem cleanTelemetryData_frame (h : host) (a : option string) (w : world) :
  (∀ q : path, q ≠ telemetryPath h a → q ≠ backupPath h a →
               fs (cleanTelemetryData h a w).2 !! q = fs w !! q)
  ∧ fs (cleanTelemetryData h a w).2 !! storagePath h a
    = fs w !! storagePath h a
  ∧ (∀ q : path, workspacePath h a `prefix_of` q →
                 fs (cleanTelemetryData h a w).2 !! q = fs w !! q).
Proof.
  rewrite cleanTelemetryData_fs.
  destruct (decide (locatable h a)); [|done]. split; [|split].
  - intros q H1 H2. by apply cleanBody_frame.
  - apply cleanBody_frame; [apply storage_ne_telemetry|apply storage_ne_backup].
  - intros q Hq. apply cleanBody_frame.
    + intros ->. by apply (workspace_not_prefix_telemetry h a).
    + intros ->. by apply (workspace_not_prefix_backup h a).
Qed.

(** X9.  When the copy succeeds but the deletion fails, both files stay:
    the telemetry file keeps its content, the backup holds the same
    content, and the error is the last console line. *)
Theorem cleanTelemetryData_unlink_fails (h : host) (a : option string)
  (w : world) (c : content) :
  locatable h a →
  fs w !! telemetryPath h a = Some (File c) →
  fs w !! backupPath h a ≠ Some Dir →
  faults h (OpCopy (telemetryPath h a) (backupPath h a)) = false →
  faults h (OpUnlink (telemetryPath h a)) = true →
  fs (cleanTelemetryData h a w).2 !! telemetryPath h a = Some (File c)
  ∧ fs (cleanTelemetryData h a w).2 !! backupPath h a = Some (File c)
  ∧ last (console (cleanTelemetryData h a w).2)
    = Some (Error, [LStr "Error cleaning telemetry:";
                    LErr (SystemError "EACCES")]).
Proof.
  intros Ha Htp Hbp Hcopy Hunlink. rewrite cleanTelemetryData_run by done.
  cbn [snd fs console].
  assert (Hbody : cleanBody h a (fs w)
                  = (Throw (SystemError "EACCES"),
                     <[backupPath h a := File c]> (fs w))).
  { unfold cleanBody, copyTree, unlinkTree. rewrite Htp, Hcopy, Hunlink.
    by destruct (fs w !! backupPath h a) as [[?|]|]. }
  unfold cleanLog. rewrite Hbody, Htp. cbn [fst snd]. split; [|split].
  - rewrite lookup_insert_ne by apply backup_ne_telemetry. done.
  - apply lookup_insert_eq.
  - change (locatorLog h a ++ [?x; ?y]) with (locatorLog h a ++ [x] ++ [y]).
    by rewrite (app_assoc (locatorLog h a)), last_console.
Qed.

(** The sample host with a telemetry file that cannot be deleted. *)
Lemma cleanTelemetryData_unlink_fails_witness :
  let h := Host ["home"; "user"] ∅
             (λ op, match op with OpUnlink _ => true | _ => false end)
             1700000000000 (λ n, 0%N) in
  fs (cleanTelemetryData h None sampleWorld).2 !! telemetryPath h None
  = Some (File sampleTelemetry)
  ∧ fs (cleanTelemetryData h None sampleWorld).2 !! backupPath h None
    = Some (File sampleTelemetry).
Proof.
  cbv zeta.
  destruct (cleanTelemetryData_unlink_fails
              (Host ["home"; "user"] ∅
                 (λ op, match op with OpUnlink _ => true | _ => false end)
                 1700000000000 (λ n, 0%N)) None sampleWorld sampleTelemetry)
    as (H1 & H2 & _).
  - apply locatable_None.
  - vm_compute; reflexivity.
  - vm_compute; discriminate.
  - reflexivity.
  - reflexivity.
  - split; [exact H1|exact H2].
Defined.

Lemma backupPath_clock_inj h1 h2 a :
  userDataDir h1 a = userDataDir h2 a →
  backupPath h1 a = backupPath h2 a → clock h1 = clock h2.
Proof.
  intros Hdir. rewrite !backupPath_eq, Hdir. intros H%app_inv_head.
  injection H as H.
  apply (inj (String.app _)) in H.
  by apply (inj pretty) in H.
Qed.

(** X10.  Backups taken at different times have different paths, so a later
    cleaning neither overwrites nor removes an earlier backup. *)
Theorem cleanTelemetryData_keeps_earlier_backup (h1 h2 : host)
  (a : option string) (w : world) :
  userDataDir h1 a = userDataDir h2 a →
  clock h1 ≠ clock h2 →
  backupPath h1 a ≠ backupPath h2 a
  ∧ fs (cleanTelemetryData h2 a w).2 !! backupPath h1 a
    = fs w !! backupPath h1 a.
Proof.
  intros Hdir Hclock.
  assert (Hne : backupPath h1 a ≠ backupPath h2 a).
  { intros H. by apply Hclock, (backupPath_clock_inj h1 h2 a). }
  split; [done|].
  rewrite cleanTelemetryData_fs. destruct (decide (locatable h2 a)); [|done].
  apply cleanBody_frame; [|done].
  unfold telemetryPath. rewrite <- Hdir. apply backup_ne_telemetry.
Qed.

Lemma cleanTelemetryData_keeps_earlier_backup_witness :
  let later := Host ["home"; "user"] ∅ (λ _, false) 1700000099999 (λ n, 0%N) in
  fs (cleanTelemetryData later None
        (cleanTelemetryData sampleHost None sampleWorld).2).2
    !! backupPath sampleHost None
  = fs (cleanTelemetryData sampleHost None sampleWorld).2
      !! backupPath sampleHost None.
Proof.
  cbv zeta.
  apply (cleanTelemetryData_keeps_earlier_backup sampleHost
           (Host ["home"; "user"] ∅ (λ _, false) 1700000099999 (λ n, 0%N))).
  - reflexivity.
  - discriminate.
Defined.

(** ** More on the workspace clearing *)

Lemma not_child_prefix_self (dir : path) (name : string) :
  ¬ (dir ++ [name]) `prefix_of` dir.
Proof. apply prefix_snoc_not. Qed.

Lemma clearBody_frame_entries h a f (q : path) :
  (∀ name, ¬ path_join (workspacePath h a) [name] `prefix_of` q) →
  (clearBody h a f).2 !! q = f !! q.
Proof.
  intros Hq. unfold clearBody. cbv zeta.
  destruct (f !! workspacePath h a) as [[c|]|]; [| |done];
    destruct (faults h _); try done.
  pose proof (clearItems_frame h (workspacePath h a)
                (entries f (workspacePath h a)) f 0 q) as Hframe.
  destruct (clearItems h _ _ f 0) as [[n|e] f']; cbn [snd] in *;
    apply Hframe; intros item _ _; apply Hq.
Qed.

(** X11.  Whatever fails, [clearWorkspaceStorage] changes nothing outside
    the entries of the workspace-storage directory: the directory itself
    stays, and so do [storage.json], the telemetry file and every path
    that is not at or below an entry of that directory. *)
Theorem clearWorkspaceStorage_frame (h : host) (a : option string)
  (w : world) :
  let w' := (clearWorkspaceStorage h a w).2 in
  (∀ q : path, (∀ name, ¬ path_join (workspacePath h a) [name] `prefix_of` q) →
               fs w' !! q = fs w !! q)
  ∧ fs w' !! workspacePath h a = fs w !! workspacePath h a
  ∧ fs w' !! storagePath h a = fs w !! storagePath h a
  ∧ fs w' !! telemetryPath h a = fs w !! telemetryPath h a.
Proof.
  cbv zeta. rewrite clearWorkspaceStorage_fs.
  destruct (decide (locatable h a)); [|done].
  split; [|split; [|split]].
  - intros q Hq. by apply clearBody_frame_entries.
  - apply clearBody_frame_entries. intros name. apply not_child_prefix_self.
  - apply clearBody_frame, workspace_not_prefix_storage.
  - apply clearBody_frame, workspace_not_prefix_telemetry.
Qed.

(** X12.  The edge cases of [clearWorkspaceStorage].  Without the
    workspace-storage directory it does nothing and prints neither a count
    nor an error.  When the path is a plain file, or the directory cannot
    be listed, the error is printed ([ENOTDIR], [EACCES]), no count is
    printed and the file tree is unchanged. *)
Theorem clearWorkspaceStorage_edges (h : host) (a : option string)
  (w : world) :
  let w' := (clearWorkspaceStorage h a w).2 in
  let started := (Info, [LStr "Clearing workspace storage..."]) in
  let failed code :=
    (Error, [LStr "Error clearing workspace storage:";
             LErr (SystemError code)]) in
  locatable h a →
  (fs w !! workspacePath h a = None →
   fs w' = fs w ∧ console w' = console w ++ locatorLog h a ++ [started])
  ∧ (∀ c, fs w !! workspacePath h a = Some (File c) →
          faults h (OpReaddir (workspacePath h a)) = false →
          fs w' = fs w
          ∧ console w'
            = console w ++ locatorLog h a ++ [started; failed "ENOTDIR"])
  ∧ (∀ n, fs w !! workspacePath h a = Some n →
          faults h (OpReaddir (workspacePath h a)) = true →
          fs w' = fs w
          ∧ console w'
            = console w ++ locatorLog h a ++ [started; failed "EACCES"]).
Proof.
  cbv zeta. intros Ha.
  rewrite clearWorkspaceStorage_run by done. cbn [snd fs console].
  unfold clearLog, clearBody. cbv zeta. split; [|split].
  - by intros ->.
  - intros c -> ->. done.
  - intros n -> ->. done.
Qed.

Lemma clearWorkspaceStorage_edges_witness :
  fs (clearWorkspaceStorage sampleHost None emptyWorld).2 = fs emptyWorld
  ∧ console (clearWorkspaceStorage sampleHost None emptyWorld).2
    = console emptyWorld ++ locatorLog sampleHost None
      ++ [(Info, [LStr "Clearing workspace storage..."])].
Proof.
  apply (proj1 (clearWorkspaceStorage_edges sampleHost None emptyWorld
                  (locatable_None sampleHost))).
  reflexivity.
Defined.

Lemma clearBody_ok h a f :
  f !! workspacePath h a = Some Dir →
  faults h (OpReaddir (workspacePath h a)) = false →
  (∀ name, is_Some (f !! path_join (workspacePath h a) [name]) →
           healthy h (workspacePath h a) name) →
  (clearBody h a f).1 = Ok (Some (length (subdirs f (workspacePath h a))))
  ∧ (∀ name (q : path),
       f !! path_join (workspacePath h a) [name] = Some Dir →
       path_join (workspacePath h a) [name] `prefix_of` q →
       (clearBody h a f).2 !! q = None)
  ∧ (∀ name c,
       f !! path_join (workspacePath h a) [name] = Some (File c) →
       (clearBody h a f).2 !! path_join (workspacePath h a) [name]
       = Some (File c))
  ∧ (∀ q : path, f !! q = None → (clearBody h a f).2 !! q = None).
Proof.
  intros Hdir Hread Hok. rewrite clearBody_dir by done.
  destruct (clearItems_ok h (workspacePath h a)
              (entries f (workspacePath h a)) f 0) as [Hcount Hgone].
  { apply NoDup_entries. }
  { intros item Hin. by apply elem_of_entries in Hin. }
  { intros item Hin. apply Hok. by apply elem_of_entries in Hin. }
  pose proof (clearItems_frame h (workspacePath h a)
                (entries f (workspacePath h a)) f 0) as Hframe.
  pose proof (clearItems_none h (workspacePath h a)
                (entries f (workspacePath h a)) f 0) as Hnone.
  destruct (clearItems h (workspacePath h a) _ f 0) as [[n|e] f'];
    cbn [fst snd] in *; [|done].
  injection Hcount as ->. split; [done|]. split; [|split].
  - intros name q Hname Hq. apply (Hgone name q); [| |done].
    + apply elem_of_entries. eexists. exact Hname.
    + unfold isSubdir. by rewrite Hname.
  - intros name c Hname. rewrite Hframe; [done|].
    intros item _ Hsub Hpre. apply child_prefix_inv in Hpre as ->.
    unfold isSubdir in Hsub. by rewrite Hname in Hsub.
  - exact Hnone.
Qed.

Lemma subdirs_nil f (dir : path) :
  (∀ name, f !! path_join dir [name] ≠ Some Dir) → subdirs f dir = [].
Proof.
  intros Hnone. unfold subdirs.
  induction (entries f dir) as [|name l IH]; [done|].
  rewrite filter_cons, IH, decide_False; [done|].
  unfold isSubdir. specialize (Hnone name).
  by destruct (f !! path_join dir [name]) as [[?|]|].
Qed.

Lemma clearItems_no_subdirs h dir items : ∀ f cnt,
  (∀ name, f !! path_join dir [name] ≠ Some Dir) →
  (∀ item, item ∈ items → is_Some (f !! path_join dir [item])) →
  (∀ item, item ∈ items → healthy h dir item) →
  clearItems h dir items f cnt = (Ok cnt, f).
Proof.
  induction items as [|item rest IH]; intros f cnt Hnone Hex Hok; [done|].
  cbn [clearItems]. cbv zeta.
  destruct (Hok item) as [-> _]; [by left|].
  destruct (Hex item) as [n Hn]; [by left|]. rewrite Hn.
  destruct n as [c|]; [|by destruct (Hnone item)].
  apply IH; [done| |]; intros; [apply Hex|apply Hok]; by right.
Qed.

(** X13.  Clearing twice removes nothing the second time.  When every
    entry can be inspected and removed, no immediate subdirectory is left
    after the first call, and a second call leaves the file tree as it is
    and prints the count 0. *)
Theorem clearWorkspaceStorage_twice (h : host) (a : option string) (w : world) :
  let dir := workspacePath h a in
  let w1 := (clearWorkspaceStorage h a w).2 in
  let w2 := (clearWorkspaceStorage h a w1).2 in
  locatable h a →
  fs w !! dir = Some Dir →
  faults h (OpReaddir dir) = false →
  (∀ name, healthy h dir name) →
  subdirs (fs w1) dir = []
  ∧ fs w2 = fs w1
  ∧ last (console w2) = Some (Info, [LStr "Cleared 0 workspace storage items"]).
Proof.
  cbv zeta. intros Ha Hdir Hread Hok.
  rewrite (clearWorkspaceStorage_run h a w) by done. cbn [snd fs].
  rewrite clearWorkspaceStorage_run by done. cbn [snd fs console].
  destruct (clearBody_ok h a (fs w) Hdir Hread) as (_ & Hgone & Hkept & Hnone);
    [by intros|].
  set (f1 := (clearBody h a (fs w)).2) in *.
  assert (Hdir1 : f1 !! workspacePath h a = Some Dir).
  { unfold f1. rewrite clearBody_frame_entries; [done|].
    intros name. apply not_child_prefix_self. }
  assert (Hflat : ∀ name, f1 !! path_join (workspacePath h a) [name] ≠ Some Dir).
  { intros name Hname.
    destruct (fs w !! path_join (workspacePath h a) [name]) as [[c|]|] eqn:Hold.
    - rewrite (Hkept name c Hold) in Hname. discriminate.
    - rewrite (Hgone name _ Hold) in Hname; [discriminate|done].
    - rewrite (Hnone _ Hold) in Hname. discriminate. }
  split; [by apply subdirs_nil|].
  assert (Hbody : clearBody h a f1 = (Ok (Some 0), f1)).
  { rewrite clearBody_dir by done.
    rewrite (clearItems_no_subdirs h (workspacePath h a) _ f1 0); [done|done| |].
    - intros item Hin. by apply elem_of_entries in Hin.
    - by intros. }
  assert (Hlog : clearLog h a f1
                 = [(Info, [LStr "Clearing workspace storage..."]);
                    clearedMessage 0]).
  { unfold clearLog. by rewrite Hbody. }
  rewrite Hbody, Hlog. cbn [snd]. split; [done|].
  rewrite !last_app. reflexivity.
Qed.

Lemma clearWorkspaceStorage_twice_witness :
  subdirs (fs (clearWorkspaceStorage sampleHost None sampleWorld).2)
          (workspacePath sampleHost None) = []
  ∧ fs (clearWorkspaceStorage sampleHost None
          (clearWorkspaceStorage sampleHost None sampleWorld).2).2
    = fs (clearWorkspaceStorage sampleHost None sampleWorld).2.
Proof.
  destruct (clearWorkspaceStorage_twice sampleHost None sampleWorld)
    as (H1 & H2 & _).
  - apply locatable_None.
  - vm_compute; reflexivity.
  - reflexivity.
  - intros name. split; reflexivity.
  - split; [exact H1|exact H2].
Defined.

(** ** Reset, then read *)

Lemma uuidFrom_truthy h n : truthy (VStr (uuidFrom h n)) = true.
Proof.
  unfold uuidFrom, uuidTemplate. cbn [fill Ascii.eqb Bool.eqb orb].
  destruct (digitAt_shape h "x" n) as (d & -> & _).
  cbv [String.append]. reflexivity.
Qed.

(** A falsy value is still falsy when it is read back. *)
Lemma falsy_jsonMember (o : option value) :
  truthy (default VUndefined o) = false →
  truthy (default VUndefined (o ≫= jsonMember)) = false.
Proof.
  destruct o as [v|]; [|done]. destruct v as [| |b|x|s|l|m]; try done.
  cbn [default from_option id mbind option_bind jsonMember jsonify truthy].
  destruct (PrimFloat.is_finite x); [|done].
  destruct (PrimFloat.is_zero x) eqn:Hzero; [done|].
  cbn [truthy]. by rewrite Hzero.
Qed.

Lemma pick_reset nm nd ns (m : gmap string value) k1 k2 :
  k1 ∈ identifierKeys → k2 ∈ identifierKeys →
  truthy (VStr (replacement nm nd ns k1)) = true →
  pick (VObj (jsonRecord (resetRecord nm nd ns m))) k1 k2
  = if truthy (default VUndefined (m !! k1))
    then VStr (replacement nm nd ns k1)
    else if truthy (default VUndefined (m !! k2))
         then VStr (replacement nm nd ns k2)
         else default VUndefined (m !! k2 ≫= jsonMember).
Proof.
  intros H1 H2 Htruthy. unfold pick, propOf, resetRecord.
  rewrite !lookup_jsonRecord.
  rewrite !foldl_resetField_lookup by (done || apply NoDup_identifierKeys).
  destruct (truthy (default VUndefined (m !! k1))) eqn:Hk1.
  - cbn [default from_option id mbind option_bind jsonMember jsonify].
    by rewrite Htruthy.
  - rewrite (falsy_jsonMember _ Hk1).
    by destruct (truthy (default VUndefined (m !! k2))).
Qed.

Lemma info_lookup (x y z p : value) :
  let info : gmap string value :=
    {[ "machineId" := x; "deviceId" := y; "sessionId" := z;
       "storagePath" := p ]} in
  info !! "machineId" = Some x ∧ info !! "deviceId" = Some y
  ∧ info !! "sessionId" = Some z ∧ info !! "storagePath" = Some p.
Proof. cbv zeta. repeat split; by simplify_map_eq. Qed.

(** X14.  Reading back after a reset.  After a successful
    [resetDeviceIdentifiers], [getCurrentDeviceInfo] reports the returned
    machine identifier as [machineId] as soon as the old store had a truthy
    [telemetry.machineId] or [machineId], and likewise the returned session
    identifier as [sessionId].  For [deviceId] it reports the returned
    device identifier only when [telemetry.devDeviceId] was missing or
    falsy; when that key was truthy it reports the returned session
    identifier, which is what the reset wrote there. *)
Theorem reset_then_info (h : host) (a : option string) (w : world)
  (m : gmap string value) :
  let was key := truthy (default VUndefined (m !! key)) in
  locatable h a →
  recordAt (fs w) (storagePath h a) = Some m →
  faults h (OpRead (storagePath h a)) = false →
  faults h (OpWrite (storagePath h a)) = false →
  ∃ newMachineId newDeviceId newSessionId w1 (info : gmap string value) w2,
    resetDeviceIdentifiers h a w
    = (Ok (identifiers newMachineId newDeviceId newSessionId), w1)
    ∧ getCurrentDeviceInfo h a w1 = (Ok (VObj info), w2)
    ∧ (was "telemetry.machineId" = true ∨ was "machineId" = true →
       info !! "machineId" = Some (VStr newMachineId))
    ∧ (was "telemetry.sessionId" = true ∨ was "sessionId" = true →
       info !! "sessionId" = Some (VStr newSessionId))
    ∧ (was "telemetry.devDeviceId" = false → was "deviceId" = true →
       info !! "deviceId" = Some (VStr newDeviceId))
    ∧ (was "telemetry.devDeviceId" = true →
       info !! "deviceId" = Some (VStr newSessionId)).
Proof.
  cbv zeta. intros Ha Hm Hr Hw.
  destruct (resetDeviceIdentifiers_run h a w Ha) as [l Hrun].
  rewrite (resetOutcome_success h a (fs w) (draws w) m) in Hrun by done.
  cbn [fst snd] in Hrun. unfold JSON_stringify in Hrun.
  rewrite jsonify_object in Hrun.
  set (nm := uuidFrom h (draws w)) in *.
  set (nd := uuidFrom h (31 + draws w)) in *.
  set (ns := uuidFrom h (62 + draws w)) in *.
  eexists nm, nd, ns, _, _, _. split; [exact Hrun|].
  rewrite getCurrentDeviceInfo_run by done. cbn [fs].
  unfold infoValue. cbv zeta.
  rewrite lookup_insert_eq, Hr. split; [reflexivity|].
  assert (Hin : ∀ k, k ∈ identifierKeys ↔ bool_decide (k ∈ identifierKeys) = true).
  { intros k. by rewrite bool_decide_eq_true. }
  set (x := pick _ "telemetry.machineId" "machineId").
  set (y := pick _ "telemetry.devDeviceId" "deviceId").
  set (z := pick _ "telemetry.sessionId" "sessionId").
  destruct (info_lookup x y z (VStr (path_str (storagePath h a))))
    as (-> & -> & -> & _).
  subst x y z.
  rewrite !pick_reset;
    try (apply Hin; vm_compute; reflexivity);
    try (change (replacement nm nd ns "telemetry.machineId") with nm;
         apply uuidFrom_truthy);
    try (change (replacement nm nd ns "telemetry.sessionId") with ns;
         apply uuidFrom_truthy);
    try (change (replacement nm nd ns "telemetry.devDeviceId") with ns;
         apply uuidFrom_truthy).
  change (replacement nm nd ns "telemetry.machineId") with nm.
  change (replacement nm nd ns "machineId") with nm.
  change (replacement nm nd ns "telemetry.sessionId") with ns.
  change (replacement nm nd ns "sessionId") with ns.
  change (replacement nm nd ns "telemetry.devDeviceId") with ns.
  change (replacement nm nd ns "deviceId") with nd.
  split; [|split; [|split]].
  - intros [H|H].
    + rewrite H. reflexivity.
    + rewrite H.
      destruct (truthy (default VUndefined (m !! "telemetry.machineId")));
        reflexivity.
  - intros [H|H].
    + rewrite H. reflexivity.
    + rewrite H.
      destruct (truthy (default VUndefined (m !! "telemetry.sessionId")));
        reflexivity.
  - intros H1 H2. rewrite H1, H2. reflexivity.
  - intros H. rewrite H. reflexivity.
Qed.

Lemma reset_then_info_witness :
  ∃ newMachineId newDeviceId newSessionId w1 (info : gmap string value) w2,
    resetDeviceIdentifiers sampleHost None sampleWorld
    = (Ok (identifiers newMachineId newDeviceId newSessionId), w1)
    ∧ getCurrentDeviceInfo sampleHost None w1 = (Ok (VObj info), w2)
    ∧ info !! "machineId" = Some (VStr newMachineId)
    ∧ info !! "deviceId" = Some (VStr newDeviceId).
Proof.
  destruct (reset_then_info sampleHost None sampleWorld sampleRecord)
    as (nm & nd & ns & w1 & info & w2 & Hreset & Hinfo & Hm & _ & Hd & _);
    [apply locatable_None|apply sampleWorld_record|reflexivity|reflexivity|].
  exists nm, nd, ns, w1, info, w2.
  split; [exact Hreset|]. split; [exact Hinfo|]. split.
  - apply Hm. left. vm_compute; reflexivity.
  - apply Hd; vm_compute; reflexivity.
Defined.

(** ** More on the orchestrator *)

(** X15.  Unless [clearWorkspace] is switched on, a refresh leaves the
    workspace storage alone: the directory and everything below it hold
    afterwards what they held before, whatever the other options are and
    whether or not the refresh throws. *)
Theorem refreshVSCodeDevice_spares_workspace (h : host) (a : option string)
  (opts : options) (w : world) (q : path) :
  default false (clearWorkspace opts) = false →
  workspacePath h a `prefix_of` q →
  fs (refreshVSCodeDevice h a opts w).2 !! q = fs w !! q.
Proof.
  intros Hoff Hq. destruct (decide (locatable h a)) as [Ha|Ha];
    [|by rewrite refreshVSCodeDevice_inherited_fs].
  rewrite refreshVSCodeDevice_tree by done. unfold refreshTree.
  cbv zeta. rewrite Hoff.
  assert (Hsp : q ≠ storagePath h a).
  { intros ->. by apply (workspace_not_prefix_storage h a). }
  assert (Htp : q ≠ telemetryPath h a).
  { intros ->. by apply (workspace_not_prefix_telemetry h a). }
  assert (Hbp : q ≠ backupPath h a).
  { intros ->. by apply (workspace_not_prefix_backup h a). }
  assert (Hclean : ∀ f, (if default true (cleanTelemetry opts)
                         then (cleanBody h a f).2 else f) !! q = f !! q).
  { intros f. destruct (default true (cleanTelemetry opts)); [|done].
    by apply cleanBody_frame. }
  destruct (default true (resetIdentifiers opts)).
  - pose proof (resetOutcome_frame h a (fs w) (draws w) q Hsp) as Hreset.
    destruct (resetOutcome h a (fs w) (draws w)) as [[ids|e] f1];
      cbn [fst snd] in *; [|done].
    by rewrite Hclean.
  - cbn [fst snd]. by rewrite Hclean.
Qed.

Lemma refreshVSCodeDevice_spares_workspace_witness :
  fs (refreshVSCodeDevice sampleHost None defaults sampleWorld).2
    !! (workspacePath sampleHost None ++ ["a"; "state.json"])
  = Some (File (Json Stringified (VObj ∅))).
Proof.
  rewrite (refreshVSCodeDevice_spares_workspace sampleHost None defaults
             sampleWorld).
  - vm_compute; reflexivity.
  - reflexivity.
  - exists ["a"; "state.json"]. reflexivity.
Defined.

(** ** The command line *)

Lemma fs_emits l w : fs (emits l w) = fs w.
Proof. reflexivity. Qed.

Lemma draws_emits l w : draws (emits l w) = draws w.
Proof. reflexivity. Qed.

Lemma console_log_run args w :
  console_log args w = (Ok tt, emits [(Info, args)] w).
Proof. apply logger_info_run. Qed.

Lemma console_error_run args w :
  console_error args w = (Ok tt, emits [(Error, args)] w).
Proof. apply logger_error_run. Qed.

Ltac cstep :=
  repeat first
    [ rewrite run_bind | rewrite run_ret | rewrite console_log_run
    | rewrite console_error_run
    | rewrite getCurrentDeviceInfo_run by locate
    | rewrite emits_emits ];
  cbv beta iota.

Lemma main_info_run h inspect args w :
  (array_includes "--reset" args || array_includes "-r" args) = false →
  ∃ l, main h inspect args w = (Ok VUndefined, emits l w).
Proof.
  intros Hno. unfold main. rewrite Hno.
  destruct (array_includes "--info" args || array_includes "-i" args);
    cstep; eexists; reflexivity.
Qed.

Lemma main_reset_run h inspect args w :
  (array_includes "--reset" args || array_includes "-r" args) = true →
  ∃ l l',
    main h inspect args w
    = let r := refreshVSCodeDevice h None
                 (Options (Some true)
                    (Some (array_includes "--telemetry" args))
                    (Some (array_includes "--workspace" args))
                    (Some true)) (emits l w) in
      match r.1 with
      | Ok _ => (Ok VUndefined, emits l' r.2)
      | Throw e => (Throw e, r.2)
      end.
Proof.
  intros Hyes. unfold main. rewrite Hyes. cstep.
  eexists. 
  destruct (refreshVSCodeDevice _ _ _ _) as [[v|e] w1] eqn:Hr.
  - cstep. eexists. cbv zeta. rewrite Hr. reflexivity.
  - exists []. cbv zeta. rewrite Hr. reflexivity.
Qed.

(** X16.  Without [--reset] or [-r] the command line only reads and
    prints: it returns normally, and neither the file tree nor the
    random source has moved. *)
Theorem main_without_reset_only_reads (h : host) (inspect : value → string)
  (args : list string) (w : world) :
  "--reset" ∉ args → "-r" ∉ args →
  (main h inspect args w).1 = Ok VUndefined
  ∧ fs (main h inspect args w).2 = fs w
  ∧ draws (main h inspect args w).2 = draws w
  ∧ runMain h inspect args w = main h inspect args w.
Proof.
  intros H1 H2.
  destruct (main_info_run h inspect args w) as [l Hrun].
  { unfold array_includes. by rewrite !bool_decide_false. }
  unfold runMain, try_catch. rewrite Hrun. done.
Qed.

Lemma main_without_reset_only_reads_witness :
  fs (main sampleHost (λ _, "") ["--info"; "--telemetry"] sampleWorld).2
  = fs sampleWorld.
Proof.
  apply (main_without_reset_only_reads sampleHost (λ _, "")
           ["--info"; "--telemetry"] sampleWorld).
  - apply (bool_decide_unpack _). vm_compute. exact I.
  - apply (bool_decide_unpack _). vm_compute. exact I.
Defined.

(** X17.  With [--reset] or [-r] the command line runs a refresh whose
    telemetry and workspace steps are on exactly when [--telemetry] and
    [--workspace] are among the arguments; an error of the refresh is
    printed, not raised; and with neither of the two flags nothing but
    the storage file can differ afterwards. *)
Theorem runMain_reset (h : host) (inspect : value → string)
  (args : list string) (w : world) :
  "--reset" ∈ args ∨ "-r" ∈ args →
  let opts := Options (Some true)
                (Some (array_includes "--telemetry" args))
                (Some (array_includes "--workspace" args))
                (Some true) in
  (runMain h inspect args w).1 = Ok VUndefined
  ∧ fs (runMain h inspect args w).2
    = refreshTree h None opts (fs w) (draws w)
  ∧ ("--telemetry" ∉ args → "--workspace" ∉ args →
     ∀ q, q ≠ storagePath h None →
          fs (runMain h inspect args w).2 !! q = fs w !! q).
Proof.
  intros Hflag opts.
  assert (Hfs : fs (runMain h inspect args w).2
                = refreshTree h None opts (fs w) (draws w)
                ∧ (runMain h inspect args w).1 = Ok VUndefined).
  { destruct (main_reset_run h inspect args w) as (l & l' & Hrun).
    { unfold array_includes. apply orb_true_iff.
      destruct Hflag; [left|right]; by apply bool_decide_eq_true. }
    unfold runMain, try_catch. rewrite Hrun. clear Hrun. cbv zeta.
    pose proof (refreshVSCodeDevice_tree h None opts (emits l w)
                  (locatable_None h)) as Htree.
    rewrite fs_emits, draws_emits in Htree. fold opts.
    destruct (refreshVSCodeDevice h None opts (emits l w)) as [[v|e] w1];
      cbn [fst snd] in Htree |- *.
    - rewrite fs_emits. by split.
    - cstep. cbn [fst snd]. rewrite fs_emits. by split. }
  destruct Hfs as [Hfs Hok]. split; [exact Hok|]. split; [exact Hfs|].
  intros Ht Hw q Hq. rewrite Hfs. unfold refreshTree, opts, array_includes.
  cbv zeta. cbn [resetIdentifiers cleanTelemetry clearWorkspace default
                 from_option id].
  rewrite !bool_decide_false by done.
  pose proof (resetOutcome_frame h None (fs w) (draws w) q Hq) as Hreset.
  by destruct (resetOutcome h None (fs w) (draws w)) as [[ids|e] f1].
Qed.

Lemma runMain_reset_witness :
  fs (runMain sampleHost (λ _, "") ["-r"] sampleWorld).2
    !! telemetryPath sampleHost None
  = fs sampleWorld !! telemetryPath sampleHost None.
Proof.
  apply (runMain_reset sampleHost (λ _, "") ["-r"] sampleWorld).
  - right. apply (bool_decide_unpack _). vm_compute. exact I.
  - apply (bool_decide_unpack _). vm_compute. exact I.
  - apply (bool_decide_unpack _). vm_compute. exact I.
  - apply not_eq_sym, storage_ne_telemetry.
Defined.

(** ** The extension's handlers *)

Lemma P_run_bind {A B} (m : P A) (k : A → P B) s :
  (m ≫= k) s =
  match m s with
  | (Ok a, s') => k a s'
  | (Throw e, s') => (Throw e, s')
  end.
Proof. reflexivity. Qed.

Lemma P_run_ret {A} (a : A) s : (mret a : P A) s = (Ok a, s).
Proof. reflexivity. Qed.

Lemma liftM_run {A} (m : M A) r w' w p :
  m w = (r, w') → liftM m (w, p) = (r, (w', p)).
Proof. intros Hm. unfold liftM. cbn [fst snd]. by rewrite Hm. Qed.

Lemma resetOutcome_ok h a f n v :
  (resetOutcome h a f n).1 = Ok v →
  v = identifiers (uuidFrom h n) (uuidFrom h (31 + n)) (uuidFrom h (62 + n)).
Proof.
  unfold resetOutcome. cbv zeta.
  destruct (f !! storagePath h a) as [[[t s|]|]|];
    [| | |by intros [= <-]];
    destruct (faults h (OpRead _)); try (intros [=]; fail).
  destruct (resetValue _ _ _ s); [|intros [=]].
  destruct (faults h (OpWrite _)); [intros [=]|]. by intros [= <-].
Qed.

Lemma resetOutcome_absent h a f n :
  f !! storagePath h a = None →
  resetOutcome h a f n
  = (Ok (identifiers (uuidFrom h n) (uuidFrom h (31 + n))
           (uuidFrom h (62 + n))), f).
Proof. intros Hf. unfold resetOutcome. cbv zeta. by rewrite Hf. Qed.

Lemma truthy_identifiers nm nd ns : truthy (identifiers nm nd ns) = true.
Proof. reflexivity. Qed.

(** X18.  The handler of ['resetDeviceIds'] answers every request with
    exactly one message and one notification, and never with the warning
    that no storage file was found: when the reset returns, it posts
    ['deviceReset'] with the three new identifiers and announces success,
    and that is what it does when the storage file is missing and nothing
    was written; when the reset throws, it posts ['error'] and shows the
    error. The handler itself never throws. *)
Theorem handleResetDeviceIds_never_warns (h : host)
  (inspect : value → string) (errorMessage : error → string)
  (toISOString : N → string) (w : world) (p : panel) :
  let r := handleResetDeviceIds h inspect errorMessage toISOString (w, p) in
  let reset := resetOutcome h None (fs w) (draws w) in
  r.1 = Ok tt
  ∧ fs r.2.1 = reset.2
  ∧ match reset.1 with
    | Ok _ =>
        posted r.2.2
        = posted p ++
          [VObj {[ "command" := VStr "deviceReset";
                   "data" := identifiers (uuidFrom h (draws w))
                               (uuidFrom h (31 + draws w))
                               (uuidFrom h (62 + draws w)) ]}]
        ∧ notices r.2.2
          = notices p ++
            [(Information, "Device identifiers reset successfully!")]
    | Throw e =>
        posted r.2.2
        = posted p ++
          [VObj {[ "command" := VStr "error";
                   "data" := VObj {[ "message" := VStr (errorMessage e) ]} ]}]
        ∧ notices r.2.2
          = notices p ++
            [(Failure, "Error resetting device IDs: " +:+ errorMessage e)]
    end
  ∧ (fs w !! storagePath h None = None →
     fs r.2.1 = fs w
     ∧ notices r.2.2
       = notices p ++
         [(Information, "Device identifiers reset successfully!")]).
Proof.
  intros r reset.
  assert (Hmain :
    r.1 = Ok tt ∧ fs r.2.1 = reset.2
    ∧ match reset.1 with
      | Ok _ =>
          posted r.2.2
          = posted p ++
            [VObj {[ "command" := VStr "deviceReset";
                     "data" := identifiers (uuidFrom h (draws w))
                                 (uuidFrom h (31 + draws w))
                                 (uuidFrom h (62 + draws w)) ]}]
          ∧ notices r.2.2
            = notices p ++
              [(Information, "Device identifiers reset successfully!")]
      | Throw e =>
          posted r.2.2
          = posted p ++
            [VObj {[ "command" := VStr "error";
                     "data" := VObj {[ "message" := VStr (errorMessage e) ]} ]}]
          ∧ notices r.2.2
            = notices p ++
              [(Failure, "Error resetting device IDs: " +:+ errorMessage e)]
      end).
  { subst r reset. unfold handleResetDeviceIds, P_try_catch.
    rewrite P_run_bind, (liftM_run _ _ _ _ _ (console_log_run _ _)).
    cbv beta iota. rewrite P_run_bind.
    destruct (resetDeviceIdentifiers_run h None
                (emits [(Info,
                         [LStr "Extension: Resetting device identifiers..."])]
                   w) (locatable_None h))
      as [l Hrun].
    rewrite fs_emits, draws_emits in Hrun.
    rewrite (liftM_run _ _ _ _ _ Hrun). clear Hrun.
    pose proof (resetOutcome_ok h None (fs w) (draws w)) as Hok.
    destruct (resetOutcome h None (fs w) (draws w)) as [[v|e] f1];
      cbn [fst snd] in Hok |- *.
    - rewrite (Hok v eq_refl). clear Hok.
      rewrite P_run_bind, (liftM_run _ _ _ _ _ (console_log_run _ _)).
      cbv beta iota. rewrite truthy_identifiers.
      unfold postMessage, showMessage. rewrite P_run_bind.
      cbn [fst snd posted notices fs emits]. by repeat split.
    - rewrite P_run_bind, (liftM_run _ _ _ _ _ (console_error_run _ _)).
      cbv beta iota. unfold postMessage, showMessage. rewrite !P_run_bind.
      cbn [fst snd posted notices fs emits]. by repeat split. }
  destruct Hmain as (Hok & Hfs & Hcase).
  split; [exact Hok|]. split; [exact Hfs|]. split; [exact Hcase|].
  intros Hmissing. subst reset.
  rewrite (resetOutcome_absent _ _ _ _ Hmissing) in Hfs, Hcase.
  cbn [fst snd] in Hfs, Hcase. split; [exact Hfs|]. apply Hcase.
Qed.

Lemma infoValue_shape h a f :
  infoValue h a f = VNull ∨ ∃ m, infoValue h a f = VObj m.
Proof.
  unfold infoValue. cbv zeta.
  destruct (f !! storagePath h a) as [[[t s|]|]|]; try by left.
  destruct (faults h (OpRead _)); [by left|].
  destruct s; try (by left); right; eexists; reflexivity.
Qed.

(** X19.  The handler of ['getCurrentDeviceInfo'] never posts ['error']
    and never throws: it answers with exactly one ['deviceInfo'] message,
    carrying what the device manager read or, when that is [null], the
    fallback object with the storage path, the variant and the user data
    path; it shows no notification and leaves the file tree as it was. *)
Theorem handleGetCurrentDeviceInfo_always_answers (h : host)
  (inspect : value → string) (errorMessage : error → string)
  (w : world) (p : panel) :
  let r := handleGetCurrentDeviceInfo h inspect errorMessage (w, p) in
  let info := infoValue h None (fs w) in
  let fallback :=
    VObj {[ "message" :=
              VStr "No device information found in VS Code storage";
            "storagePath" := VStr (path_str (storagePath h None));
            "variant" := VStr (variantOf h);
            "userDataPath" := VStr (path_str (userDataDir h None)) ]} in
  r.1 = Ok tt
  ∧ fs r.2.1 = fs w
  ∧ notices r.2.2 = notices p
  ∧ ∃ data,
      posted r.2.2
      = posted p ++ [VObj {[ "command" := VStr "deviceInfo";
                             "data" := data ]}]
      ∧ (info = VNull → data = fallback)
      ∧ (info ≠ VNull → data = info).
Proof.
  intros r info fallback. subst r info.
  unfold handleGetCurrentDeviceInfo, P_try_catch.
  rewrite P_run_bind, (liftM_run _ _ _ _ _ (console_log_run _ _)).
  cbv beta iota.
  rewrite P_run_bind, (liftM_run _ _ _ _ _ (getCurrentDeviceInfo_run _ _ _ (locatable_None h))).
  cbv beta iota. rewrite fs_emits.
  rewrite P_run_bind, (liftM_run _ _ _ _ _ (console_log_run _ _)).
  cbv beta iota.
  destruct (infoValue_shape h None (fs w)) as [Hnull|[m Hobj]].
  - rewrite Hnull. cbn [truthy].
    rewrite P_run_bind, (liftM_run _ _ _ _ _ (getMachineIdPath_run _ _ _ (locatable_None h))).
    cbv beta iota.
    rewrite P_run_bind, (liftM_run _ _ _ _ _ (detectVSCodeVariant_run _ _)).
    cbv beta iota.
    rewrite P_run_bind, (liftM_run _ _ _ _ _ (getUserDataPath_run _ _ _ (locatable_None h))).
    cbv beta iota zeta. unfold postMessage.
    cbn [fst snd posted notices fs emits].
    repeat (split; [reflexivity|]). exists fallback.
    split; [reflexivity|]. split; [reflexivity|]. intros Hne. by destruct Hne.
  - rewrite Hobj. cbn [truthy]. unfold postMessage.
    cbn [fst snd posted notices fs emits].
    repeat (split; [reflexivity|]). exists (VObj m).
    split; [reflexivity|]. split; [intros [=]|reflexivity].
Qed.

(** X20.  The command [vscode-learning-extension.deviceManager] always
    ends in an information message with the stringified device
    information, [null] included when nothing could be read; its error
    message is never shown, nothing is posted and the file tree stays as
    it was. *)
Theorem deviceManagerCommand_shows_info (h : host)
  (errorMessage : error → string) (stringify : value → string)
  (w : world) (p : panel) :
  let r := deviceManagerCommand h errorMessage stringify (w, p) in
  r.1 = Ok VUndefined
  ∧ fs r.2.1 = fs w
  ∧ posted r.2.2 = posted p
  ∧ notices r.2.2
    = notices p ++
      [(Information,
        "Current Device Info: " +:+ stringify (infoValue h None (fs w)))].
Proof.
  intros r. subst r. unfold deviceManagerCommand, P_try_catch.
  rewrite !P_run_bind, (liftM_run _ _ _ _ _ (getCurrentDeviceInfo_run _ _ _ (locatable_None h))).
  cbv beta iota. unfold showMessage. rewrite P_run_ret.
  cbn [fst snd posted notices fs emits]. by repeat split.
Qed.

